(** * Handlers of the socios dashboard: a shallow embedding

    The dashboard is a React application.  Its handlers are asynchronous
    functions that read and write component state, call the hosted backend
    and three identity-lookup services, log to the console and raise
    toasts.  Each handler is embedded as a computation in a small monad
    that threads the component state, can throw, and emits the externally
    visible events in the order the source issues them.  What the outside
    world answers (an HTTP response, a query result) is an argument of the
    handler.

    JavaScript objects whose shape the sources leave open (form values,
    rows sent to the backend, API payloads) are finite maps from property
    names to JavaScript values; interfaces the sources declare are records.
    A string holds the UTF-8 bytes of the JavaScript string: lengths count
    UTF-16 code units, the order of strings is the order of their code units
    and white space is that of ECMAScript. *)

From Stdlib Require Import ZArith QArith.QArith_base Strings.Ascii.
From stdpp Require Import base option list strings gmap pretty sorting.

Local Open Scope Z_scope.
Local Open Scope stdpp_scope.

(** ** JavaScript values *)

Inductive jsv :=
| JUndefined
| JNull
| JBool (b : bool)
| JNum (q : Q)
| JStr (s : string).

(** An object literal, a row, a set of form values. *)
Abbreviation jsobj := (gmap string jsv).

(** [!!v] *)
Definition truthy (v : jsv) : bool :=
  match v with
  | JUndefined | JNull => false
  | JBool b => b
  | JNum q => negb (Qeq_bool q (Qmake 0 1))
  | JStr s => negb (String.eqb s "")
  end.

(** [a || b] *)
Definition js_or (a b : jsv) : jsv := if truthy a then a else b.

(** [a ?? b] *)
Definition js_nullish (a b : jsv) : jsv :=
  match a with JUndefined | JNull => b | _ => a end.

(** [o.k]: a missing property reads as [undefined]. *)
Definition prop (o : jsobj) (k : string) : jsv := default JUndefined (o !! k).

(** Truthiness of a [string | null] column. *)
Definition truthy_str (v : option string) : bool :=
  match v with Some s => negb (String.eqb s "") | None => false end.

(** ** Strings

    A [string] holds the UTF-8 bytes of a JavaScript string.  [chars] cuts it
    into its characters and [utf16] gives the UTF-16 code units JavaScript
    computes with.  Splitting, searching and joining give the same result on
    the bytes as on the code units. *)

(** The characters of a text.  A byte below 0xC0 stands alone: an ASCII
    character (a continuation byte that follows no lead byte is kept as a
    character of its own).  A lead byte takes the one, two or three bytes
    that follow it. *)
Fixpoint chars (s : string) : list string :=
  match s with
  | EmptyString => []
  | String a s1 =>
      if (N_of_ascii a <? 0xC0)%N then String a EmptyString :: chars s1
      else
        match s1 with
        | EmptyString => [s]
        | String b s2 =>
            if (N_of_ascii a <? 0xE0)%N then String a (String b EmptyString) :: chars s2
            else
              match s2 with
              | EmptyString => [s]
              | String c s3 =>
                  if (N_of_ascii a <? 0xF0)%N
                  then String a (String b (String c EmptyString)) :: chars s3
                  else
                    match s3 with
                    | EmptyString => [s]
                    | String d s4 =>
                        String a (String b (String c (String d EmptyString))) :: chars s4
                    end
              end
        end
  end.

(** The code point of a character: the payload bits of its bytes.  A stray
    continuation byte and a sequence that is cut off read as U+FFFD. *)
Definition code_point (c : string) : N :=
  match c with
  | String a EmptyString =>
      let a := N_of_ascii a in
      if a <? 0x80 then a else 0xFFFD
  | String a (String b EmptyString) =>
      let a := N_of_ascii a in let b := N_of_ascii b in
      if a <? 0xE0 then (a mod 0x20) * 0x40 + b mod 0x40 else 0xFFFD
  | String a (String b (String c EmptyString)) =>
      let a := N_of_ascii a in let b := N_of_ascii b in let c := N_of_ascii c in
      if a <? 0xF0 then (a mod 0x10) * 0x1000 + (b mod 0x40) * 0x40 + c mod 0x40
      else 0xFFFD
  | String a (String b (String c (String d EmptyString))) =>
      let a := N_of_ascii a in let b := N_of_ascii b in
      let c := N_of_ascii c in let d := N_of_ascii d in
      (a mod 0x08) * 0x40000 + (b mod 0x40) * 0x1000 + (c mod 0x40) * 0x40 + d mod 0x40
  | _ => 0xFFFD
  end%N.

(** The UTF-16 code units of a code point: itself, or a surrogate pair. *)
Definition code_units (cp : N) : list N :=
  if (cp <? 0x10000)%N then [cp]
  else [0xD800 + (cp - 0x10000) / 0x400; 0xDC00 + (cp - 0x10000) mod 0x400]%N.

Definition utf16 (s : string) : list N :=
  List.flat_map (fun c => code_units (code_point c)) (chars s).

(** [s.length] *)
Definition js_length (s : string) : nat := length (utf16 s).

(** The order of lists of code units. *)
Fixpoint units_leb (a b : list N) : bool :=
  match a, b with
  | [], _ => true
  | _ :: _, [] => false
  | x :: a', y :: b' =>
      if (x <? y)%N then true else if (y <? x)%N then false else units_leb a' b'
  end.

(** [!(b < a)] on strings, the order [sort] puts them in. *)
Definition js_leb (a b : string) : bool := units_leb (utf16 a) (utf16 b).

(** The white space and the line terminators of ECMAScript: TAB, LF, VT, FF,
    CR, the space, the no-break space, the other space separators of
    Unicode, the line and paragraph separators and the byte order mark. *)
Definition white_space (cp : N) : bool :=
  ((0x09 <=? cp) && (cp <=? 0x0D) || (cp =? 0x20) || (cp =? 0xA0) || (cp =? 0x1680)
   || (0x2000 <=? cp) && (cp <=? 0x200A) || (cp =? 0x2028) || (cp =? 0x2029)
   || (cp =? 0x202F) || (cp =? 0x205F) || (cp =? 0x3000) || (cp =? 0xFEFF))%N.

(** [s.split(c)] for a one-character separator. *)
Fixpoint js_split (sep : Ascii.ascii) (s : string) : list string :=
  match s with
  | EmptyString => [EmptyString]
  | String c rest =>
      if Ascii.eqb c sep then EmptyString :: js_split sep rest
      else match js_split sep rest with
           | h :: t => String c h :: t
           | [] => [String c EmptyString]
           end
  end.

(** [s.includes(pat)] *)
Definition js_includes (pat s : string) : bool :=
  match String.index 0 pat s with Some _ => true | None => false end.

(** [s.replace(pat, rep)] with a string pattern: the first occurrence only. *)
Definition js_replace (pat rep s : string) : string :=
  match String.index 0 pat s with
  | Some i =>
      String.substring 0 i s +:+ rep +:+
      String.substring (i + String.length pat)
                       (String.length s - (i + String.length pat)) s
  | None => s
  end.

Fixpoint drop_space (l : list string) : list string :=
  match l with
  | c :: rest => if white_space (code_point c) then drop_space rest else l
  | [] => []
  end.

(** [s.trim()] *)
Definition js_trim (s : string) : string :=
  String.concat "" (rev (drop_space (rev (drop_space (chars s))))).

(** [a[a.length - 1]], [undefined] on the empty array. *)
Definition js_last (l : list string) : option string := last l.

(** [a[i] || ''] on an array of strings. *)
Definition nth_or_empty (l : list string) (i : nat) : string :=
  match l !! i with Some s => s | None => "" end.

(** [[...new Set(l)]]: first occurrences, in order. *)
Fixpoint js_unique (l : list string) : list string :=
  match l with
  | [] => []
  | x :: rest => x :: List.filter (fun y => negb (String.eqb x y)) (js_unique rest)
  end.

Fixpoint insert_sorted (x : string) (l : list string) : list string :=
  match l with
  | [] => [x]
  | y :: rest => if js_leb x y then x :: l else y :: insert_sorted x rest
  end.

(** [a.sort()] on strings. *)
Definition js_sort (l : list string) : list string := foldr insert_sorted [] l.

(** The one-character string of a double quote. *)
Definition dquote : string := String (Ascii.ascii_of_nat 34) EmptyString.

(** [a.includes(x)] on an array of strings. *)
Definition includes_str (l : list string) (x : string) : bool :=
  existsb (String.eqb x) l.

(** ** Events and the handler monad *)

Inductive toast_kind :=
| ToastSuccess | ToastError | ToastWarning | ToastInfo | ToastDefault | ToastDestructive.

Inductive lookup_api := ApiPrimary | ApiSecondary | ApiTertiary.

Inductive event :=
| EConsoleError (label : string)
| EConsoleWarn (label : string)
| EToast (kind : toast_kind) (title : string)
| EHttp (api : lookup_api) (dni : string)
| EDbSelect (table : string)
| EDbInsert (table : string) (row : jsobj)
| EDbUpdate (table : string) (key : jsv) (row : jsobj)
| ECall (fn : string) (args : jsobj).

(** A thrown value: its [message]. *)
Definition exn := string.

Inductive outcome (A : Type) :=
| Normal (a : A)
| Thrown (e : exn).
Arguments Normal {A} a.
Arguments Thrown {A} e.

Record run_result (St A : Type) := RunResult {
  res : outcome A;
  final : St;
  emitted : list event
}.
Arguments RunResult {St A}.
Arguments res {St A}.
Arguments final {St A}.
Arguments emitted {St A}.

Definition M (St A : Type) : Type := St -> run_result St A.

Definition ret {St A} (a : A) : M St A := fun s => RunResult (Normal a) s [].

Definition bind {St A B} (m : M St A) (k : A -> M St B) : M St B :=
  fun s =>
    let r := m s in
    match res r with
    | Normal a =>
        let r' := k a (final r) in
        RunResult (res r') (final r') (emitted r ++ emitted r')
    | Thrown e => RunResult (Thrown e) (final r) (emitted r)
    end.

Definition throw {St A} (e : exn) : M St A := fun s => RunResult (Thrown e) s [].

(** [try { body } catch (e) { handler(e) }]: state changes and events of the
    body up to the throw are kept. *)
Definition try_catch {St A} (body : M St A) (handler : exn -> M St A) : M St A :=
  fun s =>
    let r := body s in
    match res r with
    | Normal a => r
    | Thrown e =>
        let r' := handler e (final r) in
        RunResult (res r') (final r') (emitted r ++ emitted r')
    end.

(** [try { body } finally { cleanup }] *)
Definition try_finally {St A} (body : M St A) (cleanup : M St unit) : M St A :=
  fun s =>
    let r := body s in
    let r' := cleanup (final r) in
    match res r' with
    | Normal _ => RunResult (res r) (final r') (emitted r ++ emitted r')
    | Thrown e => RunResult (Thrown e) (final r') (emitted r ++ emitted r')
    end.

Definition emit {St} (e : event) : M St unit := fun s => RunResult (Normal tt) s [e].
Definition get {St} : M St St := fun s => RunResult (Normal s) s [].
Definition modify {St} (f : St -> St) : M St unit := fun s => RunResult (Normal tt) (f s) [].

(** [if (c) { m }] *)
Definition when {St} (c : bool) (m : M St unit) : M St unit := if c then m else ret tt.

Declare Scope handler_scope.
Delimit Scope handler_scope with handler.
Notation "x <- c1 ;; c2" := (bind c1 (fun x => c2))
  (at level 100, c1 at next level, right associativity) : handler_scope.
Notation "c1 ;; c2" := (bind c1 (fun _ => c2))
  (at level 100, right associativity) : handler_scope.
Local Open Scope handler_scope.

Definition console_error {St} (label : string) : M St unit := emit (EConsoleError label).
Definition console_warn {St} (label : string) : M St unit := emit (EConsoleWarn label).
Definition toast {St} (k : toast_kind) (title : string) : M St unit := emit (EToast k title).

(** The identity-lookup APIs requested, in order. *)
Definition http_calls (l : list event) : list lookup_api :=
  omap (fun e => match e with EHttp api _ => Some api | _ => None end) l.

(** The value a boolean handler resolves to ([false] if it throws). *)
Definition returned {St} (r : run_result St bool) : bool :=
  match res r with Normal b => b | Thrown _ => false end.

(** ** Notions used to reason about handlers *)

(** A step that neither throws nor emits, and returns [a]. *)
Definition silent {St A} (m : M St A) (a : A) : Prop :=
  ∀ s, res (m s) = Normal a ∧ emitted (m s) = [].

(** The state after a handler is related to the state before it. *)
Definition respects {St A} (R : St → St → Prop) (m : M St A) : Prop :=
  ∀ s, R s (final (m s)).

(** Every event a handler emits satisfies [P]. *)
Definition emits_only {St A} (P : event → Prop) (m : M St A) : Prop :=
  ∀ s, Forall P (emitted (m s)).

(** A handler that always returns. *)
Definition never_throws {St A} (m : M St A) : Prop :=
  ∀ s, ∃ a, res (m s) = Normal a.

(** An event that is not a request to an identity-lookup API. *)
Definition not_http (e : event) : Prop := http_calls [e] = [].


(** What a backend query resolves to: [{ data, error }]. *)
Inductive db_result (A : Type) :=
| DbError (message : string)
| DbData (data : A).
Arguments DbError {A} message.
Arguments DbData {A} data.

(** What an HTTP request resolves to: the promise rejects (or the body is not
    an object, so that reading its first property throws), or a body. *)
Inductive http_result (B : Type) :=
| HttpThrows (message : string)
| HttpOk (body : B).
Arguments HttpThrows {B} message.
Arguments HttpOk {B} body.

(** * The partner-documents page (PartnerDocuments) *)

Module PartnerDocuments.

(** [interface SocioDocumento] *)
Record SocioDocumento := {
  doc_id : Z;
  tipo_documento : string;
  link_documento : option string;
  transaction_type : option string
}.

Inductive payment_status := Pagado | NoPagado.

(** [interface IngresoInfo] *)
Record IngresoInfo := {
  status : payment_status;
  receipt_number : option string
}.

(** [interface SocioConDocumentos] *)
Record SocioConDocumentos := {
  id : string;
  dni : string;
  nombres : string;
  apellidoPaterno : string;
  apellidoMaterno : string;
  localidad : string;
  mz : option string;
  lote : option string;
  is_lote_medido : option bool;
  socio_documentos : list SocioDocumento;
  paymentInfo : IngresoInfo
}.

(** A row of the [socio_titulares] query, documents nested. *)
Record SocioRow := {
  row_id : string;
  row_dni : string;
  row_nombres : string;
  row_apellidoPaterno : string;
  row_apellidoMaterno : string;
  row_localidad : string;
  row_mz : option string;
  row_lote : option string;
  row_is_lote_medido : option bool;
  row_socio_documentos : list SocioDocumento
}.

(** A row of the [ingresos] query. *)
Record IngresoRow := {
  ing_dni : option string;
  ing_receipt_number : option string;
  ing_transaction_type : option string
}.

(** The entries grouped under a DNI: [{ receipt_number, transaction_type }]. *)
Record IngresoEntry := {
  entry_receipt_number : option string;
  entry_transaction_type : option string
}.

Definition allowedDocumentTypes : list string :=
  ["Planos de ubicación"; "Memoria descriptiva"; "Ficha"; "Contrato";
   "Comprobante de Pago"].

Definition validTransactionTypes : list string :=
  ["Venta"; "Ingreso"; "Recibo de Pago"].

(** [ingresosByDni]: the first [forEach] of [fetchAllData]. *)
Definition group_ingresos (rows : list IngresoRow) : gmap string (list IngresoEntry) :=
  foldl (fun m ingreso =>
           match ing_dni ingreso with
           | Some d =>
               if truthy_str (Some d) then
                 <[d := default [] (m !! d) ++
                        [{| entry_receipt_number := ing_receipt_number ingreso;
                            entry_transaction_type := ing_transaction_type ingreso |}]]> m
               else m
           | None => m
           end) ∅ rows.

(** [receiptTransactionTypeMap]: the second [forEach]. *)
Definition receipt_types (rows : list IngresoRow) : gmap string string :=
  foldl (fun m ingreso =>
           match ing_receipt_number ingreso, ing_transaction_type ingreso with
           | Some r, Some t =>
               if truthy_str (Some r) && truthy_str (Some t) then <[r := t]> m else m
           | _, _ => m
           end) ∅ rows.

(** The test of the [for] loop over the socio's ingresos. *)
Definition valid_ingreso (e : IngresoEntry) : bool :=
  truthy_str (entry_receipt_number e) &&
  match entry_transaction_type e with
  | Some t => truthy_str (Some t) && includes_str validTransactionTypes t
  | None => false
  end.

Definition payment_info (socioIngresos : list IngresoEntry) : IngresoInfo :=
  match List.find valid_ingreso socioIngresos with
  | Some e => {| status := Pagado; receipt_number := entry_receipt_number e |}
  | None => {| status := NoPagado; receipt_number := None |}
  end.

(** [serieCorrelativo] of a voucher link: the file name without [.pdf]. *)
Definition serie_correlativo (link : string) : string :=
  js_replace ".pdf" "" (default "" (js_last (js_split "/"%char link))).

(** The callback of [socio.socio_documentos.filter]. *)
Definition keep_document (types : gmap string string) (doc : SocioDocumento) : bool :=
  if negb (includes_str allowedDocumentTypes (tipo_documento doc))
     || negb (truthy_str (link_documento doc))
  then false
  else if String.eqb (tipo_documento doc) "Comprobante de Pago" then
    match types !! serie_correlativo (default "" (link_documento doc)) with
    | Some t => truthy_str (Some t) && includes_str validTransactionTypes t
    | None => false
    end
  else true.

(** The callback of the [map] that follows the filter. *)
Definition tag_document (types : gmap string string) (doc : SocioDocumento) : SocioDocumento :=
  if String.eqb (tipo_documento doc) "Comprobante de Pago"
     && truthy_str (link_documento doc)
  then {| doc_id := doc_id doc;
          tipo_documento := tipo_documento doc;
          link_documento := link_documento doc;
          transaction_type := types !! serie_correlativo (default "" (link_documento doc)) |}
  else doc.

Definition is_doc_of (tipo : string) (doc : SocioDocumento) : bool :=
  String.eqb (tipo_documento doc) tipo && truthy_str (link_documento doc).

(** The callback of [sociosRes.data.map]. *)
Definition process_socio (byDni : gmap string (list IngresoEntry))
    (types : gmap string string) (socio : SocioRow) : SocioConDocumentos :=
  let socioIngresos := default [] (byDni !! row_dni socio) in
  let filteredSocioDocuments :=
    tag_document types <$> List.filter (keep_document types) (row_socio_documentos socio) in
  let hasPlanos := existsb (is_doc_of "Planos de ubicación") filteredSocioDocuments in
  let hasMemoria := existsb (is_doc_of "Memoria descriptiva") filteredSocioDocuments in
  let isMeasuredByDocument := hasPlanos || hasMemoria in
  let finalIsLoteMedido := isMeasuredByDocument || default false (row_is_lote_medido socio) in
  {| id := row_id socio;
     dni := row_dni socio;
     nombres := row_nombres socio;
     apellidoPaterno := row_apellidoPaterno socio;
     apellidoMaterno := row_apellidoMaterno socio;
     localidad := row_localidad socio;
     mz := row_mz socio;
     lote := row_lote socio;
     is_lote_medido := Some finalIsLoteMedido;
     socio_documentos := filteredSocioDocuments;
     paymentInfo := payment_info socioIngresos |}.

(** The component state the two handlers touch. *)
Record state := {
  sociosConDocumentos : list SocioConDocumentos;
  loading : bool;
  error : option string;
  localidades : list string
}.

Definition setSociosConDocumentos (f : list SocioConDocumentos -> list SocioConDocumentos)
    (st : state) : state :=
  {| sociosConDocumentos := f (sociosConDocumentos st);
     loading := loading st; error := error st; localidades := localidades st |}.

Definition setLoading (b : bool) (st : state) : state :=
  {| sociosConDocumentos := sociosConDocumentos st;
     loading := b; error := error st; localidades := localidades st |}.

Definition setError (e : option string) (st : state) : state :=
  {| sociosConDocumentos := sociosConDocumentos st;
     loading := loading st; error := e; localidades := localidades st |}.

Definition setLocalidades (l : list string) (st : state) : state :=
  {| sociosConDocumentos := sociosConDocumentos st;
     loading := loading st; error := error st; localidades := l |}.

(** [if (res.error) throw res.error] *)
Definition unwrap {A} (r : db_result A) : M state A :=
  match r with
  | DbError m => throw m
  | DbData d => ret d
  end.

Definition truthy_strings (l : list (option string)) : list string :=
  omap (fun v => if truthy_str v then v else None) l.

Definition fetchAllData (sociosRes : db_result (list SocioRow))
    (localidadesRes : db_result (list (option string)))
    (ingresosRes : db_result (list IngresoRow)) : M state unit :=
  modify (setLoading true) ;;
  try_finally
    (try_catch
       (emit (EDbSelect "socio_titulares") ;;
        emit (EDbSelect "socio_titulares") ;;
        emit (EDbSelect "ingresos") ;;
        socios <- unwrap sociosRes ;;
        locs <- unwrap localidadesRes ;;
        ingresos <- unwrap ingresosRes ;;
        modify (setLocalidades (js_sort (js_unique (truthy_strings locs)))) ;;
        modify (setSociosConDocumentos (fun _ =>
                  process_socio (group_ingresos ingresos) (receipt_types ingresos) <$> socios)) ;;
        modify (setError None))
       (fun e =>
          console_error "Error fetching data:" ;;
          modify (setError (Some "Error al cargar los datos. Por favor, revisa la consola para más detalles.")) ;;
          toast ToastError "Error al cargar datos" ;;
          modify (setSociosConDocumentos (fun _ => []))))
    (modify (setLoading false)).

Definition with_lote_medido (v : option bool) (s : SocioConDocumentos) : SocioConDocumentos :=
  {| id := id s; dni := dni s; nombres := nombres s;
     apellidoPaterno := apellidoPaterno s; apellidoMaterno := apellidoMaterno s;
     localidad := localidad s; mz := mz s; lote := lote s;
     is_lote_medido := v;
     socio_documentos := socio_documentos s; paymentInfo := paymentInfo s |}.

(** [prev.map(s => s.id === socioId ? { ...s, is_lote_medido: v } : s)] *)
Definition map_lote_medido (socioId : string) (v : option bool)
    (prev : list SocioConDocumentos) : list SocioConDocumentos :=
  (fun s => if String.eqb (id s) socioId then with_lote_medido v s else s) <$> prev.

Definition has_required_docs (s : SocioConDocumentos) : bool :=
  existsb (fun doc =>
             (String.eqb (tipo_documento doc) "Planos de ubicación"
              || String.eqb (tipo_documento doc) "Memoria descriptiva")
             && truthy_str (link_documento doc))
          (socio_documentos s).

(** The optimistic update, before the request is awaited. *)
Definition optimistic_update (socioId : string) (newValue : bool) : M state unit :=
  modify (setSociosConDocumentos (map_lote_medido socioId (Some newValue))).

(** The request and what follows it. *)
Definition commit_update (originalData : SocioConDocumentos) (socioId : string)
    (newValue : bool) (updateRes : db_result unit) : M state unit :=
  try_catch
    (emit (EDbUpdate "socio_titulares" (JStr socioId) {[ "is_lote_medido" := JBool newValue ]}) ;;
     unwrap updateRes ;;
     toast ToastSuccess "Estado de Lote Medido actualizado")
    (fun e =>
       console_error "Error updating lote medido:" ;;
       toast ToastError "Error al actualizar" ;;
       modify (setSociosConDocumentos
                 (map_lote_medido socioId (is_lote_medido originalData)))).

Definition handleUpdateLoteMedido (isAdmin : bool) (socioId : string) (newValue : bool)
    (updateRes : db_result unit) : M state unit :=
  if negb isAdmin then toast ToastError "Permiso denegado"
  else
    st <- get ;;
    match List.find (fun s => String.eqb (id s) socioId) (sociosConDocumentos st) with
    | None => ret tt
    | Some originalData =>
        if negb newValue && has_required_docs originalData
        then toast ToastWarning "Acción Bloqueada"
        else
          optimistic_update socioId newValue ;;
          commit_update originalData socioId newValue updateRes
    end.


(** The state of the page when it mounts. *)
Definition initial : state :=
  {| sociosConDocumentos := []; loading := true; error := None; localidades := [] |}.



End PartnerDocuments.

(** * Schema validation (the part of zod the registration form uses)

    A schema parses a value to a status, the messages of the issues it
    raised, and an output value.  A type mismatch aborts; a failed check
    leaves the value dirty and later checks still run.  An object aborts
    when one of its properties aborts, and a refinement runs only on a
    value that did not abort. *)

Module Zod.

Inductive parse_status := Valid | Dirty | Aborted.

Record parsed := {
  status : parse_status;
  messages : list string;
  value : jsv
}.

Definition schema := jsv -> parsed.

Record issue := {
  path : list string;
  message : string
}.

Definition ok (v : jsv) : parsed := {| status := Valid; messages := []; value := v |}.

Definition typeof_name (v : jsv) : string :=
  match v with
  | JUndefined => "undefined"
  | JNull => "null"
  | JBool _ => "boolean"
  | JNum _ => "number"
  | JStr _ => "string"
  end.

(** The default message of an [invalid_type] issue. *)
Definition invalid_type (expected : string) (v : jsv) : parsed :=
  {| status := Aborted;
     messages := [match v with
                  | JUndefined => "Required"
                  | _ => "Expected " +:+ expected +:+ ", received " +:+ typeof_name v
                  end];
     value := v |}.

Definition checked (msgs : list string) (v : jsv) : parsed :=
  {| status := match msgs with [] => Valid | _ => Dirty end;
     messages := msgs; value := v |}.

(** A check of a string schema: its message when it fails. *)
Definition string_check := string -> option string.

(** [.min(n)] and [.max(n)]: bounds on [s.length]. *)
Definition min_len (n : nat) (msg : string) : string_check :=
  fun s => if (js_length s <? n)%nat then Some msg else None.

Definition max_len (n : nat) (msg : string) : string_check :=
  fun s => if (n <? js_length s)%nat then Some msg else None.

Definition matching (re : string -> bool) (msg : string) : string_check :=
  fun s => if re s then None else Some msg.

(** [z.string()] followed by its checks. *)
Definition z_string (checks : list string_check) : schema :=
  fun v =>
    match v with
    | JStr s => checked (omap (fun c => c s) checks) v
    | _ => invalid_type "string" v
    end.

Definition is_integer (q : Q) : bool := (Qnum q mod Z.pos (Qden q) =? 0)%Z.

(** [z.number().int().min(0, { message })] *)
Definition z_number_int_min0 (msg : string) : schema :=
  fun v =>
    match v with
    | JNum q =>
        checked ((if is_integer q then [] else ["Expected integer, received float"])
                 ++ (if Qle_bool (Qmake 0 1) q then [] else [msg])) v
    | _ => invalid_type "number" v
    end.

(** [z.boolean()] *)
Definition z_boolean : schema :=
  fun v => match v with JBool _ => ok v | _ => invalid_type "boolean" v end.

(** [z.enum(options, { message })]: the message replaces both of its errors. *)
Definition z_enum (options : list string) (msg : string) : schema :=
  fun v =>
    match v with
    | JStr s =>
        if includes_str options s then ok v
        else {| status := Aborted; messages := [msg]; value := v |}
    | _ => {| status := Aborted; messages := [msg]; value := v |}
    end.

Definition optional (inner : schema) : schema :=
  fun v => match v with JUndefined => ok v | _ => inner v end.

Definition nullable (inner : schema) : schema :=
  fun v => match v with JNull => ok v | _ => inner v end.

(** [.default(d)] *)
Definition with_default (d : jsv) (inner : schema) : schema :=
  fun v => match v with JUndefined => inner d | _ => inner v end.

(** [.refine(test, { message })] *)
Definition refine (test : jsv -> bool) (msg : string) (inner : schema) : schema :=
  fun v =>
    let r := inner v in
    match status r with
    | Aborted => r
    | _ =>
        if test (value r) then r
        else {| status := Dirty; messages := messages r ++ [msg]; value := value r |}
    end.

Definition merge_status (a b : parse_status) : parse_status :=
  match a, b with
  | Aborted, _ | _, Aborted => Aborted
  | Dirty, _ | _, Dirty => Dirty
  | Valid, Valid => Valid
  end.

(** The result of parsing an object. *)
Record parsed_object := {
  obj_status : parse_status;
  issues : list issue;
  output : jsobj
}.

(** [z.object(shape)]: the properties in the order of the shape; unknown
    keys are dropped and an [undefined] output is left out. *)
Fixpoint z_object (shape : list (string * schema)) (input : jsobj) : parsed_object :=
  match shape with
  | [] => {| obj_status := Valid; issues := []; output := ∅ |}
  | (k, s) :: rest =>
      let r := s (prop input k) in
      let r' := z_object rest input in
      {| obj_status := merge_status (status r) (obj_status r');
         issues := ((fun m => {| path := [k]; message := m |}) <$> messages r) ++ issues r';
         output := match value r with
                   | JUndefined => output r'
                   | v => <[k := v]> (output r')
                   end |}
  end.

(** [.superRefine((data, ctx) => ...)]: [callback data] is the list of the
    issues the callback adds. *)
Definition superRefine (callback : jsobj -> list issue) (inner : jsobj -> parsed_object)
    (input : jsobj) : parsed_object :=
  let r := inner input in
  match obj_status r with
  | Aborted => r
  | _ =>
      let added := callback (output r) in
      {| obj_status := match added with [] => obj_status r | _ => Dirty end;
         issues := issues r ++ added;
         output := output r |}
  end.

(** [z.intersection(left, right)] of two object schemas. *)
Definition intersection (left right : jsobj -> parsed_object) (input : jsobj) : parsed_object :=
  let l := left input in
  let r := right input in
  {| obj_status := merge_status (obj_status l) (obj_status r);
     issues := issues l ++ issues r;
     output := output l ∪ output r |}.

(** An issue is reported on the property [k]. *)
Definition has_issue_on (k : string) (r : parsed_object) : Prop :=
  ∃ i, i ∈ issues r ∧ path i = [k].

End Zod.

(** * The registration form (SocioTitularRegistrationForm) *)

Module SocioTitularRegistrationForm.
Import Zod.

Fixpoint all_digits (s : string) : bool :=
  match s with
  | EmptyString => true
  | String c rest =>
      match Ascii.is_nat c with Some _ => all_digits rest | None => false end
  end.

(** [/^\d{8}$/] *)
Definition re_dni (s : string) : bool := (String.length s =? 8)%nat && all_digits s.

(** [/^\d+$/] *)
Definition re_digits (s : string) : bool := (0 <? String.length s)%nat && all_digits s.

Definition required_text (empty_msg long_msg : string) : schema :=
  z_string [min_len 1 empty_msg; max_len 255 long_msg].

(** The test of the [refine] on [celular]. *)
Definition celular_test (val : jsv) : bool :=
  match val with
  | JNull | JUndefined => true
  | JStr s => if String.eqb s "" then true else re_digits s
  | _ => false
  end.

(** The schema of the two detail fields: an optional, nullable string of at
    most 1000 characters. *)
Definition detail_schema (msg : string) : schema :=
  nullable (optional (z_string [max_len 1000 msg])).

Definition personal_shape : list (string * schema) :=
  [("dni", z_string [min_len 8 "El DNI debe tener 8 dígitos.";
                     max_len 8 "El DNI debe tener 8 dígitos.";
                     matching re_dni "El DNI debe ser 8 dígitos numéricos."]);
   ("nombres", required_text "Los nombres son requeridos." "Los nombres son demasiado largos.");
   ("apellidoPaterno", required_text "El apellido paterno es requerido."
                                     "El apellido paterno es demasiado largo.");
   ("apellidoMaterno", required_text "El apellido materno es requerido."
                                     "El apellido materno es demasiado largo.");
   ("fechaNacimiento", z_string [min_len 1 "La fecha de nacimiento es requerida."]);
   ("edad", nullable (optional (z_number_int_min0 "La edad no puede ser negativa.")));
   ("celular", refine celular_test "El celular debe contener solo números si está presente."
                 (nullable (optional (z_string [max_len 15 "El celular es demasiado largo."]))));
   ("situacionEconomica", z_enum ["Pobre"; "Extremo Pobre"] "La situación económica es requerida.");
   ("direccionDNI", required_text "La dirección DNI es requerida." "La dirección DNI es demasiado larga.");
   ("regionDNI", required_text "La región DNI es requerida." "La región DNI es demasiado larga.");
   ("provinciaDNI", required_text "La provincia DNI es requerida." "La provincia DNI es demasiado larga.");
   ("distritoDNI", required_text "El distrito DNI es requerido." "El distrito DNI es demasiado larga.");
   ("localidad", required_text "La localidad es requerida." "La localidad es demasiado larga.");
   ("isObservado", with_default (JBool false) z_boolean);
   ("observacion", nullable (optional (z_string [max_len 1000 "La observación es demasiado larga."])));
   ("isPaymentObserved", with_default (JBool false) z_boolean);
   ("paymentObservationDetail",
    nullable (optional (z_string
      [max_len 1000 "El detalle de la observación de pago es demasiado largo."])))].

(** [!v || v.trim() === ''] on a parsed detail (a string, [null] or
    [undefined]). *)
Definition blank (v : jsv) : bool :=
  negb (truthy v) ||
  match v with JStr s => String.eqb (js_trim s) "" | _ => false end.

(** The callback of [superRefine]. *)
Definition conditional_details (data : jsobj) : list issue :=
  (if truthy (prop data "isObservado") && blank (prop data "observacion")
   then [{| path := ["observacion"];
            message := "La observación administrativa es requerida si el socio está marcado como "
                       +:+ dquote +:+ "Observado" +:+ dquote +:+ "." |}]
   else [])
  ++
  (if truthy (prop data "isPaymentObserved") && blank (prop data "paymentObservationDetail")
   then [{| path := ["paymentObservationDetail"];
            message := "El detalle de la observación de pago es requerido si el pago está marcado como "
                       +:+ dquote +:+ "Observado" +:+ dquote +:+ "." |}]
   else []).

Definition personalDataSchema : jsobj -> parsed_object :=
  superRefine conditional_details (z_object personal_shape).

Definition free_text : schema := nullable (optional (z_string [])).

Definition addressDataSchema : jsobj -> parsed_object :=
  z_object [("regionVivienda", free_text); ("provinciaVivienda", free_text);
            ("distritoVivienda", free_text); ("direccionVivienda", free_text);
            ("mz", free_text); ("lote", free_text)].

Definition formSchema : jsobj -> parsed_object :=
  intersection personalDataSchema addressDataSchema.


(** ** Component state *)

Inductive tab := TabPersonal | TabAddress.

Record state := {
  form : jsobj;
  form_errors : gmap string (string * string);
  focused : option string;
  activeTab : tab;
  isReniecSearching : bool;
  isConfirmDialogOpen : bool;
  dataToConfirm : option jsobj;
  isConfirmingSubmission : bool
}.

Definition with_form (f : jsobj -> jsobj) (st : state) : state :=
  {| form := f (form st); form_errors := form_errors st; focused := focused st;
     activeTab := activeTab st; isReniecSearching := isReniecSearching st;
     isConfirmDialogOpen := isConfirmDialogOpen st; dataToConfirm := dataToConfirm st;
     isConfirmingSubmission := isConfirmingSubmission st |}.

Definition with_form_errors (f : gmap string (string * string) -> gmap string (string * string))
    (st : state) : state :=
  {| form := form st; form_errors := f (form_errors st); focused := focused st;
     activeTab := activeTab st; isReniecSearching := isReniecSearching st;
     isConfirmDialogOpen := isConfirmDialogOpen st; dataToConfirm := dataToConfirm st;
     isConfirmingSubmission := isConfirmingSubmission st |}.

Definition with_focused (k : option string) (st : state) : state :=
  {| form := form st; form_errors := form_errors st; focused := k;
     activeTab := activeTab st; isReniecSearching := isReniecSearching st;
     isConfirmDialogOpen := isConfirmDialogOpen st; dataToConfirm := dataToConfirm st;
     isConfirmingSubmission := isConfirmingSubmission st |}.

Definition with_activeTab (t : tab) (st : state) : state :=
  {| form := form st; form_errors := form_errors st; focused := focused st;
     activeTab := t; isReniecSearching := isReniecSearching st;
     isConfirmDialogOpen := isConfirmDialogOpen st; dataToConfirm := dataToConfirm st;
     isConfirmingSubmission := isConfirmingSubmission st |}.

Definition with_isReniecSearching (b : bool) (st : state) : state :=
  {| form := form st; form_errors := form_errors st; focused := focused st;
     activeTab := activeTab st; isReniecSearching := b;
     isConfirmDialogOpen := isConfirmDialogOpen st; dataToConfirm := dataToConfirm st;
     isConfirmingSubmission := isConfirmingSubmission st |}.

Definition with_isConfirmDialogOpen (b : bool) (st : state) : state :=
  {| form := form st; form_errors := form_errors st; focused := focused st;
     activeTab := activeTab st; isReniecSearching := isReniecSearching st;
     isConfirmDialogOpen := b; dataToConfirm := dataToConfirm st;
     isConfirmingSubmission := isConfirmingSubmission st |}.

Definition with_dataToConfirm (d : option jsobj) (st : state) : state :=
  {| form := form st; form_errors := form_errors st; focused := focused st;
     activeTab := activeTab st; isReniecSearching := isReniecSearching st;
     isConfirmDialogOpen := isConfirmDialogOpen st; dataToConfirm := d;
     isConfirmingSubmission := isConfirmingSubmission st |}.

Definition with_isConfirmingSubmission (b : bool) (st : state) : state :=
  {| form := form st; form_errors := form_errors st; focused := focused st;
     activeTab := activeTab st; isReniecSearching := isReniecSearching st;
     isConfirmDialogOpen := isConfirmDialogOpen st; dataToConfirm := dataToConfirm st;
     isConfirmingSubmission := b |}.

(** [watch(name)] *)
Definition watch (name : string) : M state jsv :=
  fun st => RunResult (Normal (prop (form st) name)) st [].

(** [setValue(name, v)] *)
Definition setValue (name : string) (v : jsv) : M state unit :=
  modify (with_form (insert name v)).

(** [if (!watch(name)) setValue(name, v)] *)
Definition fill_if_empty (name : string) (v : jsv) : M state unit :=
  cur <- watch name ;;
  when (negb (truthy cur)) (setValue name v).

(** Every field that is filled in [s] has the same value in [s']. *)
Definition keeps_filled (s s' : state) : Prop :=
  ∀ g, truthy (prop (form s) g) = true → prop (form s') g = prop (form s) g.

(** ** The identity lookup *)

(** [import.meta.env]: the three tokens, each a string or [undefined]. *)
Record env := {
  VITE_CONSULTAS_PERU_API_TOKEN : option string;
  VITE_MIAPI_CLOUD_API_TOKEN : option string;
  VITE_CONSULTADATOS_TOKEN : option string
}.

(** [response.data] of the primary API. *)
Record primary_body := {
  p_success : jsv;
  p_data : option jsobj
}.

(** [res.data.datos] of the secondary API, [domiciliado] nested. *)
Record secondary_datos := {
  s_fields : jsobj;
  s_domiciliado : option jsobj
}.

(** [res.data] of the secondary API. *)
Record secondary_body := {
  s_success : jsv;
  s_datos : option secondary_datos
}.

(** [tRes.data] of the tertiary API: an object, or nothing. *)
Definition tertiary_body := option jsobj.

Definition fieldsToCheck : list string :=
  ["nombres"; "apellidoPaterno"; "apellidoMaterno"; "fechaNacimiento";
   "direccionDNI"; "regionDNI"; "provinciaDNI"; "distritoDNI"].

Definition missing_fields (f : jsobj) : bool :=
  existsb (fun field => negb (truthy (prop f field))) fieldsToCheck.

Definition checkMissingFields : M state bool :=
  fun st => RunResult (Normal (missing_fields (form st))) st [].

(** DD/MM/YYYY to YYYY-MM-DD; a date that is neither a string nor falsy has
    no [includes] method. *)
Definition formatDateToISO (dateStr : jsv) : M state jsv :=
  if negb (truthy dateStr) then ret (JStr "")
  else
    match dateStr with
    | JStr s =>
        if js_includes "-" s then ret dateStr
        else
          match js_split "/"%char s with
          | [day; month; year] => ret (JStr (year +:+ "-" +:+ month +:+ "-" +:+ day))
          | _ => ret dateStr
          end
    | _ => throw "dateStr.includes is not a function"
    end.

(** [if (!watch('fechaNacimiento')) setValue('fechaNacimiento',
    formatDateToISO(raw))] *)
Definition fill_fechaNacimiento (raw : jsv) : M state unit :=
  cur <- watch "fechaNacimiento" ;;
  when (negb (truthy cur))
       (iso <- formatDateToISO raw ;;
        setValue "fechaNacimiento" iso).

(** [await axios...]: the request is made, then its promise settles. *)
Definition request {B} (api : lookup_api) (dni : string) (r : http_result B) : M state B :=
  emit (EHttp api dni) ;;
  match r with
  | HttpThrows m => throw m
  | HttpOk body => ret body
  end.

(** [data.surname ? data.surname.split(' ') : []] *)
Definition split_surname (surname : jsv) : M state (list string) :=
  if truthy surname then
    match surname with
    | JStr s => ret (js_split " "%char s)
    | _ => throw "data.surname.split is not a function"
    end
  else ret [].

(** Attempt 1.  The value is the new [dataFound]. *)
Definition attempt_primary (e : env) (dni : string) (r : http_result primary_body)
    : M state bool :=
  try_catch
    (match VITE_CONSULTAS_PERU_API_TOKEN e with
     | Some token =>
         if truthy_str (Some token) then
           response <- request ApiPrimary dni r ;;
           match p_data response with
           | Some data =>
               if truthy (p_success response) then
                 setValue "nombres" (js_or (prop data "name") (JStr "")) ;;
                 surnames <- split_surname (prop data "surname") ;;
                 setValue "apellidoPaterno" (JStr (nth_or_empty surnames 0)) ;;
                 setValue "apellidoMaterno" (JStr (nth_or_empty surnames 1)) ;;
                 setValue "fechaNacimiento" (js_or (prop data "date_of_birth") (JStr "")) ;;
                 setValue "direccionDNI" (js_or (prop data "address") (JStr "")) ;;
                 setValue "regionDNI" (js_or (prop data "department") (JStr "")) ;;
                 setValue "provinciaDNI" (js_or (prop data "province") (JStr "")) ;;
                 setValue "distritoDNI" (js_or (prop data "district") (JStr "")) ;;
                 toast ToastSuccess "Datos encontrados (API Principal)" ;;
                 ret true
               else ret false
           | None => ret false
           end
         else throw "VITE_CONSULTAS_PERU_API_TOKEN no configurado"
     | None => throw "VITE_CONSULTAS_PERU_API_TOKEN no configurado"
     end)
    (fun _ => console_error "Error API Principal:" ;; ret false).

(** [sData.domiciliado?.k] *)
Definition domiciliado (sData : secondary_datos) (k : string) : jsv :=
  match s_domiciliado sData with
  | Some d => prop d k
  | None => JUndefined
  end.

(** Attempt 2, entered with the current [dataFound]. *)
Definition attempt_secondary (e : env) (dni : string) (r : http_result secondary_body)
    (dataFound : bool) : M state bool :=
  missing <- checkMissingFields ;;
  if negb dataFound || missing then
    try_catch
      (if truthy_str (VITE_MIAPI_CLOUD_API_TOKEN e) then
         res <- request ApiSecondary dni r ;;
         match s_datos res with
         | Some sData =>
             if truthy (s_success res) then
               fill_if_empty "nombres" (prop (s_fields sData) "nombres") ;;
               fill_if_empty "apellidoPaterno" (prop (s_fields sData) "ape_paterno") ;;
               fill_if_empty "apellidoMaterno" (prop (s_fields sData) "ape_materno") ;;
               fill_if_empty "direccionDNI" (domiciliado sData "direccion") ;;
               fill_if_empty "regionDNI" (domiciliado sData "departamento") ;;
               fill_if_empty "provinciaDNI" (domiciliado sData "provincia") ;;
               fill_if_empty "distritoDNI" (domiciliado sData "distrito") ;;
               when (negb true) (toast ToastInfo "Datos complementados (API Secundaria)") ;;
               ret true
             else ret dataFound
         | None => ret dataFound
         end
       else ret dataFound)
      (fun _ => console_error "Error API Secundaria:" ;; ret dataFound)
  else ret dataFound.

(** Attempt 3, through the CORS proxy. *)
Definition attempt_tertiary (e : env) (dni : string) (r : http_result tertiary_body)
    (dataFound : bool) : M state bool :=
  missing <- checkMissingFields ;;
  if negb dataFound || missing then
    try_catch
      (if truthy_str (VITE_CONSULTADATOS_TOKEN e) then
         tRes <- request ApiTertiary dni r ;;
         match tRes with
         | Some tData =>
             if truthy (js_or (prop tData "DNI") (prop tData "NOMBRES")) then
               fill_if_empty "nombres" (prop tData "NOMBRES") ;;
               fill_if_empty "apellidoPaterno" (prop tData "AP_PAT") ;;
               fill_if_empty "apellidoMaterno" (prop tData "AP_MAT") ;;
               fill_fechaNacimiento (prop tData "FECHA_NAC") ;;
               fill_if_empty "direccionDNI" (prop tData "DIRECCION") ;;
               toast ToastInfo "Datos complementados (API Terciaria)" ;;
               ret true
             else ret dataFound
         | None => ret dataFound
         end
       else ret dataFound)
      (fun _ => console_error "Error API Terciaria:" ;; ret dataFound)
  else ret dataFound.

Definition fetchReniecDataAndPopulate (e : env) (dni : string)
    (r1 : http_result primary_body) (r2 : http_result secondary_body)
    (r3 : http_result tertiary_body) : M state bool :=
  if String.eqb dni "" || negb (js_length dni =? 8)%nat then ret false
  else
    modify (with_isReniecSearching true) ;;
    found1 <- attempt_primary e dni r1 ;;
    found2 <- attempt_secondary e dni r2 found1 ;;
    found3 <- attempt_tertiary e dni r3 found2 ;;
    modify (with_isReniecSearching false) ;;
    when (negb found3) (toast ToastWarning "No se encontraron datos completos en ninguna API.") ;;
    ret found3.

(** ** Confirming a submission *)

Definition defaultValues : jsobj :=
  list_to_map
    [("dni", JStr ""); ("nombres", JStr ""); ("apellidoPaterno", JStr "");
     ("apellidoMaterno", JStr ""); ("fechaNacimiento", JStr ""); ("edad", JNull);
     ("celular", JStr ""); ("situacionEconomica", JUndefined);
     ("direccionDNI", JStr ""); ("regionDNI", JStr ""); ("provinciaDNI", JStr "");
     ("distritoDNI", JStr ""); ("localidad", JStr "");
     ("isObservado", JBool false); ("observacion", JStr "");
     ("isPaymentObserved", JBool false); ("paymentObservationDetail", JStr "");
     ("regionVivienda", JStr ""); ("provinciaVivienda", JStr "");
     ("distritoVivienda", JStr ""); ("direccionVivienda", JStr "");
     ("mz", JStr ""); ("lote", JStr "")].

(** [reset(values)] *)
Definition reset (values : jsobj) : M state unit :=
  modify (with_form (fun _ => values)) ;;
  modify (with_form_errors (fun _ => ∅)).

Definition handleCloseConfirmationOnly : M state unit :=
  modify (with_isConfirmDialogOpen false) ;;
  modify (with_dataToConfirm None) ;;
  modify (with_isConfirmingSubmission false).

(** The row written to [socio_titulares]. *)
Definition dataToSave (d : jsobj) : jsobj :=
  let isPaymentObserved := prop d "isPaymentObserved" in
  let paymentObservationDetail := prop d "paymentObservationDetail" in
  let restOfData := delete "paymentObservationDetail" (delete "isPaymentObserved" d) in
  <["observacion" := if truthy (prop d "isObservado") then prop d "observacion" else JNull]>
    (<["payment_observation_detail" :=
         if truthy isPaymentObserved then paymentObservationDetail else JNull]>
       (<["is_payment_observed" := isPaymentObserved]> restOfData)).

(** [existingSocios.length > 0 && (socioId === undefined ||
    existingSocios[0].id !== socioId)] over the ids of the rows found. *)
Definition isDuplicateDni (socioId : option string) (existingSocios : list string) : bool :=
  match existingSocios with
  | [] => false
  | first :: _ =>
      match socioId with
      | None => true
      | Some sid => negb (String.eqb first sid)
      end
  end.

Definition handleConfirmSubmit (socioId : option string)
    (dniCheck : db_result (list string)) (writeRes : db_result unit) : M state unit :=
  st <- get ;;
  match dataToConfirm st with
  | None => ret tt
  | Some data =>
      modify (with_isConfirmingSubmission true) ;;
      try_finally
        (try_catch
           (emit (EDbSelect "socio_titulares") ;;
            existingSocios <-
              match dniCheck with
              | DbError m => throw ("Error al verificar DNI: " +:+ m)
              | DbData rows => ret rows
              end ;;
            if isDuplicateDni socioId existingSocios then
              toast ToastError "DNI Duplicado" ;;
              modify (with_form_errors (insert "dni" ("manual", "Este DNI ya está registrado."))) ;;
              modify (with_focused (Some "dni")) ;;
              modify (with_isConfirmDialogOpen false) ;;
              modify (with_isConfirmingSubmission false)
            else
              match socioId with
              | Some sid =>
                  emit (EDbUpdate "socio_titulares" (JStr sid) (dataToSave data)) ;;
                  match writeRes with DbError m => throw m | DbData _ => ret tt end ;;
                  toast ToastSuccess "Socio actualizado" ;;
                  emit (ECall "onSuccess" ∅) ;;
                  emit (ECall "onClose" ∅)
              | None =>
                  emit (EDbInsert "socio_titulares" (dataToSave data)) ;;
                  match writeRes with DbError m => throw m | DbData _ => ret tt end ;;
                  toast ToastSuccess "Socio registrado" ;;
                  reset defaultValues ;;
                  handleCloseConfirmationOnly ;;
                  modify (with_activeTab TabPersonal)
              end)
           (fun _ =>
              console_error "Error al guardar el socio:" ;;
              toast ToastError "Error al guardar socio"))
        (modify (with_isConfirmingSubmission false))
  end.

End SocioTitularRegistrationForm.

(** * The generic data table (DataTable) *)

Module DataTable.

(** [PaginationState] of the table library. *)
Record PaginationState := {
  pageIndex : Z;
  pageSize : Z
}.

(** [RowSelectionState]: row id to selected. *)
Abbreviation RowSelectionState := (gmap string bool).

(** The two [useState] cells behind the uncontrolled mode. *)
Record internal := {
  internalPagination : PaginationState;
  internalRowSelection : RowSelectionState
}.


Section Component.
(** The state of the parent that renders the table, and the row type. *)
Context {Caller TData : Type}.

(** An updater is a function of the old value; a plain value [v] is the
    constant function. *)
Record props := {
  data : list TData;
  pagination : option PaginationState;
  onPaginationChange : option ((PaginationState -> PaginationState) -> M Caller unit);
  rowSelection : option RowSelectionState;
  onRowSelectionChange : option ((RowSelectionState -> RowSelectionState) -> M Caller unit)
}.

(** What the component can touch: the parent's state, only through the
    parent's callbacks, and its own cells. *)
Definition world : Type := Caller * internal.

Definition in_caller {A} (m : M Caller A) : M world A :=
  fun w =>
    let r := m (fst w) in
    RunResult (res r) (final r, snd w) (emitted r).

Definition setInternalPagination (u : PaginationState -> PaginationState) : M world unit :=
  modify (fun w => (fst w, {| internalPagination := u (internalPagination (snd w));
                              internalRowSelection := internalRowSelection (snd w) |})).

Definition setInternalRowSelection (u : RowSelectionState -> RowSelectionState) : M world unit :=
  modify (fun w => (fst w, {| internalPagination := internalPagination (snd w);
                              internalRowSelection := u (internalRowSelection (snd w)) |})).

(** [controlledPagination ?? internalPagination] *)
Definition current_pagination (p : props) (i : internal) : PaginationState :=
  default (internalPagination i) (pagination p).

(** [setControlledPagination ?? setInternalPagination] *)
Definition setPagination (p : props) : (PaginationState -> PaginationState) -> M world unit :=
  match onPaginationChange p with
  | Some f => fun u => in_caller (f u)
  | None => setInternalPagination
  end.


(** [setControlledRowSelection ?? setInternalRowSelection] *)
Definition setRowSelection (p : props) : (RowSelectionState -> RowSelectionState) -> M world unit :=
  match onRowSelectionChange p with
  | Some f => fun u => in_caller (f u)
  | None => setInternalRowSelection
  end.

(** The effect that goes back to the first page when the current page
    lies past the data. *)
Definition reset_page_effect (p : props) : M world unit :=
  w <- get ;;
  let pg := current_pagination p (snd w) in
  when ((0 <? Z.of_nat (length (data p)))
        && (Z.of_nat (length (data p)) <=? pageIndex pg * pageSize pg))
       (setPagination p (fun old => {| pageIndex := 0; pageSize := pageSize old |})).






End Component.

Arguments props : clear implicits.
Arguments world : clear implicits.

End DataTable.

(** * The receipts page (RecibosPage) *)

Module RecibosPage.

Record state := {
  isSubmitting : bool;
  correlative : string;
  clientData : option jsobj;
  form : jsobj
}.

Definition setIsSubmitting (b : bool) (st : state) : state :=
  {| isSubmitting := b; correlative := correlative st;
     clientData := clientData st; form := form st |}.

Definition setCorrelative (c : string) (st : state) : state :=
  {| isSubmitting := isSubmitting st; correlative := c;
     clientData := clientData st; form := form st |}.

Definition setClientData (c : option jsobj) (st : state) : state :=
  {| isSubmitting := isSubmitting st; correlative := correlative st;
     clientData := c; form := form st |}.

Definition form_reset (values : jsobj) (st : state) : state :=
  {| isSubmitting := isSubmitting st; correlative := correlative st;
     clientData := clientData st; form := values |}.

(** What the services answer during one submission. *)
Record responses := {
  pdf : http_result unit;
  saved : http_result unit;
  income : http_result unit;
  socioUpdate : db_result unit;
  nextCorrelative : http_result string
}.

Section Page.
(** [Number(v)], and today's date as [yyyy-MM-dd]. *)
Variable Number : jsv -> jsv.
Variable today : string.

Definition settle {A} (r : http_result A) : M state A :=
  match r with
  | HttpThrows m => throw m
  | HttpOk a => ret a
  end.

Definition defaultValues : jsobj :=
  list_to_map
    [("dni", JStr ""); ("client_name", JStr ""); ("client_id", JNull);
     ("fecha_emision", JStr today); ("monto", JNum (Qmake 250 1));
     ("concepto", JStr "Elaboracion de Expediente Tecnico");
     ("metodo_pago", JStr "Efectivo"); ("numero_operacion", JStr "");
     ("is_payment_observed", JBool false); ("payment_observation_detail", JStr "")].

(** The continuation of [loadCorrelative] once its request settles. *)
Definition loadCorrelative_settled (r : http_result string) : M state string :=
  try_catch
    (nextCorrelative <- settle r ;;
     modify (setCorrelative nextCorrelative) ;;
     ret nextCorrelative)
    (fun e =>
       console_error e ;;
       toast ToastDestructive "Error de Correlativo" ;;
       ret "").

(** The object handed to the PDF generator. *)
Definition receiptData (correlative : string) (client values : jsobj) : jsobj :=
  list_to_map
    [("correlative", JStr correlative);
     ("client_full_name", prop client "razon_social");
     ("client_dni", prop client "numero_documento");
     ("fecha_emision", prop values "fecha_emision");
     ("monto", prop values "monto");
     ("concepto", prop values "concepto");
     ("metodo_pago", prop values "metodo_pago");
     ("numero_operacion", prop values "numero_operacion")].

(** [v === s] for a string literal [s]. *)
Definition is_string (s : string) (v : jsv) : bool :=
  match v with JStr t => String.eqb t s | _ => false end.

(** The row inserted into [ingresos]. *)
Definition incomeData (correlative : string) (client values : jsobj) : jsobj :=
  list_to_map
    [("receipt_number", JStr correlative);
     ("dni", prop values "dni");
     ("full_name", prop client "razon_social");
     ("amount", prop values "monto");
     ("account", prop values "metodo_pago");
     ("date", prop values "fecha_emision");
     ("transaction_type", JStr "Recibo de Pago");
     ("numeroOperacion",
      if is_string "BBVA Empresa" (prop values "metodo_pago")
      then Number (prop values "numero_operacion") else JNull)].

(** The [try] block of [onSubmit]. *)
Definition submit_steps (correlative : string) (client values : jsobj) (r : responses)
    : M state unit :=
  emit (ECall "generateReceiptPdf" (receiptData correlative client values)) ;;
  settle (pdf r) ;;
  emit (ECall "saveReceiptPdfToSupabase"
          {[ "correlative" := JStr correlative; "socioId" := prop client "id" ]}) ;;
  settle (saved r) ;;
  emit (ECall "createIncomeFromBoleta" (incomeData correlative client values)) ;;
  settle (income r) ;;
  when (truthy (prop values "is_payment_observed") && truthy (prop client "id"))
       (emit (EDbUpdate "socio_titulares" (prop client "id")
                {[ "is_payment_observed" := JBool true;
                   "payment_observation_detail" :=
                     js_or (prop values "payment_observation_detail")
                           (JStr "Observación de pago registrada durante la emisión del recibo.") ]}) ;;
        match socioUpdate r with
        | DbError _ =>
            console_error "Error updating socio payment observation:" ;;
            toast ToastWarning "Advertencia de Observación"
        | DbData _ => toast ToastInfo "Socio Marcado como Observado"
        end) ;;
  toast ToastDefault "Recibo Generado y Registrado" ;;
  modify (form_reset defaultValues) ;;
  modify (setClientData None) ;;
  emit (ECall "fetchNextReceiptCorrelative" ∅).

(** [onSubmit(values)].  [loadCorrelative()] is started inside the [try]
    block and not awaited: its request is issued there and it settles
    after the [finally] block. *)
Definition onSubmit (values : jsobj) (r : responses) : M state unit :=
  st <- get ;;
  match clientData st with
  | Some client =>
      if negb (truthy (prop client "id")) || String.eqb (correlative st) ""
      then toast ToastDestructive "Datos Incompletos"
      else
        modify (setIsSubmitting true) ;;
        started <-
          try_finally
            (try_catch
               (submit_steps (correlative st) client values r ;; ret true)
               (fun _ =>
                  console_error "Error en el proceso de generación de recibo:" ;;
                  toast ToastDestructive "Error al Generar Recibo" ;;
                  ret false))
            (modify (setIsSubmitting false)) ;;
        when started (loadCorrelative_settled (nextCorrelative r) ;; ret tt)
  | None => toast ToastDestructive "Datos Incompletos"
  end.

(** The arguments of the calls to the PDF generator, in order. *)
Definition pdf_requests (l : list event) : list jsobj :=
  omap (fun e => match e with
                 | ECall fn args => if String.eqb fn "generateReceiptPdf" then Some args else None
                 | _ => None
                 end) l.

End Page.

End RecibosPage.

(** * Handlers on a part of a larger state *)

(** Runs a handler written for the part [T] of a state [S]. *)
Definition zoom {S T A} (part : S → T) (update : T → S → S) (m : M T A) : M S A :=
  fun s =>
    let r := m (part s) in
    RunResult (res r) (update (final r) s) (emitted r).

(** [a.join(sep)] *)
Definition js_join (sep : string) (l : list string) : string := String.concat sep l.

(** [a.indexOf(x)] on an array of strings; [None] is [-1]. *)
Fixpoint js_index_of (x : string) (l : list string) : option nat :=
  match l with
  | [] => None
  | y :: rest => if String.eqb y x then Some O else S <$> js_index_of x rest
  end.

(** Whether the character occurs in the string. *)
Fixpoint contains_char (c : Ascii.ascii) (s : string) : bool :=
  match s with
  | EmptyString => false
  | String c' rest => Ascii.eqb c' c || contains_char c rest
  end.

(** The calls to services among the events, in order. *)
Definition service_calls (l : list event) : list (string * jsobj) :=
  omap (fun e => match e with ECall fn args => Some (fn, args) | _ => None end) l.

(** The requests sent to the backend among the events, reads and writes, in
    order. *)
Definition backend_requests (l : list event) : list event :=
  List.filter (fun e => match e with
                        | EDbSelect _ | EDbInsert _ _ | EDbUpdate _ _ _ | ECall _ _ => true
                        | _ => false
                        end) l.

(** * The rest of the partner-documents page *)

Module PartnerDocumentsPage.
Import PartnerDocuments.

(** [getBucketNameForDocumentType] *)
Definition getBucketNameForDocumentType (docType : string) : string :=
  if String.eqb docType "Planos de ubicación" then "planos"
  else if String.eqb docType "Memoria descriptiva" then "memorias"
  else "documents".

Definition requiredDocumentTypes : list string :=
  ["Planos de ubicación"; "Memoria descriptiva"].

(** [deleteConfirmState] *)
Record DeleteConfirmState := {
  isOpen : bool;
  documentId : option Z;
  documentLink : option string;
  documentType : option string;
  socioName : option string
}.

Definition no_document : DeleteConfirmState :=
  {| isOpen := false; documentId := None; documentLink := None;
     documentType := None; socioName := None |}.

(** The state of the page: the part [fetchAllData] and
    [handleUpdateLoteMedido] work on, and the cells of the other handlers. *)
Record page := {
  listing : state;
  searchQuery : string;
  selectedLocalidad : string;
  rowSelection : gmap string bool;
  isBulkUpdating : bool;
  deleteConfirmState : DeleteConfirmState;
  isDeleting : bool
}.

Definition with_listing (l : state) (p : page) : page :=
  {| listing := l; searchQuery := searchQuery p; selectedLocalidad := selectedLocalidad p;
     rowSelection := rowSelection p; isBulkUpdating := isBulkUpdating p;
     deleteConfirmState := deleteConfirmState p; isDeleting := isDeleting p |}.

Definition setRowSelection (r : gmap string bool) (p : page) : page :=
  {| listing := listing p; searchQuery := searchQuery p;
     selectedLocalidad := selectedLocalidad p;
     rowSelection := r; isBulkUpdating := isBulkUpdating p;
     deleteConfirmState := deleteConfirmState p; isDeleting := isDeleting p |}.

Definition setIsBulkUpdating (b : bool) (p : page) : page :=
  {| listing := listing p; searchQuery := searchQuery p;
     selectedLocalidad := selectedLocalidad p;
     rowSelection := rowSelection p; isBulkUpdating := b;
     deleteConfirmState := deleteConfirmState p; isDeleting := isDeleting p |}.

Definition setDeleteConfirmState (d : DeleteConfirmState) (p : page) : page :=
  {| listing := listing p; searchQuery := searchQuery p;
     selectedLocalidad := selectedLocalidad p;
     rowSelection := rowSelection p; isBulkUpdating := isBulkUpdating p;
     deleteConfirmState := d; isDeleting := isDeleting p |}.

Definition setIsDeleting (b : bool) (p : page) : page :=
  {| listing := listing p; searchQuery := searchQuery p;
     selectedLocalidad := selectedLocalidad p;
     rowSelection := rowSelection p; isBulkUpdating := isBulkUpdating p;
     deleteConfirmState := deleteConfirmState p; isDeleting := b |}.

(** What the three queries of a refetch answer. *)
Record refetch := {
  sociosRes : db_result (list SocioRow);
  localidadesRes : db_result (list (option string));
  ingresosRes : db_result (list IngresoRow)
}.

(** [fetchAllData()] called from another handler of the page. *)
Definition refetchAllData (f : refetch) : M page unit :=
  zoom listing with_listing (fetchAllData (sociosRes f) (localidadesRes f) (ingresosRes f)).

(** [selectedIds] and [blockedCount] of [handleBulkUpdateLoteMedido]: when
    unmarking, the rows with a required document are left out and counted. *)
Definition bulk_targets (newValue : bool) (selectedRows : list SocioConDocumentos)
    : list string * nat :=
  if newValue then (id <$> selectedRows, O)
  else (id <$> List.filter (fun row => negb (has_required_docs row)) selectedRows,
        length (List.filter has_required_docs selectedRows)).

(** The arguments of [update({ is_lote_medido }).in('id', ids)], the ids under
    their positions. *)
Definition bulk_update_args (newValue : bool) (ids : list string) : jsobj :=
  <["is_lote_medido" := JBool newValue]>
    (list_to_map (imap (fun i x => ("id." +:+ pretty i, JStr x)) ids)).

(** [handleBulkUpdateLoteMedido].  The refetch is started in the [try] block
    and not awaited: it settles after the [finally] block. *)
Definition handleBulkUpdateLoteMedido (isAdmin : bool) (newValue : bool)
    (selectedRows : list SocioConDocumentos) (updateRes : db_result unit) (f : refetch)
    : M page unit :=
  if negb isAdmin then toast ToastError "Permiso denegado"
  else if (length selectedRows =? 0)%nat then toast ToastWarning "Selección vacía"
  else
    modify (setIsBulkUpdating true) ;;
    let (selectedIds, blockedCount) := bulk_targets newValue selectedRows in
    if (length selectedIds =? 0)%nat then
      modify (setIsBulkUpdating false) ;;
      if (0 <? blockedCount)%nat then toast ToastWarning "Actualización Masiva Cancelada"
      else toast ToastWarning "Selección vacía"
    else
      refetching <-
        try_finally
          (try_catch
             (emit (ECall "socio_titulares.update.in" (bulk_update_args newValue selectedIds)) ;;
              match updateRes with DbError m => throw m | DbData _ => ret tt end ;;
              toast ToastSuccess "Actualización Masiva Exitosa" ;;
              modify (setRowSelection ∅) ;;
              ret true)
             (fun _ =>
                console_error "Error during bulk update:" ;;
                toast ToastError "Error en la Edición Masiva" ;;
                ret false))
          (modify (setIsBulkUpdating false)) ;;
      when refetching (refetchAllData f).

(** [openDeleteConfirmDialog] *)
Definition openDeleteConfirmDialog (documentId : Z) (documentLink documentType socioName : string)
    : M page unit :=
  modify (setDeleteConfirmState
            {| isOpen := true; documentId := Some documentId;
               documentLink := Some documentLink; documentType := Some documentType;
               socioName := Some socioName |}).

(** [!n] on a [number | null]. *)
Definition truthy_id (n : option Z) : bool :=
  match n with Some z => negb (z =? 0) | None => false end.

(** The path of the file inside its bucket, from the path of its public URL:
    what follows the segment after [public]. *)
Definition file_path (pathname : string) : string + string :=
  let pathSegments := js_split "/"%char pathname in
  match js_index_of "public" pathSegments with
  | None => inl "Formato de URL de documento inesperado."
  | Some publicIndex =>
      if (length pathSegments <=? publicIndex + 2)%nat
      then inl "Formato de URL de documento inesperado."
      else
        let filePath := js_join "/" (drop (publicIndex + 2) pathSegments) in
        if String.eqb filePath "" then inl "No se pudo extraer la ruta del archivo del enlace."
        else inr filePath
  end.

(** The text of the toast that follows a deletion. *)
Definition deleted_message (documentType : string) (socioName : option string) : string :=
  "Documento " +:+ dquote +:+ documentType +:+ dquote +:+ " de "
  +:+ default "null" socioName +:+ " eliminado correctamente.".

(** The text of the warning logged when the storage refuses. *)
Definition storage_warning (bucketName message : string) : string :=
  "Advertencia: No se pudo eliminar el archivo del almacenamiento (" +:+ bucketName
  +:+ "): " +:+ message.

Section Delete.
(** [new URL(link).pathname], [None] when the constructor throws. *)
Variable url_pathname : string → option string.

(** What the storage and the table answer to a deletion. *)
Record deletion := {
  storageRes : db_result unit;
  dbRes : db_result unit
}.

Definition handleDeleteDocument (d : deletion) (f : refetch) : M page unit :=
  st <- get ;;
  let target := deleteConfirmState st in
  if negb (truthy_id (documentId target)) || negb (truthy_str (documentLink target))
     || negb (truthy_str (documentType target))
  then toast ToastError "Error: No se pudo obtener la información completa del documento para eliminar."
  else
    modify (setIsDeleting true) ;;
    refetching <-
      try_finally
        (try_catch
           (let docId := default 0 (documentId target) in
            let link := default "" (documentLink target) in
            let docType := default "" (documentType target) in
            let bucketName := getBucketNameForDocumentType docType in
            when (String.eqb bucketName "")
                 (throw ("No se pudo determinar el nombre del bucket para el tipo de documento: "
                         +:+ docType)) ;;
            pathname <- match url_pathname link with
                        | Some p => ret p
                        | None => throw "Invalid URL"
                        end ;;
            filePath <- match file_path pathname with
                        | inl m => throw m
                        | inr p => ret p
                        end ;;
            emit (ECall "storage.remove"
                    {[ "bucket" := JStr bucketName; "path" := JStr filePath ]}) ;;
            match storageRes d with
            | DbError m => console_warn (storage_warning bucketName m)
            | DbData _ => ret tt
            end ;;
            emit (ECall "socio_documentos.delete" {[ "id" := JNum (inject_Z docId) ]}) ;;
            match dbRes d with DbError m => throw m | DbData _ => ret tt end ;;
            toast ToastSuccess (deleted_message docType (socioName target)) ;;
            modify (setDeleteConfirmState no_document) ;;
            ret true)
           (fun _ =>
              console_error "Error al eliminar el documento:" ;;
              toast ToastError "Error al eliminar el documento" ;;
              ret false))
        (modify (setIsDeleting false)) ;;
    when refetching (refetchAllData f).

End Delete.

Section Filter.
(** [s.toLowerCase()] *)
Variable toLowerCase : string → string.

Definition full_name (socio : SocioConDocumentos) : string :=
  nombres socio +:+ " " +:+ apellidoPaterno socio +:+ " " +:+ apellidoMaterno socio.

(** The callback of the filter behind [filteredData]. *)
Definition matches_search (searchQuery selectedLocalidad : string)
    (socio : SocioConDocumentos) : bool :=
  let searchLower := js_trim (toLowerCase searchQuery) in
  let fullName := js_trim (toLowerCase (full_name socio)) in
  let dni := toLowerCase (dni socio) in
  let mz := toLowerCase (default "" (mz socio)) in
  let lote := toLowerCase (default "" (lote socio)) in
  let matchesLocalidad :=
    String.eqb selectedLocalidad "all" || String.eqb (localidad socio) selectedLocalidad in
  if String.eqb searchLower "" then matchesLocalidad
  else
    let searchTerms :=
      List.filter (fun term => (0 <? js_length term)%nat) (js_split " "%char searchLower) in
    let matchesDni := js_includes searchLower dni in
    let matchesName := forallb (fun term => js_includes term fullName) searchTerms in
    let matchesMz := js_includes searchLower mz in
    let matchesLote := js_includes searchLower lote in
    matchesLocalidad && (matchesDni || matchesName || matchesMz || matchesLote).

Definition filteredData (p : page) : list SocioConDocumentos :=
  List.filter (matches_search (searchQuery p) (selectedLocalidad p))
              (sociosConDocumentos (listing p)).

End Filter.

(** [missingDocs] of the upload column: the required types whose first
    document is absent or has no link. *)
Definition missingDocs (socio : SocioConDocumentos) : list string :=
  List.filter
    (fun docType =>
       match List.find (fun d => String.eqb (tipo_documento d) docType) (socio_documentos socio) with
       | None => true
       | Some doc => negb (truthy_str (link_documento doc))
       end)
    requiredDocumentTypes.

(** No socio with a location plan or a descriptive report is listed as not
    measured. *)
Definition documented_lots_measured (l : list SocioConDocumentos) : Prop :=
  ∀ socio, socio ∈ l → has_required_docs socio = true → is_lote_medido socio = Some true.

End PartnerDocumentsPage.

(** * The rest of the registration form *)

Module SocioTitularRegistrationFormData.
Import SocioTitularRegistrationForm.

(** [Array.from(new Set(l))] on values with decidable equality: first
    occurrences, in order. *)
Fixpoint first_occurrences {A} `{EqDecision A} (l : list A) : list A :=
  match l with
  | [] => []
  | x :: rest => x :: List.filter (fun y => bool_decide (y ≠ x)) (first_occurrences rest)
  end.

(** The state of the form component: the part the lookup and the submission
    work on, and the cells of the searches. *)
Record component := {
  registration : state;
  isDniSearching : bool;
  localitiesSuggestions : list string;
  isLocalitiesLoading : bool
}.

Definition with_registration (s : state) (c : component) : component :=
  {| registration := s; isDniSearching := isDniSearching c;
     localitiesSuggestions := localitiesSuggestions c;
     isLocalitiesLoading := isLocalitiesLoading c |}.

Definition setIsDniSearching (b : bool) (c : component) : component :=
  {| registration := registration c; isDniSearching := b;
     localitiesSuggestions := localitiesSuggestions c;
     isLocalitiesLoading := isLocalitiesLoading c |}.

Definition setLocalitiesSuggestions (l : list string) (c : component) : component :=
  {| registration := registration c; isDniSearching := isDniSearching c;
     localitiesSuggestions := l;
     isLocalitiesLoading := isLocalitiesLoading c |}.

Definition setIsLocalitiesLoading (b : bool) (c : component) : component :=
  {| registration := registration c; isDniSearching := isDniSearching c;
     localitiesSuggestions := localitiesSuggestions c;
     isLocalitiesLoading := b |}.

Definition in_registration {A} (m : M state A) : M component A :=
  zoom registration with_registration m.

(** What [.single()] answers: the promise rejects, or an error with its
    code and no data, or the row, if any. *)
Inductive single_result :=
| SingleRejects (message : string)
| SingleError (code message : string)
| SingleData (row : option jsobj).

(** [fetchUniqueLocalities]; [data] is the [localidad] of each row, or
    [null]. *)
Definition fetchUniqueLocalities (r : db_result (option (list (option string))))
    : M component unit :=
  modify (setIsLocalitiesLoading true) ;;
  emit (EDbSelect "socio_titulares") ;;
  match r with
  | DbError _ =>
      console_error "Error fetching unique localities:" ;;
      toast ToastError "Error al cargar localidades"
  | DbData (Some data) =>
      modify (setLocalitiesSuggestions
                (PartnerDocuments.truthy_strings (first_occurrences data)))
  | DbData None => ret tt
  end ;;
  modify (setIsLocalitiesLoading false).

(** Between [s] and [s'], the form changed at most at [fields], and nothing
    else of the state changed but [isReniecSearching]. *)
Definition touches_only (fields : list string) (s s' : state) : Prop :=
  (∀ k, k ∉ fields → form s' !! k = form s !! k)
  ∧ form_errors s' = form_errors s
  ∧ focused s' = focused s
  ∧ activeTab s' = activeTab s
  ∧ isConfirmDialogOpen s' = isConfirmDialogOpen s
  ∧ dataToConfirm s' = dataToConfirm s
  ∧ isConfirmingSubmission s' = isConfirmingSubmission s.

(** The fields a search by DNI writes. *)
Definition search_fields : list string :=
  ["nombres"; "apellidoPaterno"; "apellidoMaterno"; "fechaNacimiento"; "edad"; "celular";
   "direccionDNI"; "regionDNI"; "provinciaDNI"; "distritoDNI"; "localidad"].

(** The fields a search by DNI clears before it looks anything up. *)
Definition clear_lookup_fields : M state unit :=
  setValue "nombres" (JStr "") ;;
  setValue "apellidoPaterno" (JStr "") ;;
  setValue "apellidoMaterno" (JStr "") ;;
  setValue "fechaNacimiento" (JStr "") ;;
  setValue "edad" JNull ;;
  setValue "celular" (JStr "") ;;
  setValue "direccionDNI" (JStr "") ;;
  setValue "regionDNI" (JStr "") ;;
  setValue "provinciaDNI" (JStr "") ;;
  setValue "distritoDNI" (JStr "").

Section Dates.
(** [format(parseISO(s), 'yyyy-MM-dd')], [None] when the date is invalid
    and [format] throws. *)
Variable format_date : string → option string.

(** [v ? format(parseISO(v), 'yyyy-MM-dd') : ''], [None] when it throws: a
    value that is not a string parses to an invalid date. *)
Definition formatted_date (v : jsv) : option jsv :=
  if truthy v then
    match v with
    | JStr s => JStr <$> format_date s
    | _ => None
    end
  else Some (JStr "").

Definition load_date {St} (v : jsv) : M St jsv :=
  match formatted_date v with
  | Some d => ret d
  | None => throw "Invalid time value"
  end.

(** The [try] block of the search in the local table.  The value is the new
    [dataFoundInDb]. *)
Definition search_local_steps (dbRes : single_result) : M state bool :=
  emit (EDbSelect "socio_titulares") ;;
  match dbRes with
  | SingleRejects m => throw m
  | SingleError code _ =>
      if negb (String.eqb code "PGRST116") then
        console_error "Error searching socio by DNI in DB:" ;;
        toast ToastError "Error al buscar DNI en la base de datos" ;;
        ret false
      else ret false
  | SingleData None => ret false
  | SingleData (Some data) =>
      setValue "nombres" (prop data "nombres") ;;
      setValue "apellidoPaterno" (prop data "apellidoPaterno") ;;
      setValue "apellidoMaterno" (prop data "apellidoMaterno") ;;
      fechaNacimiento <- load_date (prop data "fechaNacimiento") ;;
      setValue "fechaNacimiento" fechaNacimiento ;;
      setValue "edad" (prop data "edad") ;;
      setValue "celular" (prop data "celular") ;;
      setValue "direccionDNI" (prop data "direccionDNI") ;;
      setValue "regionDNI" (prop data "regionDNI") ;;
      setValue "provinciaDNI" (prop data "provinciaDNI") ;;
      setValue "distritoDNI" (prop data "distritoDNI") ;;
      setValue "localidad" (prop data "localidad") ;;
      toast ToastSuccess "Socio encontrado en la base de datos" ;;
      ret true
  end.

(** The search in the local table, with its [catch] block. *)
Definition search_local (dbRes : single_result) : M state bool :=
  try_catch
    (search_local_steps dbRes)
    (fun _ =>
       console_error "Unexpected error during DB search:" ;;
       toast ToastError "Error inesperado al buscar en la base de datos" ;;
       ret false).

Definition searchSocioByDni (e : env) (dni : string) (dbRes : single_result)
    (r1 : http_result primary_body) (r2 : http_result secondary_body)
    (r3 : http_result tertiary_body) : M component unit :=
  if String.eqb dni "" || negb (js_length dni =? 8)%nat then
    in_registration (clear_lookup_fields ;; setValue "localidad" (JStr ""))
  else
    modify (setIsDniSearching true) ;;
    in_registration clear_lookup_fields ;;
    dataFoundInDb <- in_registration (search_local dbRes) ;;
    dataFoundInReniec <-
      (if negb dataFoundInDb
       then in_registration (fetchReniecDataAndPopulate e dni r1 r2 r3)
       else ret false) ;;
    when (negb dataFoundInDb && negb dataFoundInReniec)
         (toast ToastWarning "DNI no encontrado") ;;
    modify (setIsDniSearching false).

(** The values [fetchSocio] hands to [reset]: the row, with the fields the
    form normalizes. *)
Definition loaded_values (data : jsobj) (fechaNacimiento : jsv) : jsobj :=
  <["paymentObservationDetail" := js_or (prop data "payment_observation_detail") (JStr "")]>
  (<["isPaymentObserved" := js_or (prop data "is_payment_observed") (JBool false)]>
  (<["observacion" := js_or (prop data "observacion") (JStr "")]>
  (<["isObservado" := js_or (prop data "isObservado") (JBool false)]>
  (<["edad" := js_or (prop data "edad") JNull]>
  (<["distritoDNI" := js_or (prop data "distritoDNI") (JStr "")]>
  (<["provinciaDNI" := js_or (prop data "provinciaDNI") (JStr "")]>
  (<["regionDNI" := js_or (prop data "regionDNI") (JStr "")]>
  (<["direccionDNI" := js_or (prop data "direccionDNI") (JStr "")]>
  (<["localidad" := js_or (prop data "localidad") (JStr "")]>
  (<["distritoVivienda" := js_or (prop data "distritoVivienda") (JStr "")]>
  (<["provinciaVivienda" := js_or (prop data "provinciaVivienda") (JStr "")]>
  (<["regionVivienda" := js_or (prop data "regionVivienda") (JStr "")]>
  (<["lote" := js_or (prop data "lote") (JStr "")]>
  (<["mz" := js_or (prop data "mz") (JStr "")]>
  (<["situacionEconomica" := js_or (prop data "situacionEconomica") JUndefined]>
  (<["fechaNacimiento" := fechaNacimiento]> data)))))))))))))))).

(** [fetchSocio], the effect that loads the socio being edited.  It is not
    awaited by anyone: what it throws is an unhandled rejection. *)
Definition fetchSocio (socioId : option string) (r : single_result) : M state unit :=
  match socioId with
  | None => ret tt
  | Some _ =>
      emit (EDbSelect "socio_titulares") ;;
      match r with
      | SingleRejects m => throw m
      | SingleError _ _ =>
          console_error "Error fetching socio:" ;;
          toast ToastError "Error al cargar socio"
      | SingleData None => ret tt
      | SingleData (Some data) =>
          fechaNacimiento <- load_date (prop data "fechaNacimiento") ;;
          reset (loaded_values data fechaNacimiento)
      end
  end.

End Dates.

Definition address_fields : list string :=
  ["regionVivienda"; "provinciaVivienda"; "distritoVivienda"; "direccionVivienda";
   "mz"; "lote"].

(** [onSubmit(values)]: [result] is what [form.trigger()] resolves to and
    [firstErrorField] the first key of the form's errors, if any. *)
Definition onSubmit (values : jsobj) (result : bool) (firstErrorField : option string)
    : M state unit :=
  when (negb (truthy (prop values "isObservado"))) (setValue "observacion" JNull) ;;
  when (negb (truthy (prop values "isPaymentObserved")))
       (setValue "paymentObservationDetail" JNull) ;;
  if negb result then
    toast ToastError "Error de validación" ;;
    match firstErrorField with
    | Some field =>
        if truthy_str (Some field) then
          modify (with_focused (Some field)) ;;
          if includes_str address_fields field
          then modify (with_activeTab TabAddress)
          else modify (with_activeTab TabPersonal)
        else ret tt
    | None => ret tt
    end
  else
    modify (with_dataToConfirm (Some values)) ;;
    modify (with_isConfirmDialogOpen true).

End SocioTitularRegistrationFormData.

(** * The lots of a socio (SocioStatusAndDocuments) *)

Module SocioStatusAndDocuments.

Inductive payment_status := Pagado | Pendiente | Atrasado.

(** [interface Lot] *)
Record Lot := {
  id : string;
  mz : string;
  lote : string;
  is_lote_medido : bool;
  isPrimary : bool;
  fullName : string;
  dni : string;
  paymentStatus : payment_status;
  receiptNumber : string;
  documentLink : option string
}.

Record state := {
  isLoading : bool;
  isSubmitting : bool;
  lots : list Lot;
  selectedLotIds : list string
}.

Definition setIsLoading (b : bool) (st : state) : state :=
  {| isLoading := b; isSubmitting := isSubmitting st; lots := lots st;
     selectedLotIds := selectedLotIds st |}.

Definition setIsSubmitting (b : bool) (st : state) : state :=
  {| isLoading := isLoading st; isSubmitting := b; lots := lots st;
     selectedLotIds := selectedLotIds st |}.

Definition setLots (l : list Lot) (st : state) : state :=
  {| isLoading := isLoading st; isSubmitting := isSubmitting st; lots := l;
     selectedLotIds := selectedLotIds st |}.

Definition setSelectedLotIds (f : list string → list string) (st : state) : state :=
  {| isLoading := isLoading st; isSubmitting := isSubmitting st; lots := lots st;
     selectedLotIds := f (selectedLotIds st) |}.

(** The row of the query of [fetchStatusAndLot]. *)
Record StatusRow := {
  row_mz : option string;
  row_lote : option string;
  row_is_lote_medido : option bool;
  row_nombres : string;
  row_apellidoPaterno : string;
  row_apellidoMaterno : string;
  row_dni : string
}.

(** [v || 'N/A'] *)
Definition or_na (v : option string) : string :=
  if truthy_str v then default "" v else "N/A".

Definition socioFullName (data : StatusRow) : string :=
  row_nombres data +:+ " " +:+ row_apellidoPaterno data +:+ " " +:+ row_apellidoMaterno data.

Definition primaryLot (socioId : string) (data : StatusRow) : Lot :=
  {| id := socioId;
     mz := or_na (row_mz data);
     lote := or_na (row_lote data);
     is_lote_medido := default false (row_is_lote_medido data);
     isPrimary := true;
     fullName := socioFullName data;
     dni := row_dni data;
     paymentStatus := Pagado;
     receiptNumber := "R-2025-001";
     documentLink := Some "https://example.com/doc/primary" |}.

Definition mockLots (data : StatusRow) : list Lot :=
  [ {| id := "mock-1"; mz := "B"; lote := "10"; is_lote_medido := false;
       isPrimary := false; fullName := socioFullName data; dni := row_dni data;
       paymentStatus := Pendiente; receiptNumber := "N/A"; documentLink := None |};
    {| id := "mock-2"; mz := "C"; lote := "5"; is_lote_medido := true;
       isPrimary := false; fullName := socioFullName data; dni := row_dni data;
       paymentStatus := Atrasado; receiptNumber := "R-2024-150";
       documentLink := Some "https://example.com/doc/mock2" |} ].

Definition initialLots (socioId : string) (data : StatusRow) : list Lot :=
  if negb (String.eqb (mz (primaryLot socioId data)) "N/A")
     || negb (String.eqb (lote (primaryLot socioId data)) "N/A")
  then primaryLot socioId data :: mockLots data
  else mockLots data.

Definition initialSelected (initial : list Lot) : list string :=
  id <$> List.filter is_lote_medido initial.

Definition fetchStatusAndLot (socioId : string) (r : db_result (option StatusRow))
    : M state unit :=
  if String.eqb socioId "" then ret tt
  else
    modify (setIsLoading true) ;;
    emit (EDbSelect "socio_titulares") ;;
    match r with
    | DbError _ =>
        console_error "Error fetching socio status:" ;;
        toast ToastError "Error al cargar estado de ingeniería" ;;
        modify (setIsLoading false)
    | DbData (Some data) =>
        modify (setLots (initialLots socioId data)) ;;
        modify (setSelectedLotIds (fun _ => initialSelected (initialLots socioId data))) ;;
        modify (setIsLoading false)
    | DbData None => modify (setIsLoading false)
    end.

Definition handleSelectAll (checked : bool) : M state unit :=
  st <- get ;;
  if checked then modify (setSelectedLotIds (fun _ => id <$> lots st))
  else modify (setSelectedLotIds (fun _ => [])).

Definition handleSelectLot (lotId : string) (checked : bool) : M state unit :=
  modify (setSelectedLotIds
            (fun prev =>
               if checked then prev ++ [lotId]
               else List.filter (fun x => negb (String.eqb x lotId)) prev)).

Definition with_is_lote_medido (v : bool) (lot : Lot) : Lot :=
  {| id := id lot; mz := mz lot; lote := lote lot; is_lote_medido := v;
     isPrimary := isPrimary lot; fullName := fullName lot; dni := dni lot;
     paymentStatus := paymentStatus lot; receiptNumber := receiptNumber lot;
     documentLink := documentLink lot |}.

Definition handleBulkUpdate (socioId : string) (updateRes : db_result unit) : M state unit :=
  modify (setIsSubmitting true) ;;
  st <- get ;;
  match List.find isPrimary (lots st) with
  | None =>
      toast ToastError "Error" ;;
      modify (setIsSubmitting false)
  | Some primary =>
      let newPrimaryStatus := includes_str (selectedLotIds st) (id primary) in
      try_finally
        (try_catch
           (emit (EDbUpdate "socio_titulares" (JStr socioId)
                    {[ "is_lote_medido" := JBool newPrimaryStatus ]}) ;;
            match updateRes with DbError m => throw m | DbData _ => ret tt end ;;
            modify (setLots ((fun lot => with_is_lote_medido
                                           (includes_str (selectedLotIds st) (id lot)) lot)
                             <$> lots st)) ;;
            toast ToastSuccess "Estado de lotes actualizado")
           (fun _ =>
              console_error "Error al guardar el estado:" ;;
              toast ToastError "Error al guardar estado"))
        (modify (setIsSubmitting false))
  end.

Definition allSelected (st : state) : bool :=
  (0 <? length (lots st))%nat && (length (selectedLotIds st) =? length (lots st))%nat.

Definition someSelected (st : state) : bool :=
  (0 <? length (selectedLotIds st))%nat
  && (length (selectedLotIds st) <? length (lots st))%nat.

(** The selection names lots of the list, each at most once, and the lots
    have distinct ids. *)
Definition selection_ok (st : state) : Prop :=
  NoDup (id <$> lots st)
  ∧ NoDup (selectedLotIds st)
  ∧ ∀ x, x ∈ selectedLotIds st → x ∈ id <$> lots st.

End SocioStatusAndDocuments.

(** * The search of the receipts page *)

Module RecibosPageSearch.
Import RecibosPage.

(** The state of the page: the part a submission works on, and the flag of
    the search. *)
Record page := {
  receipts : state;
  isSearching : bool
}.

Definition with_receipts (s : state) (p : page) : page :=
  {| receipts := s; isSearching := isSearching p |}.

Definition setIsSearching (b : bool) (p : page) : page :=
  {| receipts := receipts p; isSearching := b |}.

Definition in_receipts {A} (m : M state A) : M page A :=
  zoom receipts with_receipts m.

(** [form.setValue(name, v)] *)
Definition setValue (name : string) (v : jsv) : M state unit :=
  modify (fun st => form_reset (<[name := v]> (form st)) st).


(** [!dni || dni.length !== 8] on the watched value. *)
Definition invalid_dni (dni : jsv) : bool :=
  match dni with
  | JStr s => String.eqb s "" || negb (js_length s =? 8)%nat
  | _ => true
  end.

(** [handleDniSearch]; [found] is what [fetchClientByDocument] resolves to,
    a client or [null]. *)
Definition handleDniSearch (found : http_result (option jsobj)) : M page unit :=
  st <- get ;;
  let dni := prop (form (receipts st)) "dni" in
  if invalid_dni dni then toast ToastWarning "DNI Inválido"
  else
    modify (setIsSearching true) ;;
    in_receipts (modify (setClientData None)) ;;
    in_receipts (setValue "client_name" (JStr "")) ;;
    in_receipts (setValue "client_id" JNull) ;;
    try_finally
      (try_catch
         (emit (ECall "fetchClientByDocument" {[ "dni" := dni ]}) ;;
          client <- match found with
                    | HttpThrows m => throw m
                    | HttpOk c => ret c
                    end ;;
          match client with
          | Some c =>
              if truthy (prop c "id") then
                in_receipts (modify (setClientData (Some c))) ;;
                in_receipts (setValue "client_name" (prop c "razon_social")) ;;
                in_receipts (setValue "client_id" (prop c "id")) ;;
                toast ToastDefault "Socio Encontrado"
              else toast ToastWarning "Socio No Encontrado"
          | None => toast ToastWarning "Socio No Encontrado"
          end)
         (fun _ => toast ToastDestructive "Error de Búsqueda"))
      (modify (setIsSearching false)).

End RecibosPageSearch.

(** * Sample inputs

    Concrete environments, responses and states on which the handlers are
    run. *)

Module Samples.
Import SocioTitularRegistrationForm.

Definition all_tokens : env :=
  {| VITE_CONSULTAS_PERU_API_TOKEN := Some "token-1";
     VITE_MIAPI_CLOUD_API_TOKEN := Some "token-2";
     VITE_CONSULTADATOS_TOKEN := Some "token-3" |}.

Definition no_primary_token : env :=
  {| VITE_CONSULTAS_PERU_API_TOKEN := None;
     VITE_MIAPI_CLOUD_API_TOKEN := Some "token-2";
     VITE_CONSULTADATOS_TOKEN := Some "token-3" |}.

Definition blank_form : state :=
  {| form := defaultValues; form_errors := ∅; focused := None; activeTab := TabPersonal;
     isReniecSearching := false; isConfirmDialogOpen := false; dataToConfirm := None;
     isConfirmingSubmission := false |}.

(** The primary API knows the person but not the address. *)
Definition primary_hit : http_result primary_body :=
  HttpOk {| p_success := JBool true;
            p_data := Some (list_to_map
              [("name", JStr "ANA"); ("surname", JStr "QUISPE ROJAS");
               ("date_of_birth", JStr "1990-05-17"); ("address", JStr "");
               ("department", JStr "CUSCO"); ("province", JStr "CUSCO");
               ("district", JStr "WANCHAQ")]) |}.

Definition secondary_hit : http_result secondary_body :=
  HttpOk {| s_success := JBool true;
            s_datos := Some
              {| s_fields := list_to_map
                   [("nombres", JStr "ANA MARIA"); ("ape_paterno", JStr "QUISPE");
                    ("ape_materno", JStr "ROJAS")];
                 s_domiciliado := Some (list_to_map
                   [("direccion", JStr "AV. LA CULTURA 100"); ("departamento", JStr "CUSCO");
                    ("provincia", JStr "CUSCO"); ("distrito", JStr "WANCHAQ")]) |} |}.

Definition tertiary_hit : http_result tertiary_body :=
  HttpOk (Some (list_to_map
    [("DNI", JStr "12345678"); ("NOMBRES", JStr "ANA"); ("AP_PAT", JStr "QUISPE");
     ("AP_MAT", JStr "ROJAS"); ("FECHA_NAC", JStr "17/05/1990");
     ("DIRECCION", JStr "AV. LA CULTURA 100")])).


Fixpoint letters (n : nat) : string :=
  match n with
  | O => EmptyString
  | S m => String "a"%char (letters m)
  end.

(** Values that pass every check of the form schema. *)
Definition valid_values : jsobj :=
  list_to_map
    [("dni", JStr "12345678"); ("nombres", JStr "ANA"); ("apellidoPaterno", JStr "QUISPE");
     ("apellidoMaterno", JStr "ROJAS"); ("fechaNacimiento", JStr "1990-05-17");
     ("edad", JNum (Qmake 35 1)); ("celular", JStr "987654321");
     ("situacionEconomica", JStr "Pobre"); ("direccionDNI", JStr "AV. LA CULTURA 100");
     ("regionDNI", JStr "CUSCO"); ("provinciaDNI", JStr "CUSCO");
     ("distritoDNI", JStr "WANCHAQ"); ("localidad", JStr "CENTRO");
     ("isObservado", JBool false); ("observacion", JStr "");
     ("isPaymentObserved", JBool false); ("paymentObservationDetail", JStr "")].

Definition pending_confirmation : state :=
  with_dataToConfirm (Some valid_values) blank_form.

(** One member with an uploaded location plan and the stored flag unset. *)
Definition plan_document : PartnerDocuments.SocioDocumento :=
  {| PartnerDocuments.doc_id := 7;
     PartnerDocuments.tipo_documento := "Planos de ubicación";
     PartnerDocuments.link_documento := Some "https://files.example/planos/plano-7.pdf";
     PartnerDocuments.transaction_type := None |}.

Definition member_row : PartnerDocuments.SocioRow :=
  {| PartnerDocuments.row_id := "s-1"; PartnerDocuments.row_dni := "12345678";
     PartnerDocuments.row_nombres := "ANA"; PartnerDocuments.row_apellidoPaterno := "QUISPE";
     PartnerDocuments.row_apellidoMaterno := "ROJAS"; PartnerDocuments.row_localidad := "CENTRO";
     PartnerDocuments.row_mz := None; PartnerDocuments.row_lote := None;
     PartnerDocuments.row_is_lote_medido := None;
     PartnerDocuments.row_socio_documentos := [plan_document] |}.

Definition member : PartnerDocuments.SocioConDocumentos :=
  PartnerDocuments.process_socio ∅ ∅ member_row.

Definition empty_page : PartnerDocuments.state :=
  {| PartnerDocuments.sociosConDocumentos := []; PartnerDocuments.loading := true;
     PartnerDocuments.error := None; PartnerDocuments.localidades := [] |}.

(** A second member, without documents, whose lot is not measured. *)
Definition plain_member_row : PartnerDocuments.SocioRow :=
  {| PartnerDocuments.row_id := "s-2"; PartnerDocuments.row_dni := "87654321";
     PartnerDocuments.row_nombres := "LUIS"; PartnerDocuments.row_apellidoPaterno := "HUAMAN";
     PartnerDocuments.row_apellidoMaterno := "CCORI"; PartnerDocuments.row_localidad := "CENTRO";
     PartnerDocuments.row_mz := Some "B"; PartnerDocuments.row_lote := Some "4";
     PartnerDocuments.row_is_lote_medido := Some false;
     PartnerDocuments.row_socio_documentos := [] |}.

Definition plain_member : PartnerDocuments.SocioConDocumentos :=
  PartnerDocuments.process_socio ∅ ∅ plain_member_row.

Definition loaded_page : PartnerDocuments.state :=
  {| PartnerDocuments.sociosConDocumentos := [member; plain_member];
     PartnerDocuments.loading := false;
     PartnerDocuments.error := None; PartnerDocuments.localidades := ["CENTRO"] |}.



Definition second_page : DataTable.internal :=
  {| DataTable.internalPagination := {| DataTable.pageIndex := 1; DataTable.pageSize := 10 |};
     DataTable.internalRowSelection := ∅ |}.

Definition receipt_page : RecibosPage.state :=
  {| RecibosPage.isSubmitting := false; RecibosPage.correlative := "R-00012";
     RecibosPage.clientData := Some (list_to_map
       [("id", JStr "s-1"); ("razon_social", JStr "ANA QUISPE ROJAS");
        ("numero_documento", JStr "12345678")]);
     RecibosPage.form := ∅ |}.

Definition receipt_values : jsobj :=
  list_to_map
    [("dni", JStr "12345678"); ("fecha_emision", JStr "2025-01-15");
     ("monto", JNum (Qmake 250 1)); ("concepto", JStr "Elaboracion de Expediente Tecnico");
     ("metodo_pago", JStr "Efectivo"); ("numero_operacion", JStr "");
     ("is_payment_observed", JBool false); ("payment_observation_detail", JStr "")].

Definition all_services_ok : RecibosPage.responses :=
  {| RecibosPage.pdf := HttpOk (); RecibosPage.saved := HttpOk ();
     RecibosPage.income := HttpOk (); RecibosPage.socioUpdate := DbData ();
     RecibosPage.nextCorrelative := HttpOk "R-00013" |}.

Definition observed_without_detail : jsobj :=
  <["isObservado" := JBool true]> (<["observacion" := JStr "   "]> valid_values).

Definition long_observation : jsobj :=
  <["observacion" := JStr (letters 1001)]> valid_values.

(** A no-break space, U+00A0. *)
Definition no_break_space : string :=
  String (ascii_of_N 0xC2) (String (ascii_of_N 0xA0) EmptyString).

(** An ideographic space, U+3000. *)
Definition ideographic_space : string :=
  String (ascii_of_N 0xE3) (String (ascii_of_N 0x80) (String (ascii_of_N 0x80) EmptyString)).

(** The character U+1F600, outside the basic plane. *)
Definition grinning_face : string :=
  String (ascii_of_N 0xF0) (String (ascii_of_N 0x9F)
    (String (ascii_of_N 0x98) (String (ascii_of_N 0x80) EmptyString))).

(** The full-width letter U+FF45. *)
Definition fullwidth_e : string :=
  String (ascii_of_N 0xEF) (String (ascii_of_N 0xBD) (String (ascii_of_N 0x85) EmptyString)).

(** [n] times the letter ñ, of two bytes. *)
Fixpoint accented (n : nat) : string :=
  match n with
  | O => EmptyString
  | S m => "ñ" +:+ accented m
  end.

Definition observed_with_no_break_space : jsobj :=
  <["isObservado" := JBool true]> (<["observacion" := JStr no_break_space]> valid_values).

Definition accented_observation : jsobj :=
  <["observacion" := JStr (accented 1000)]> valid_values.

End Samples.

(** * More sample inputs *)

Module Scenarios.
Import Samples.

(** An income row that pays for the first member. *)
Definition paid_income : PartnerDocuments.IngresoRow :=
  {| PartnerDocuments.ing_dni := Some "12345678";
     PartnerDocuments.ing_receipt_number := Some "R-00012";
     PartnerDocuments.ing_transaction_type := Some "Recibo de Pago" |}.

Definition paid_member : PartnerDocuments.SocioConDocumentos :=
  PartnerDocuments.process_socio (PartnerDocuments.group_ingresos [paid_income])
    (PartnerDocuments.receipt_types [paid_income]) member_row.

(** The page with its two members listed and nothing selected. *)
Definition documents_page : PartnerDocumentsPage.page :=
  {| PartnerDocumentsPage.listing := loaded_page;
     PartnerDocumentsPage.searchQuery := "";
     PartnerDocumentsPage.selectedLocalidad := "all";
     PartnerDocumentsPage.rowSelection := ∅;
     PartnerDocumentsPage.isBulkUpdating := false;
     PartnerDocumentsPage.deleteConfirmState := PartnerDocumentsPage.no_document;
     PartnerDocumentsPage.isDeleting := false |}.

(** The same page with a query of white space only: a no-break space and a
    space. *)
Definition blank_query_page : PartnerDocumentsPage.page :=
  {| PartnerDocumentsPage.listing := loaded_page;
     PartnerDocumentsPage.searchQuery := no_break_space +:+ " ";
     PartnerDocumentsPage.selectedLocalidad := "all";
     PartnerDocumentsPage.rowSelection := ∅;
     PartnerDocumentsPage.isBulkUpdating := false;
     PartnerDocumentsPage.deleteConfirmState := PartnerDocumentsPage.no_document;
     PartnerDocumentsPage.isDeleting := false |}.

(** A refetch that finds the two members again. *)
Definition same_members : PartnerDocumentsPage.refetch :=
  {| PartnerDocumentsPage.sociosRes := DbData [member_row; plain_member_row];
     PartnerDocumentsPage.localidadesRes := DbData [Some "CENTRO"; Some "CENTRO"; None];
     PartnerDocumentsPage.ingresosRes := DbData [] |}.

Definition plan_link : string :=
  "https://files.example/storage/v1/object/public/planos/s-1/plano-7.pdf".

Definition plan_pathname : string := "/storage/v1/object/public/planos/s-1/plano-7.pdf".

(** The path of the one URL of the samples; any other link is not a URL. *)
Definition pathname_of (link : string) : option string :=
  if String.eqb link plan_link then Some plan_pathname else None.

(** The page once the deletion of the plan was asked for. *)
Definition deletion_pending : PartnerDocumentsPage.page :=
  final (PartnerDocumentsPage.openDeleteConfirmDialog 7 plan_link "Planos de ubicación"
           "ANA QUISPE" documents_page).

(** The storage refuses, the table accepts. *)
Definition storage_refuses : PartnerDocumentsPage.deletion :=
  {| PartnerDocumentsPage.storageRes := DbError "Object not found";
     PartnerDocumentsPage.dbRes := DbData () |}.

(** Dates that are already in the format of the form; anything else is not a
    date. *)
Definition iso_date (s : string) : option string :=
  if (String.length s =? 10)%nat then Some s else None.

Definition blank_component : SocioTitularRegistrationFormData.component :=
  {| SocioTitularRegistrationFormData.registration := blank_form;
     SocioTitularRegistrationFormData.isDniSearching := false;
     SocioTitularRegistrationFormData.localitiesSuggestions := [];
     SocioTitularRegistrationFormData.isLocalitiesLoading := false |}.

(** The row of a socio who is observed, with a note, and whose payment is
    not. *)
Definition observed_row : jsobj :=
  list_to_map
    [("id", JStr "s-1"); ("dni", JStr "12345678"); ("nombres", JStr "ANA");
     ("apellidoPaterno", JStr "QUISPE"); ("apellidoMaterno", JStr "ROJAS");
     ("fechaNacimiento", JStr "1990-05-17"); ("edad", JNum (Qmake 35 1));
     ("celular", JStr "987654321"); ("situacionEconomica", JStr "Pobre");
     ("direccionDNI", JStr "AV. LA CULTURA 100"); ("regionDNI", JStr "CUSCO");
     ("provinciaDNI", JStr "CUSCO"); ("distritoDNI", JStr "WANCHAQ");
     ("localidad", JStr "CENTRO"); ("mz", JNull); ("lote", JNull);
     ("isObservado", JBool true); ("observacion", JStr "Falta la firma");
     ("is_payment_observed", JNull); ("payment_observation_detail", JNull)].

(** The row behind the lots of the first member: block A, lot 12,
    measured. *)
Definition status_row : SocioStatusAndDocuments.StatusRow :=
  {| SocioStatusAndDocuments.row_mz := Some "A";
     SocioStatusAndDocuments.row_lote := Some "12";
     SocioStatusAndDocuments.row_is_lote_medido := Some true;
     SocioStatusAndDocuments.row_nombres := "ANA";
     SocioStatusAndDocuments.row_apellidoPaterno := "QUISPE";
     SocioStatusAndDocuments.row_apellidoMaterno := "ROJAS";
     SocioStatusAndDocuments.row_dni := "12345678" |}.

Definition lots_loading : SocioStatusAndDocuments.state :=
  {| SocioStatusAndDocuments.isLoading := true;
     SocioStatusAndDocuments.isSubmitting := false;
     SocioStatusAndDocuments.lots := [];
     SocioStatusAndDocuments.selectedLotIds := [] |}.

Definition lots_loaded : SocioStatusAndDocuments.state :=
  final (SocioStatusAndDocuments.fetchStatusAndLot "s-1" (DbData (Some status_row))
           lots_loading).

(** The services answer, but the next correlative cannot be fetched. *)
Definition reload_fails : RecibosPage.responses :=
  {| RecibosPage.pdf := HttpOk (); RecibosPage.saved := HttpOk ();
     RecibosPage.income := HttpOk (); RecibosPage.socioUpdate := DbData ();
     RecibosPage.nextCorrelative := HttpThrows "timeout" |}.

Definition second_client : jsobj :=
  list_to_map
    [("id", JStr "s-2"); ("razon_social", JStr "LUIS HUAMAN CCORI");
     ("numero_documento", JStr "87654321")].

(** A table that keeps its own pagination, on its second page, over three
    rows. *)
Definition uncontrolled : DataTable.props unit unit :=
  {| DataTable.data := [(); (); ()];
     DataTable.pagination := None;
     DataTable.onPaginationChange := None;
     DataTable.rowSelection := None;
     DataTable.onRowSelectionChange := None |}.

End Scenarios.

(** * Reasoning about handlers *)
Section HandlerFacts.
Context {St : Type}.

Lemma bind_normal {A B} (m : M St A) (k : A → M St B) s a :
  res (m s) = Normal a →
  bind m k s = RunResult (res (k a (final (m s)))) (final (k a (final (m s))))
                         (emitted (m s) ++ emitted (k a (final (m s)))).
Proof. intros H. unfold bind. by rewrite H. Qed.

Lemma bind_thrown {A B} (m : M St A) (k : A → M St B) s e :
  res (m s) = Thrown e →
  bind m k s = RunResult (Thrown e) (final (m s)) (emitted (m s)).
Proof. intros H. unfold bind. by rewrite H. Qed.

Lemma emitted_bind {A B} (m : M St A) (k : A → M St B) s :
  emitted (bind m k s)
  = emitted (m s) ++ match res (m s) with
                     | Normal a => emitted (k a (final (m s)))
                     | Thrown _ => []
                     end.
Proof. unfold bind. destruct (res (m s)); cbn; by rewrite ?app_nil_r. Qed.

Lemma res_bind {A B} (m : M St A) (k : A → M St B) s :
  res (bind m k s)
  = match res (m s) with
    | Normal a => res (k a (final (m s)))
    | Thrown e => Thrown e
    end.
Proof. unfold bind. by destruct (res (m s)). Qed.

Lemma final_bind {A B} (m : M St A) (k : A → M St B) s :
  final (bind m k s)
  = match res (m s) with
    | Normal a => final (k a (final (m s)))
    | Thrown e => final (m s)
    end.
Proof. unfold bind. by destruct (res (m s)). Qed.

Lemma emitted_try_catch {A} (body : M St A) handler s :
  emitted (try_catch body handler s)
  = emitted (body s) ++ match res (body s) with
                        | Normal _ => []
                        | Thrown e => emitted (handler e (final (body s)))
                        end.
Proof. unfold try_catch. destruct (res (body s)); cbn; by rewrite ?app_nil_r. Qed.

(** ** Running a handler step by step *)

Lemma run_ret {A} (a : A) (s : St) : ret a s = RunResult (Normal a) s [].
Proof. reflexivity. Qed.

Lemma run_throw {A} e (s : St) : throw (A:=A) e s = RunResult (Thrown e) s [].
Proof. reflexivity. Qed.

Lemma run_emit e (s : St) : emit e s = RunResult (Normal tt) s [e].
Proof. reflexivity. Qed.

Lemma run_modify f (s : St) : modify f s = RunResult (Normal tt) (f s) [].
Proof. reflexivity. Qed.

Lemma run_get (s : St) : get s = RunResult (Normal s) s [].
Proof. reflexivity. Qed.

Lemma run_bind {A B} (m : M St A) (k : A → M St B) s a s1 l1 r2 s2 l2 :
  m s = RunResult (Normal a) s1 l1 →
  k a s1 = RunResult r2 s2 l2 →
  bind m k s = RunResult r2 s2 (l1 ++ l2).
Proof. intros H1 H2. unfold bind. rewrite H1. cbn. by rewrite H2. Qed.

Lemma run_bind_thrown {A B} (m : M St A) (k : A → M St B) s e s1 l1 :
  m s = RunResult (Thrown e) s1 l1 →
  bind m k s = RunResult (Thrown e) s1 l1.
Proof. intros H1. unfold bind. by rewrite H1. Qed.

Lemma run_try_catch {A} (body : M St A) handler s a s1 l1 :
  body s = RunResult (Normal a) s1 l1 →
  try_catch body handler s = RunResult (Normal a) s1 l1.
Proof. intros H1. unfold try_catch. by rewrite H1. Qed.

Lemma run_try_catch_thrown {A} (body : M St A) handler s e s1 l1 r2 s2 l2 :
  body s = RunResult (Thrown e) s1 l1 →
  handler e s1 = RunResult r2 s2 l2 →
  try_catch body handler s = RunResult r2 s2 (l1 ++ l2).
Proof. intros H1 H2. unfold try_catch. rewrite H1. cbn. by rewrite H2. Qed.

Lemma run_try_finally {A} (body : M St A) cleanup s r1 s1 l1 s2 l2 :
  body s = RunResult r1 s1 l1 →
  cleanup s1 = RunResult (Normal tt) s2 l2 →
  try_finally body cleanup s = RunResult r1 s2 (l1 ++ l2).
Proof. intros H1 H2. unfold try_finally. rewrite H1. cbn. by rewrite H2. Qed.


Lemma bind_silent {A B} (m : M St A) (k : A → M St B) a s :
  silent m a → bind m k s = k a (final (m s)).
Proof.
  intros Hm. destruct (Hm s) as [Hres Hem].
  rewrite (bind_normal _ _ _ _ Hres), Hem. by destruct (k a (final (m s))).
Qed.

(** ** Relations between the state before and after *)


Section Respects.
Variable R : St → St → Prop.
Hypothesis R_refl : ∀ s, R s s.
Hypothesis R_trans : ∀ s1 s2 s3, R s1 s2 → R s2 s3 → R s1 s3.

Lemma respects_ret {A} (a : A) : respects R (ret a).
Proof. intros s. apply R_refl. Qed.

Lemma respects_throw {A} e : respects R (throw (A:=A) e).
Proof. intros s. apply R_refl. Qed.

Lemma respects_emit e : respects R (emit e).
Proof. intros s. apply R_refl. Qed.

Lemma respects_modify f : (∀ s, R s (f s)) → respects R (modify f).
Proof. intros H s. apply H. Qed.

Lemma respects_bind {A B} (m : M St A) (k : A → M St B) :
  respects R m → (∀ a, respects R (k a)) → respects R (bind m k).
Proof.
  intros Hm Hk s. unfold bind. destruct (res (m s)) as [a|e] eqn:E; cbn.
  - eapply R_trans; [apply Hm | apply Hk].
  - apply Hm.
Qed.

Lemma respects_try_catch {A} (body : M St A) handler :
  respects R body → (∀ e, respects R (handler e)) → respects R (try_catch body handler).
Proof.
  intros Hb Hh s. unfold try_catch. destruct (res (body s)) as [a|e] eqn:E; cbn.
  - apply Hb.
  - eapply R_trans; [apply Hb | apply Hh].
Qed.

Lemma respects_when c (m : M St unit) : respects R m → respects R (when c m).
Proof. intros H. destruct c; [exact H | apply respects_ret]. Qed.

End Respects.

(** ** Properties of every emitted event *)


Section EmitsOnly.
Variable P : event → Prop.

Lemma emits_only_ret {A} (a : A) : emits_only (St:=St) P (ret a).
Proof. intros s. constructor. Qed.

Lemma emits_only_throw {A} e : emits_only (St:=St) P (throw (A:=A) e).
Proof. intros s. constructor. Qed.

Lemma emits_only_modify (f : St → St) : emits_only P (modify f).
Proof. intros s. constructor. Qed.

Lemma emits_only_emit e : P e → emits_only (St:=St) P (emit e).
Proof. intros H s. by repeat constructor. Qed.

Lemma emits_only_bind {A B} (m : M St A) (k : A → M St B) :
  emits_only P m → (∀ a, emits_only P (k a)) → emits_only P (bind m k).
Proof.
  intros Hm Hk s. unfold bind. destruct (res (m s)) as [a|e] eqn:E; cbn.
  - apply Forall_app. split; [apply Hm | apply Hk].
  - apply Hm.
Qed.

Lemma emits_only_try_catch {A} (body : M St A) handler :
  emits_only P body → (∀ e, emits_only P (handler e)) → emits_only P (try_catch body handler).
Proof.
  intros Hb Hh s. unfold try_catch. destruct (res (body s)) as [a|e] eqn:E; cbn.
  - apply Hb.
  - apply Forall_app. split; [apply Hb | apply Hh].
Qed.

Lemma emits_only_when c (m : M St unit) : emits_only P m → emits_only P (when c m).
Proof. intros H. destruct c; [exact H | apply emits_only_ret]. Qed.

End EmitsOnly.

(** ** Handlers that never throw *)


Lemma never_throws_try_catch {A} (body : M St A) handler :
  (∀ e, never_throws (handler e)) → never_throws (try_catch body handler).
Proof.
  intros Hh s. unfold try_catch. destruct (res (body s)) as [a|e] eqn:E; cbn.
  - eauto.
  - apply Hh.
Qed.

Lemma never_throws_log_and_return {A} label (a : A) :
  never_throws (St:=St) (console_error label ;; ret a).
Proof. intros s. by exists a. Qed.

Lemma http_calls_app l1 l2 : http_calls (l1 ++ l2) = http_calls l1 ++ http_calls l2.
Proof. apply omap_app. Qed.

End HandlerFacts.

Create Rewrite HintDb run_tests.
#[export] Hint Rewrite String.eqb_refl : run_tests.

(** Decides a test from the hypotheses, the rules of [run_tests] and
    computation. *)
Ltac decide_test :=
  repeat match goal with
         | H : _ = true |- _ => rewrite H
         | H : _ = false |- _ => rewrite H
         end;
  cbn; autorewrite with run_tests; reflexivity.

(** Runs a handler made of the operations above on a symbolic state. *)
Ltac run :=
  lazymatch goal with
  | |- ret _ _ = _ => apply run_ret
  | |- throw _ _ = _ => apply run_throw
  | |- emit _ _ = _ => apply run_emit
  | |- toast _ _ _ = _ => apply run_emit
  | |- console_error _ _ = _ => apply run_emit
  | |- console_warn _ _ = _ => apply run_emit
  | |- modify _ _ = _ => apply run_modify
  | |- get _ = _ => apply run_get
  | |- when ?c _ _ = _ =>
      first [ replace c with true by decide_test; unfold when; run
            | replace c with false by decide_test; apply run_ret ]
  | |- bind _ _ _ = _ =>
      first [ eapply run_bind; [solve [run] | cbv beta; run]
            | eapply run_bind_thrown; solve [run] ]
  | |- try_catch _ _ _ = _ =>
      first [ eapply run_try_catch; solve [run]
            | eapply run_try_catch_thrown; [solve [run] | cbv beta; run] ]
  | |- try_finally _ _ _ = _ => eapply run_try_finally; [solve [run] | solve [run]]
  | |- (if ?c then _ else _) _ = _ =>
      first [ replace c with true by decide_test; run
            | replace c with false by decide_test; run ]
  | |- (match ?x with _ => _ end) _ = _ => progress cbv iota; run
  | |- _ => reflexivity
  end.

(** * Texts *)

Section TextFacts.

Lemma concat_empty_cons x l : String.concat "" (x :: l) = x +:+ String.concat "" l.
Proof.
  destruct l as [|y l]; [|reflexivity]. cbn [String.concat].
  induction x as [|c x IH]; [reflexivity|].
  change (String c x = String c (x +:+ "")). by f_equal.
Qed.

(** Cutting a text into its characters loses nothing. *)
Lemma chars_concat s : String.concat "" (chars s) = s.
Proof.
  remember (String.length s) as n eqn:Hn. revert s Hn.
  induction n as [n IH] using lt_wf_ind. intros s ->.
  destruct s as [|a s1]; [reflexivity|]. cbn [chars].
  destruct (N_of_ascii a <? 192)%N.
  { rewrite concat_empty_cons, (IH (String.length s1)); [reflexivity | simpl; lia | reflexivity]. }
  destruct s1 as [|b s2]; [reflexivity|].
  destruct (N_of_ascii a <? 224)%N.
  { rewrite concat_empty_cons, (IH (String.length s2)); [reflexivity | simpl; lia | reflexivity]. }
  destruct s2 as [|c s3]; [reflexivity|].
  destruct (N_of_ascii a <? 240)%N.
  { rewrite concat_empty_cons, (IH (String.length s3)); [reflexivity | simpl; lia | reflexivity]. }
  destruct s3 as [|d s4]; [reflexivity|].
  rewrite concat_empty_cons, (IH (String.length s4)); [reflexivity | simpl; lia | reflexivity].
Qed.

Lemma chars_not_empty s c : c ∈ chars s → c ≠ "".
Proof.
  remember (String.length s) as n eqn:Hn. revert s Hn.
  induction n as [n IH] using lt_wf_ind. intros s ->.
  destruct s as [|a s1]; [intros H; by apply elem_of_nil in H|]. cbn [chars].
  destruct (N_of_ascii a <? 192)%N.
  { intros [->|H]%elem_of_cons; [done|]. apply (IH (String.length s1)) in H; [done | simpl; lia | done]. }
  destruct s1 as [|b s2]; [intros ->%list_elem_of_singleton; done|].
  destruct (N_of_ascii a <? 224)%N.
  { intros [->|H]%elem_of_cons; [done|]. apply (IH (String.length s2)) in H; [done | simpl; lia | done]. }
  destruct s2 as [|c' s3]; [intros ->%list_elem_of_singleton; done|].
  destruct (N_of_ascii a <? 240)%N.
  { intros [->|H]%elem_of_cons; [done|]. apply (IH (String.length s3)) in H; [done | simpl; lia | done]. }
  destruct s3 as [|d s4]; [intros ->%list_elem_of_singleton; done|].
  intros [->|H]%elem_of_cons; [done|]. apply (IH (String.length s4)) in H; [done | simpl; lia | done].
Qed.

Lemma concat_empty_nil l : (∀ c, c ∈ l → c ≠ "") → String.concat "" l = "" → l = [].
Proof.
  destruct l as [|x l]; [done|]. intros Hl. rewrite concat_empty_cons.
  destruct x as [|a x]; [|discriminate]. by destruct (Hl "" (list_elem_of_here _ _)).
Qed.

Lemma drop_space_nil l :
  drop_space l = [] ↔ Forall (λ c, white_space (code_point c) = true) l.
Proof.
  induction l as [|c l IH]; simpl; [split; [constructor | done]|].
  destruct (white_space (code_point c)) eqn:Hc.
  - rewrite IH. split; [by constructor | by inversion 1].
  - split; [done | inversion 1; congruence].
Qed.

Lemma drop_space_suffix l : drop_space l `suffix_of` l.
Proof.
  induction l as [|c l IH]; simpl; [done|].
  destruct (white_space (code_point c)); [by apply suffix_cons_r | done].
Qed.

Lemma drop_space_head l c rest :
  drop_space l = c :: rest → white_space (code_point c) = false.
Proof.
  induction l as [|c' l IH]; simpl; [done|].
  destruct (white_space (code_point c')) eqn:Hc; [done|]. by intros [= <- _].
Qed.

(** [trim] leaves nothing exactly of the texts made of white space. *)
Lemma js_trim_blank s :
  js_trim s = "" ↔ Forall (λ c, white_space (code_point c) = true) (chars s).
Proof.
  unfold js_trim. rewrite <- drop_space_nil. split.
  - intros Hs. apply concat_empty_nil in Hs.
    + apply (f_equal (@rev _)) in Hs. rewrite rev_involutive in Hs. simpl in Hs.
      apply drop_space_nil in Hs.
      destruct (drop_space (chars s)) as [|c rest] eqn:Hd; [done|].
      apply drop_space_head in Hd.
      rewrite Forall_forall in Hs. rewrite (Hs c) in Hd; [done|].
      rewrite list_elem_of_In, <- in_rev. by left.
    + intros c Hc. apply (chars_not_empty s).
      rewrite list_elem_of_In, <- in_rev, <- list_elem_of_In in Hc.
      pose proof (drop_space_suffix (rev (drop_space (chars s)))) as [k1 Hk1].
      assert (c ∈ rev (drop_space (chars s))) as Hc' by (rewrite Hk1, elem_of_app; by right).
      rewrite list_elem_of_In, <- in_rev, <- list_elem_of_In in Hc'.
      pose proof (drop_space_suffix (chars s)) as [k2 Hk2].
      rewrite Hk2, elem_of_app. by right.
  - intros ->. reflexivity.
Qed.

(** An ASCII character is one code unit, its byte. *)
Lemma utf16_ascii c rest :
  (N_of_ascii c < 0x80)%N → utf16 (String c rest) = N_of_ascii c :: utf16 rest.
Proof.
  intros Hc. unfold utf16. cbn [chars].
  replace (N_of_ascii c <? 0xC0)%N with true by (symmetry; apply N.ltb_lt; lia).
  cbn [List.flat_map code_point].
  replace (N_of_ascii c <? 0x80)%N with true by (symmetry; by apply N.ltb_lt).
  unfold code_units.
  replace (N_of_ascii c <? 0x10000)%N with true by (symmetry; apply N.ltb_lt; lia).
  reflexivity.
Qed.

End TextFacts.

(** * The partner-documents page *)

Section PartnerDocumentsFacts.
Import PartnerDocuments.

Lemma eqb_true_iff (a b : string) : String.eqb a b = true ↔ a = b.
Proof. apply String.eqb_eq. Qed.

Lemma truthy_str_some (v : option string) : truthy_str v = true → v ≠ None.
Proof. destruct v; [discriminate | intros H; discriminate H]. Qed.

Lemma tag_document_tipo types doc :
  tipo_documento (tag_document types doc) = tipo_documento doc.
Proof. unfold tag_document. destruct (_ && _); reflexivity. Qed.

Lemma tag_document_link types doc :
  link_documento (tag_document types doc) = link_documento doc.
Proof. unfold tag_document. destruct (_ && _); reflexivity. Qed.

Lemma keep_document_link types doc :
  keep_document types doc = true → truthy_str (link_documento doc) = true.
Proof.
  unfold keep_document.
  destruct (includes_str allowedDocumentTypes (tipo_documento doc)); simpl; [|discriminate].
  destruct (truthy_str (link_documento doc)); simpl; [reflexivity | discriminate].
Qed.

Lemma filtered_link_truthy types docs doc :
  doc ∈ tag_document types <$> List.filter (keep_document types) docs →
  truthy_str (link_documento doc) = true.
Proof.
  intros Hin. apply list_elem_of_fmap in Hin as (d & -> & Hd).
  apply list_elem_of_In, filter_In in Hd as [_ Hkeep].
  rewrite tag_document_link. by apply (keep_document_link types).
Qed.

Lemma existsb_is_doc_of tipo (docs : list SocioDocumento) :
  existsb (is_doc_of tipo) docs = true ↔
  ∃ doc, doc ∈ docs ∧ tipo_documento doc = tipo ∧ truthy_str (link_documento doc) = true.
Proof.
  rewrite existsb_exists. split.
  - intros (d & Hin & Hd). exists d. apply list_elem_of_In in Hin.
    unfold is_doc_of in Hd. apply andb_true_iff in Hd as [Ht Hl].
    apply eqb_true_iff in Ht. done.
  - intros (d & Hin & Ht & Hl). exists d. split; [by apply list_elem_of_In|].
    unfold is_doc_of. apply andb_true_iff. split; [by apply eqb_true_iff | done].
Qed.

Lemma process_socio_measured byDni types socio :
  let p := process_socio byDni types socio in
  ((∃ doc, doc ∈ socio_documentos p
           ∧ (tipo_documento doc = "Planos de ubicación"
              ∨ tipo_documento doc = "Memoria descriptiva")
           ∧ link_documento doc ≠ None)
   → is_lote_medido p = Some true)
  ∧ ((¬ ∃ doc, doc ∈ socio_documentos p
               ∧ (tipo_documento doc = "Planos de ubicación"
                  ∨ tipo_documento doc = "Memoria descriptiva")
               ∧ link_documento doc ≠ None)
     → is_lote_medido p = Some (default false (row_is_lote_medido socio))).
Proof.
  simpl. set (docs := tag_document types <$> _).
  split.
  - intros (doc & Hin & Htipo & _).
    pose proof (filtered_link_truthy _ _ _ Hin) as Hlink.
    destruct Htipo as [Ht | Ht].
    + assert (existsb (is_doc_of "Planos de ubicación") docs = true) as ->; [|done].
      apply existsb_is_doc_of. eauto.
    + assert (existsb (is_doc_of "Memoria descriptiva") docs = true) as ->.
      { apply existsb_is_doc_of. eauto. }
      by rewrite orb_true_r.
  - intros Hno.
    destruct (existsb (is_doc_of "Planos de ubicación") docs) eqn:Hp.
    { exfalso. apply Hno. apply existsb_is_doc_of in Hp as (d & ? & ? & ?).
      exists d. split_and!; [done | by left | by apply truthy_str_some]. }
    destruct (existsb (is_doc_of "Memoria descriptiva") docs) eqn:Hm.
    { exfalso. apply Hno. apply existsb_is_doc_of in Hm as (d & ? & ? & ?).
      exists d. split_and!; [done | by right | by apply truthy_str_some]. }
    done.
Qed.

(** Claim C2.  Every socio that [fetchAllData] puts in the list comes from a
    row of the query.  If, among its documents after filtering, one is a
    location plan or a descriptive report with a link, its [is_lote_medido] is
    [true] whatever the stored flag; if there is none, it is the stored flag,
    [null] read as [false]. *)
Theorem fetchAllData_lote_medido_override
    (st : state) (sociosRes : db_result (list SocioRow))
    (localidadesRes : db_result (list (option string)))
    (ingresosRes : db_result (list IngresoRow)) (p : SocioConDocumentos) :
  p ∈ sociosConDocumentos (final (fetchAllData sociosRes localidadesRes ingresosRes st)) →
  ∃ rows socio,
    sociosRes = DbData rows ∧ socio ∈ rows ∧ id p = row_id socio
    ∧ ((∃ doc, doc ∈ socio_documentos p
               ∧ (tipo_documento doc = "Planos de ubicación"
                  ∨ tipo_documento doc = "Memoria descriptiva")
               ∧ link_documento doc ≠ None)
       → is_lote_medido p = Some true)
    ∧ ((¬ ∃ doc, doc ∈ socio_documentos p
                 ∧ (tipo_documento doc = "Planos de ubicación"
                    ∨ tipo_documento doc = "Memoria descriptiva")
                 ∧ link_documento doc ≠ None)
       → is_lote_medido p = Some (default false (row_is_lote_medido socio))).
Proof.
  destruct sociosRes as [m1 | rows]; [cbn; intros H; by apply elem_of_nil in H|].
  destruct localidadesRes as [m2 | locs]; [cbn; intros H; by apply elem_of_nil in H|].
  destruct ingresosRes as [m3 | ings]; [cbn; intros H; by apply elem_of_nil in H|].
  cbn. intros Hin. apply list_elem_of_fmap in Hin as (socio & -> & Hsocio).
  exists rows, socio. split_and!; [done | done | done | |];
    apply (process_socio_measured (group_ingresos ings) (receipt_types ings) socio).
Qed.
Lemma with_lote_medido_undo v (s : SocioConDocumentos) :
  with_lote_medido (is_lote_medido s) (with_lote_medido v s) = s.
Proof. by destruct s. Qed.

Lemma map_lote_medido_absent socioId v (l : list SocioConDocumentos) :
  socioId ∉ id <$> l → map_lote_medido socioId v l = l.
Proof.
  induction l as [|s l IH]; [done|].
  rewrite fmap_cons, not_elem_of_cons. intros [Hne Hl].
  unfold map_lote_medido in *. rewrite fmap_cons, IH by done.
  destruct (String.eqb_spec (id s) socioId); congruence.
Qed.

Lemma map_lote_medido_cons socioId v s (l : list SocioConDocumentos) :
  map_lote_medido socioId v (s :: l)
  = (if String.eqb (id s) socioId then with_lote_medido v s else s)
      :: map_lote_medido socioId v l.
Proof. reflexivity. Qed.

Lemma map_lote_medido_revert socioId v (l : list SocioConDocumentos) originalData :
  NoDup (id <$> l) →
  List.find (fun s => String.eqb (id s) socioId) l = Some originalData →
  map_lote_medido socioId (is_lote_medido originalData) (map_lote_medido socioId v l) = l.
Proof.
  induction l as [|s l IH]; [done|].
  rewrite fmap_cons, NoDup_cons. intros [Hfresh Hnd].
  rewrite !map_lote_medido_cons. cbn [List.find].
  destruct (String.eqb_spec (id s) socioId) as [Heq | Hne].
  - intros [= <-]. cbn [id with_lote_medido].
    rewrite (proj2 (String.eqb_eq _ _) Heq), with_lote_medido_undo.
    subst socioId. rewrite (map_lote_medido_absent (id s) v l) by done.
    by rewrite map_lote_medido_absent.
  - intros Hfind. rewrite (proj2 (String.eqb_neq _ _) Hne). f_equal.
    by apply IH.
Qed.










End PartnerDocumentsFacts.

(** * The form schema *)

Section ZodFacts.
Import Zod.

Lemma merge_status_not_aborted a b :
  merge_status a b ≠ Aborted ↔ a ≠ Aborted ∧ b ≠ Aborted.
Proof. destruct a, b; cbn; intuition congruence. Qed.

Lemma z_object_issue shape input i :
  i ∈ issues (z_object shape input) ↔
  ∃ k s m, (k, s) ∈ shape ∧ m ∈ messages (s (prop input k))
           ∧ i = {| path := [k]; message := m |}.
Proof.
  induction shape as [|[k0 s0] shape IH]; cbn.
  - split; [intros H; by apply elem_of_nil in H|].
    intros (k & s & m & H & _). by apply elem_of_nil in H.
  - rewrite elem_of_app, list_elem_of_fmap, IH. split.
    + intros [(m & -> & Hm) | (k & s & m & Hin & Hm & ->)].
      * exists k0, s0, m. split_and!; [left | done | done].
      * exists k, s, m. split_and!; [by right | done | done].
    + intros (k & s & m & Hin & Hm & ->).
      apply elem_of_cons in Hin as [[= -> ->] | Hin]; [left; eauto|].
      right. eauto 10.
Qed.

Lemma z_object_not_aborted shape input k s :
  obj_status (z_object shape input) ≠ Aborted →
  (k, s) ∈ shape → status (s (prop input k)) ≠ Aborted.
Proof.
  induction shape as [|[k0 s0] shape IH]; cbn.
  - intros _ H. by apply elem_of_nil in H.
  - rewrite merge_status_not_aborted. intros [H0 Hrest] Hin.
    apply elem_of_cons in Hin as [[= -> ->] | Hin]; [done | by apply IH].
Qed.

Lemma z_object_output_absent shape input k :
  k ∉ shape.*1 → output (z_object shape input) !! k = None.
Proof.
  induction shape as [|[k0 s0] shape IH]; cbn; [done|].
  rewrite not_elem_of_cons. intros [Hne Hk].
  destruct (value _); rewrite ?lookup_insert_ne by done; by apply IH.
Qed.

Lemma z_object_output shape input k s :
  NoDup shape.*1 → (k, s) ∈ shape →
  prop (output (z_object shape input)) k = value (s (prop input k)).
Proof.
  unfold prop at 1.
  induction shape as [|[k0 s0] shape IH]; cbn.
  - intros _ H. by apply elem_of_nil in H.
  - rewrite NoDup_cons. intros [Hfresh Hnd] Hin.
    apply elem_of_cons in Hin as [[= -> ->] | Hin].
    + destruct (value (s0 _)) eqn:Hv; rewrite ?lookup_insert_eq; try done.
      by rewrite z_object_output_absent.
    + assert (k0 ≠ k).
      { intros ->. apply Hfresh. apply list_elem_of_fmap.
        by exists (k, s). }
      destruct (value (s0 _)); rewrite ?lookup_insert_ne by done; by apply IH.
Qed.

Lemma shape_functional (shape : list (string * schema)) k s s' :
  NoDup shape.*1 → (k, s) ∈ shape → (k, s') ∈ shape → s = s'.
Proof.
  induction shape as [|[k0 s0] shape IH]; cbn.
  - intros _ H. by apply elem_of_nil in H.
  - rewrite NoDup_cons. intros [Hfresh Hnd] H1 H2.
    assert (∀ t, (k0, t) ∈ shape → False) as Hk0.
    { intros t Ht. apply Hfresh, list_elem_of_fmap. by exists (k0, t). }
    apply elem_of_cons in H1 as [E1 | H1];
      apply elem_of_cons in H2 as [E2 | H2]; simplify_eq;
      [done | by destruct (Hk0 _ H2) | by destruct (Hk0 _ H1) | by apply IH].
Qed.

End ZodFacts.

Section FormSchemaFacts.
Import Zod SocioTitularRegistrationForm.

Ltac in_shape := repeat (first [apply list_elem_of_here | apply list_elem_of_further]).

Lemma personal_shape_keys : NoDup personal_shape.*1.
Proof. apply (bool_decide_unpack _). by vm_compute. Qed.

Lemma detail_schema_value msg v : value (detail_schema msg v) = v.
Proof. by destruct v. Qed.

Lemma detail_schema_message msg v m :
  status (detail_schema msg v) ≠ Aborted →
  m ∈ messages (detail_schema msg v) ↔
  m = msg ∧ ∃ s, v = JStr s ∧ (1000 < js_length s)%nat.
Proof.
  destruct v as [| | b | q | s]; cbn; try (intros H; by destruct H).
  - intros _. split; [intros H; by apply elem_of_nil in H | intros [_ (s & ? & _)]; done].
  - intros _. split; [intros H; by apply elem_of_nil in H | intros [_ (s & ? & _)]; done].
  - intros _. unfold max_len. destruct (Nat.ltb_spec 1000 (js_length s)); cbn.
    + rewrite list_elem_of_singleton. split; [intros ->; eauto | by intros [-> _]].
    + split; [intros H'; by apply elem_of_nil in H'|].
      intros [_ (s' & [= <-] & ?)]. lia.
Qed.

Lemma detail_schema_status msg v :
  status (detail_schema msg v) ≠ Aborted →
  v = JUndefined ∨ v = JNull ∨ ∃ s, v = JStr s.
Proof. destruct v; cbn; eauto; intros H; by destruct H. Qed.

Lemma flag_schema_value v :
  status (with_default (JBool false) z_boolean v) ≠ Aborted →
  truthy (value (with_default (JBool false) z_boolean v)) = true ↔ v = JBool true.
Proof.
  destruct v as [| | [] | |]; cbn; try (intros H; by destruct H); intros _; split; done.
Qed.

Lemma blank_cases v :
  (v = JUndefined ∨ v = JNull ∨ ∃ s, v = JStr s) →
  blank v = true ↔ v = JUndefined ∨ v = JNull ∨ ∃ s, v = JStr s ∧ js_trim s = "".
Proof.
  intros [-> | [-> | [s ->]]]; [cbn; naive_solver | cbn; naive_solver |].
  unfold blank. split.
  - intros H. right; right. exists s. split; [done|].
    destruct s as [|c s]; [done|]. cbn in H. by apply String.eqb_eq.
  - intros [? | [? | (s' & [= <-] & Hs)]]; [done | done |].
    apply orb_true_iff. right. by apply String.eqb_eq.
Qed.

Lemma address_keys k s :
  (k, s) ∈ [("regionVivienda", free_text); ("provinciaVivienda", free_text);
            ("distritoVivienda", free_text); ("direccionVivienda", free_text);
            ("mz", free_text); ("lote", free_text)] →
  k ≠ "observacion" ∧ k ≠ "paymentObservationDetail".
Proof.
  intros H.
  repeat (apply elem_of_cons in H as [E | H]; [injection E as -> _; split; discriminate|]).
  by apply elem_of_nil in H.
Qed.

Lemma conditional_details_path data i :
  i ∈ conditional_details data →
  (path i = ["observacion"] →
   truthy (prop data "isObservado") && blank (prop data "observacion") = true)
  ∧ (path i = ["paymentObservationDetail"] →
     truthy (prop data "isPaymentObserved") && blank (prop data "paymentObservationDetail") = true).
Proof.
  unfold conditional_details.
  destruct (truthy (prop data "isObservado") && blank (prop data "observacion"));
    destruct (truthy (prop data "isPaymentObserved")
              && blank (prop data "paymentObservationDetail")); cbn [app];
    intros H;
    repeat (apply elem_of_cons in H as [-> | H];
            [split; intros E; first [reflexivity | discriminate E]|]);
    by apply elem_of_nil in H.
Qed.

Lemma conditional_details_observacion data :
  truthy (prop data "isObservado") && blank (prop data "observacion") = true →
  ∃ i, i ∈ conditional_details data ∧ path i = ["observacion"].
Proof.
  intros H. unfold conditional_details. rewrite H.
  eexists. split; [apply list_elem_of_here | reflexivity].
Qed.

Lemma conditional_details_payment data :
  truthy (prop data "isPaymentObserved") && blank (prop data "paymentObservationDetail") = true →
  ∃ i, i ∈ conditional_details data ∧ path i = ["paymentObservationDetail"].
Proof.
  intros H. unfold conditional_details. rewrite H.
  eexists. split; [apply elem_of_app; right; apply list_elem_of_here | reflexivity].
Qed.

(** The issues raised on a detail field that is required when its flag is
    set, for any object schema with such a pair of fields. *)
Section ConditionalDetail.
Variables (shape addr : list (string * schema)) (callback : jsobj → list issue).
Variables (flag detail msg : string).
Hypothesis shape_keys : NoDup shape.*1.
Hypothesis flag_in_shape : (flag, with_default (JBool false) z_boolean) ∈ shape.
Hypothesis detail_in_shape : (detail, detail_schema msg) ∈ shape.
Hypothesis addr_keys : ∀ k s, (k, s) ∈ addr → k ≠ detail.
Hypothesis callback_sound : ∀ data i,
  i ∈ callback data → path i = [detail] →
  truthy (prop data flag) && blank (prop data detail) = true.
Hypothesis callback_complete : ∀ data,
  truthy (prop data flag) && blank (prop data detail) = true →
  ∃ i, i ∈ callback data ∧ path i = [detail].

Let validate : jsobj → parsed_object :=
  intersection (superRefine callback (z_object shape)) (z_object addr).

Lemma base_issue_on_detail input i :
  i ∈ issues (z_object shape input) → path i = [detail] →
  message i ∈ messages (detail_schema msg (prop input detail)).
Proof.
  intros (k & s & m & Hks & Hm & ->)%z_object_issue Hpath. cbn in Hpath.
  injection Hpath as ->.
  by rewrite <-(shape_functional _ _ _ _ shape_keys Hks detail_in_shape).
Qed.

Lemma addr_issue_not_on_detail input i :
  i ∈ issues (z_object addr input) → path i ≠ [detail].
Proof.
  intros (k & s & m & Hks & Hm & ->)%z_object_issue Hpath. cbn in Hpath.
  injection Hpath as ->. by apply (addr_keys _ _ Hks).
Qed.

Lemma condition_on_input input :
  obj_status (z_object shape input) ≠ Aborted →
  truthy (prop (output (z_object shape input)) flag)
  && blank (prop (output (z_object shape input)) detail) = true
  ↔ prop input flag = JBool true
    ∧ (prop input detail = JUndefined ∨ prop input detail = JNull
       ∨ ∃ s, prop input detail = JStr s ∧ js_trim s = "").
Proof.
  intros Hok.
  pose proof (z_object_not_aborted _ _ _ _ Hok flag_in_shape) as Hfs.
  pose proof (z_object_not_aborted _ _ _ _ Hok detail_in_shape) as Hds.
  rewrite andb_true_iff.
  rewrite (z_object_output _ input _ _ shape_keys flag_in_shape).
  rewrite (z_object_output _ input _ _ shape_keys detail_in_shape).
  rewrite detail_schema_value, (flag_schema_value _ Hfs).
  rewrite blank_cases; [reflexivity|]. exact (detail_schema_status msg _ Hds).
Qed.

Lemma validate_issues input :
  obj_status (z_object shape input) ≠ Aborted →
  issues (validate input)
  = (issues (z_object shape input) ++ callback (output (z_object shape input)))
      ++ issues (z_object addr input).
Proof.
  intros Hok. unfold validate, intersection, superRefine. cbn [issues].
  destruct (obj_status (z_object shape input)); [reflexivity | reflexivity |].
  by destruct Hok.
Qed.

Lemma validate_issues_aborted input :
  obj_status (z_object shape input) = Aborted →
  issues (validate input) = issues (z_object shape input) ++ issues (z_object addr input).
Proof.
  intros Hst. unfold validate, intersection, superRefine. cbn [issues].
  by rewrite Hst.
Qed.

Lemma detail_issue input :
  obj_status (z_object shape input) ≠ Aborted →
  has_issue_on detail (validate input) ↔
    (prop input flag = JBool true
     ∧ (prop input detail = JUndefined ∨ prop input detail = JNull
        ∨ ∃ s, prop input detail = JStr s ∧ js_trim s = ""))
    ∨ (∃ s, prop input detail = JStr s ∧ (1000 < js_length s)%nat).
Proof.
  intros Hok. unfold has_issue_on. rewrite (validate_issues _ Hok).
  pose proof (z_object_not_aborted _ _ _ _ Hok detail_in_shape) as Hds.
  split.
  - intros (i & Hin & Hpath).
    rewrite !elem_of_app in Hin. destruct Hin as [[Hin | Hin] | Hin].
    + right. pose proof (base_issue_on_detail _ _ Hin Hpath) as Hm.
      by apply (detail_schema_message msg _ _ Hds) in Hm as [_ ?].
    + left. apply (condition_on_input _ Hok). exact (callback_sound _ _ Hin Hpath).
    + by destruct (addr_issue_not_on_detail _ _ Hin).
  - intros [Hc | Hlong].
    + apply (condition_on_input _ Hok), callback_complete in Hc as (i & Hin & Hpath).
      exists i. split; [|exact Hpath]. rewrite !elem_of_app. left; by right.
    + exists {| path := [detail]; message := msg |}. split; [|reflexivity].
      rewrite !elem_of_app. left; left. apply z_object_issue.
      exists detail, (detail_schema msg), msg.
      split; [exact detail_in_shape|]. split; [|reflexivity].
      by apply (detail_schema_message msg _ _ Hds).
Qed.

(** With the flag not set, an empty detail raises no issue. *)
Lemma detail_no_issue input :
  prop input flag ≠ JBool true →
  (prop input detail = JUndefined ∨ prop input detail = JNull ∨ prop input detail = JStr "") →
  ¬ has_issue_on detail (validate input).
Proof.
  intros Hoff Hempty (i & Hin & Hpath).
  assert (messages (detail_schema msg (prop input detail)) = []) as Hnone.
  { destruct Hempty as [-> | [-> | ->]]; reflexivity. }
  assert (i ∈ issues (z_object shape input) → False) as Hbase.
  { intros Hi. pose proof (base_issue_on_detail _ _ Hi Hpath) as Hm.
    rewrite Hnone in Hm. by apply elem_of_nil in Hm. }
  assert (obj_status (z_object shape input) = Aborted
          ∨ obj_status (z_object shape input) ≠ Aborted) as [Hst | Hok].
  { destruct (obj_status (z_object shape input)); [right | right | left]; done. }
  - rewrite (validate_issues_aborted _ Hst), elem_of_app in Hin.
    destruct Hin as [Hin | Hin]; [by apply Hbase|].
    by destruct (addr_issue_not_on_detail _ _ Hin).
  - rewrite (validate_issues _ Hok), !elem_of_app in Hin.
    destruct Hin as [[Hin | Hin] | Hin]; [by apply Hbase | |].
    + pose proof (callback_sound _ _ Hin Hpath) as Hc.
      apply (condition_on_input _ Hok) in Hc as [Hflag _]. by apply Hoff.
    + by destruct (addr_issue_not_on_detail _ _ Hin).
Qed.

End ConditionalDetail.

(** Claim C4, as amended.  On an input whose properties have the types the
    schema expects (the object does not abort, so the conditional rule runs),
    validation reports an issue on [observacion] exactly when [isObservado] is
    true and [observacion] is absent, null or white space only, or when
    [observacion] is longer than 1000 characters; the same holds of
    [paymentObservationDetail] with [isPaymentObserved].  On any input, when
    the flag is not true an absent, null or empty detail raises no issue on
    its field. *)
Theorem formSchema_conditional_details (input : jsobj) :
  (obj_status (z_object personal_shape input) ≠ Aborted →
   (has_issue_on "observacion" (formSchema input) ↔
      (prop input "isObservado" = JBool true
       ∧ (prop input "observacion" = JUndefined ∨ prop input "observacion" = JNull
          ∨ ∃ s, prop input "observacion" = JStr s ∧ js_trim s = ""))
      ∨ (∃ s, prop input "observacion" = JStr s ∧ (1000 < js_length s)%nat))
   ∧ (has_issue_on "paymentObservationDetail" (formSchema input) ↔
        (prop input "isPaymentObserved" = JBool true
         ∧ (prop input "paymentObservationDetail" = JUndefined
            ∨ prop input "paymentObservationDetail" = JNull
            ∨ ∃ s, prop input "paymentObservationDetail" = JStr s ∧ js_trim s = ""))
        ∨ (∃ s, prop input "paymentObservationDetail" = JStr s
                ∧ (1000 < js_length s)%nat)))
  ∧ (prop input "isObservado" ≠ JBool true →
     (prop input "observacion" = JUndefined ∨ prop input "observacion" = JNull
      ∨ prop input "observacion" = JStr "") →
     ¬ has_issue_on "observacion" (formSchema input))
  ∧ (prop input "isPaymentObserved" ≠ JBool true →
     (prop input "paymentObservationDetail" = JUndefined
      ∨ prop input "paymentObservationDetail" = JNull
      ∨ prop input "paymentObservationDetail" = JStr "") →
     ¬ has_issue_on "paymentObservationDetail" (formSchema input)).
Proof.
  unfold formSchema, personalDataSchema, addressDataSchema.
  pose proof personal_shape_keys as Hkeys.
  assert (("isObservado", with_default (JBool false) z_boolean) ∈ personal_shape)
    as Hflag1 by in_shape.
  assert (("observacion", detail_schema "La observación es demasiado larga.") ∈ personal_shape)
    as Hdetail1 by in_shape.
  assert (("isPaymentObserved", with_default (JBool false) z_boolean) ∈ personal_shape)
    as Hflag2 by in_shape.
  assert (("paymentObservationDetail",
           detail_schema "El detalle de la observación de pago es demasiado largo.")
          ∈ personal_shape) as Hdetail2 by in_shape.
  revert Hkeys Hflag1 Hdetail1 Hflag2 Hdetail2.
  generalize personal_shape. intros shape Hkeys Hflag1 Hdetail1 Hflag2 Hdetail2.
  split_and!.
  - intros Hok. split.
    + apply (detail_issue shape _ conditional_details "isObservado" "observacion"
               "La observación es demasiado larga." Hkeys Hflag1 Hdetail1);
        [ intros k s Hks; apply (address_keys k s Hks)
        | intros data i Hi; apply (conditional_details_path data i Hi)
        | apply conditional_details_observacion | exact Hok ].
    + apply (detail_issue shape _ conditional_details "isPaymentObserved"
               "paymentObservationDetail"
               "El detalle de la observación de pago es demasiado largo."
               Hkeys Hflag2 Hdetail2);
        [ intros k s Hks; apply (address_keys k s Hks)
        | intros data i Hi; apply (conditional_details_path data i Hi)
        | apply conditional_details_payment | exact Hok ].
  - apply (detail_no_issue shape _ conditional_details "isObservado" "observacion"
             "La observación es demasiado larga." Hkeys Hflag1 Hdetail1);
      [ intros k s Hks; apply (address_keys k s Hks)
      | intros data i Hi; apply (conditional_details_path data i Hi) ].
  - apply (detail_no_issue shape _ conditional_details "isPaymentObserved"
             "paymentObservationDetail"
             "El detalle de la observación de pago es demasiado largo."
             Hkeys Hflag2 Hdetail2);
      [ intros k s Hks; apply (address_keys k s Hks)
      | intros data i Hi; apply (conditional_details_path data i Hi) ].
Qed.

End FormSchemaFacts.

(** * The identity lookup *)

Section ReniecFacts.
Import SocioTitularRegistrationForm.

Lemma keeps_filled_refl s : keeps_filled s s.
Proof. by intros g _. Qed.

Lemma keeps_filled_trans s1 s2 s3 :
  keeps_filled s1 s2 → keeps_filled s2 s3 → keeps_filled s1 s3.
Proof.
  intros H12 H23 g Hg. rewrite <-(H12 g Hg). apply H23. by rewrite (H12 g Hg).
Qed.

Lemma not_http_calls l : Forall not_http l → http_calls l = [].
Proof.
  induction 1 as [|e l He _ IH]; [done|].
  change (e :: l) with ([e] ++ l). by rewrite http_calls_app, He, IH.
Qed.

Lemma emits_only_watch P name : emits_only P (watch name).
Proof. intros s. constructor. Qed.

Lemma emits_only_checkMissingFields P : emits_only P checkMissingFields.
Proof. intros s. constructor. Qed.

Ltac emits_only_step :=
  first
    [ apply emits_only_ret | apply emits_only_throw | apply emits_only_modify
    | apply emits_only_watch | apply emits_only_checkMissingFields
    | apply emits_only_emit; first [reflexivity | exact I]
    | apply emits_only_when
    | apply emits_only_bind; [|intros ?]
    | apply emits_only_try_catch; [|intros ?]
    | match goal with
      | |- emits_only _ (match ?x with _ => _ end) => destruct x
      end
    | progress unfold setValue, toast, console_error, fill_if_empty, fill_fechaNacimiento,
        formatDateToISO, split_surname, request ].

Lemma fill_if_empty_silent name v : silent (fill_if_empty name v) tt.
Proof. intros s. unfold fill_if_empty, bind, watch; cbn. by destruct (truthy _). Qed.

Lemma fill_if_empty_keeps name v : respects keeps_filled (fill_if_empty name v).
Proof.
  intros s g Hg. unfold fill_if_empty, bind, watch; cbn.
  destruct (truthy (prop (form s) name)) eqn:Hname; cbn; [done|].
  unfold prop. rewrite lookup_insert_ne; [done|]. intros ->. unfold prop in *. congruence.
Qed.

Lemma formatDateToISO_final raw s : final (formatDateToISO raw s) = s.
Proof.
  unfold formatDateToISO. destruct (truthy raw); cbn; [|done].
  destruct raw as [| | | |d]; try done.
  destruct (js_includes "-" d); [done|].
  by destruct (js_split "/" d) as [|? [|? [|? [|]]]].
Qed.

Lemma fill_fechaNacimiento_keeps raw : respects keeps_filled (fill_fechaNacimiento raw).
Proof.
  intros s g Hg. unfold fill_fechaNacimiento, bind at 1, watch; cbn.
  destruct (truthy (prop (form s) "fechaNacimiento")) eqn:Hname; cbn; [done|].
  unfold bind. destruct (res (formatDateToISO raw s)) eqn:E; cbn;
    rewrite formatDateToISO_final; [|done].
  unfold prop. rewrite lookup_insert_ne; [done|]. intros <-. unfold prop in *. congruence.
Qed.

Ltac keeps_step :=
  first
    [ apply (respects_ret _ keeps_filled_refl)
    | apply (respects_throw _ keeps_filled_refl)
    | apply (respects_emit _ keeps_filled_refl)
    | apply fill_if_empty_keeps | apply fill_fechaNacimiento_keeps
    | apply (respects_when _ keeps_filled_refl)
    | apply (respects_bind _ keeps_filled_trans); [|intros ?]
    | apply (respects_try_catch _ keeps_filled_trans); [|intros ?]
    | match goal with
      | |- respects _ (match ?x with _ => _ end) => destruct x
      end
    | progress unfold toast, console_error, request ].

Lemma respects_checkMissingFields : respects keeps_filled checkMissingFields.
Proof. intros s. apply keeps_filled_refl. Qed.

Lemma attempt_secondary_keeps e dni r dataFound :
  respects keeps_filled (attempt_secondary e dni r dataFound).
Proof.
  unfold attempt_secondary.
  apply (respects_bind _ keeps_filled_trans); [apply respects_checkMissingFields|].
  intros missing. repeat keeps_step.
Qed.

Lemma attempt_tertiary_keeps e dni r dataFound :
  respects keeps_filled (attempt_tertiary e dni r dataFound).
Proof.
  unfold attempt_tertiary.
  apply (respects_bind _ keeps_filled_trans); [apply respects_checkMissingFields|].
  intros missing. repeat keeps_step.
Qed.

Lemma request_emitted {B} api dni (r : http_result B) s :
  emitted (request api dni r s) = [EHttp api dni].
Proof. by destruct r. Qed.

(** A guarded request issues its one call, whatever follows it. *)
Lemma guarded_request {B} api dni (r : http_result B) (k : B → M state bool) handler s :
  (∀ b, emits_only not_http (k b)) →
  (∀ x, emits_only not_http (handler x)) →
  http_calls (emitted (try_catch (b <- request api dni r ;; k b) handler s)) = [api].
Proof.
  intros Hk Hh.
  rewrite emitted_try_catch, emitted_bind, request_emitted, !http_calls_app.
  assert (http_calls [EHttp api dni] = [api]) as -> by reflexivity.
  match goal with
  | |- (_ ++ http_calls ?l1) ++ http_calls ?l2 = _ =>
      assert (http_calls l1 = []) as ->; [|assert (http_calls l2 = []) as ->; [|done]]
  end.
  - destruct (res (request api dni r s)); [apply not_http_calls, Hk | done].
  - match goal with |- http_calls (match ?x with _ => _ end) = _ => destruct x end;
      [done | apply not_http_calls, Hh].
Qed.

Lemma attempt_primary_calls e dni r s :
  http_calls (emitted (attempt_primary e dni r s))
  = if truthy_str (VITE_CONSULTAS_PERU_API_TOKEN e) then [ApiPrimary] else [].
Proof.
  unfold attempt_primary.
  destruct (VITE_CONSULTAS_PERU_API_TOKEN e) as [token|]; [|reflexivity].
  destruct (truthy_str (Some token)); [|reflexivity].
  apply guarded_request; intros ?; repeat emits_only_step.
Qed.

Lemma attempt_secondary_calls e dni r dataFound s :
  http_calls (emitted (attempt_secondary e dni r dataFound s))
  = if (negb dataFound || missing_fields (form s)) && truthy_str (VITE_MIAPI_CLOUD_API_TOKEN e)
    then [ApiSecondary] else [].
Proof.
  unfold attempt_secondary.
  rewrite (bind_normal checkMissingFields _ s (missing_fields (form s))) by reflexivity.
  cbn [emitted final checkMissingFields app].
  destruct (negb dataFound || missing_fields (form s)); [|reflexivity]. cbn [andb].
  destruct (truthy_str (VITE_MIAPI_CLOUD_API_TOKEN e)); [|reflexivity].
  apply guarded_request; intros ?; repeat emits_only_step.
Qed.

Lemma attempt_tertiary_calls e dni r dataFound s :
  http_calls (emitted (attempt_tertiary e dni r dataFound s))
  = if (negb dataFound || missing_fields (form s)) && truthy_str (VITE_CONSULTADATOS_TOKEN e)
    then [ApiTertiary] else [].
Proof.
  unfold attempt_tertiary.
  rewrite (bind_normal checkMissingFields _ s (missing_fields (form s))) by reflexivity.
  cbn [emitted final checkMissingFields app].
  destruct (negb dataFound || missing_fields (form s)); [|reflexivity]. cbn [andb].
  destruct (truthy_str (VITE_CONSULTADATOS_TOKEN e)); [|reflexivity].
  apply guarded_request; intros ?; repeat emits_only_step.
Qed.

Lemma attempt_primary_never_throws e dni r : never_throws (attempt_primary e dni r).
Proof. apply never_throws_try_catch. intros ?. apply never_throws_log_and_return. Qed.

Lemma attempt_secondary_never_throws e dni r dataFound : never_throws (attempt_secondary e dni r dataFound).
Proof.
  intros s. unfold attempt_secondary.
  rewrite (bind_normal checkMissingFields _ s (missing_fields (form s))) by reflexivity.
  cbn [res]. destruct (negb dataFound || missing_fields (form s)); [|by eexists].
  apply never_throws_try_catch. intros ?. apply never_throws_log_and_return.
Qed.

Lemma attempt_tertiary_never_throws e dni r dataFound : never_throws (attempt_tertiary e dni r dataFound).
Proof.
  intros s. unfold attempt_tertiary.
  rewrite (bind_normal checkMissingFields _ s (missing_fields (form s))) by reflexivity.
  cbn [res]. destruct (negb dataFound || missing_fields (form s)); [|by eexists].
  apply never_throws_try_catch. intros ?. apply never_throws_log_and_return.
Qed.

Lemma never_throws_returned {St} (m : M St bool) s : never_throws m → res (m s) = Normal (returned (m s)).
Proof. intros H. destruct (H s) as [b Hb]. unfold returned. by rewrite Hb. Qed.

Lemma bind_modify {St B} (f : St → St) (k : unit → M St B) s :
  bind (modify f) k s = k tt (f s).
Proof. unfold bind, modify; cbn. by destruct (k tt (f s)). Qed.

Lemma length_8_guard dni :
  js_length dni = 8%nat →
  String.eqb dni "" || negb (js_length dni =? 8)%nat = false.
Proof. intros H. rewrite H. by destruct dni. Qed.

(** The lookup as the sequence of its three attempts. *)
Lemma fetchReniec_run e dni r1 r2 r3 st :
  js_length dni = 8%nat →
  let p1 := attempt_primary e dni r1 (with_isReniecSearching true st) in
  let p2 := attempt_secondary e dni r2 (returned p1) (final p1) in
  let p3 := attempt_tertiary e dni r3 (returned p2) (final p2) in
  let run := fetchReniecDataAndPopulate e dni r1 r2 r3 st in
  res run = Normal (returned p3)
  ∧ form (final run) = form (final p3)
  ∧ emitted run
    = emitted p1 ++ emitted p2 ++ emitted p3
      ++ (if returned p3 then []
          else [EToast ToastWarning "No se encontraron datos completos en ninguna API."]).
Proof.
  intros Hlen p1 p2 p3 run. subst run. unfold fetchReniecDataAndPopulate.
  rewrite (length_8_guard _ Hlen), bind_modify.
  rewrite (bind_normal _ _ _ _ (never_throws_returned _ _ (attempt_primary_never_throws e dni r1))).
  fold p1. cbn [res final emitted].
  rewrite (bind_normal _ _ _ _ (never_throws_returned _ _ (attempt_secondary_never_throws e dni r2 _))).
  fold p2. cbn [res final emitted].
  rewrite (bind_normal _ _ _ _ (never_throws_returned _ _ (attempt_tertiary_never_throws e dni r3 _))).
  fold p3. cbn [res final emitted].
  rewrite bind_modify. destruct (returned p3); cbn; by rewrite ?app_nil_r.
Qed.




Lemma sublist_of_chain (b1 b2 b3 : bool) :
  (if b1 then [ApiPrimary] else []) ++ (if b2 then [ApiSecondary] else [])
  ++ (if b3 then [ApiTertiary] else []) ++ []
  `sublist_of` [ApiPrimary; ApiSecondary; ApiTertiary].
Proof. destruct b1, b2, b3; cbn; repeat constructor. Qed.

Lemma calls_of_run e dni r1 r2 r3 st :
  js_length dni = 8%nat →
  let p1 := attempt_primary e dni r1 (with_isReniecSearching true st) in
  let p2 := attempt_secondary e dni r2 (returned p1) (final p1) in
  http_calls (emitted (fetchReniecDataAndPopulate e dni r1 r2 r3 st))
  = (if truthy_str (VITE_CONSULTAS_PERU_API_TOKEN e) then [ApiPrimary] else [])
    ++ (if (negb (returned p1) || missing_fields (form (final p1)))
           && truthy_str (VITE_MIAPI_CLOUD_API_TOKEN e)
        then [ApiSecondary] else [])
    ++ (if (negb (returned p2) || missing_fields (form (final p2)))
           && truthy_str (VITE_CONSULTADATOS_TOKEN e)
        then [ApiTertiary] else [])
    ++ [].
Proof.
  intros Hlen p1 p2.
  destruct (fetchReniec_run e dni r1 r2 r3 st Hlen) as (_ & _ & ->).
  rewrite !http_calls_app, attempt_primary_calls, attempt_secondary_calls,
    attempt_tertiary_calls.
  by destruct (returned (attempt_tertiary _ _ _ _ _)).
Qed.

(** Claim C1, as amended.  For a DNI of eight characters the three APIs are
    requested at most once each and in the order primary, secondary,
    tertiary.  The primary API is requested exactly when its token is
    configured: without it the first attempt fails before any request.  The
    secondary API is requested only if the primary attempt found no data or a
    target field is still empty, the tertiary only if that still holds after
    the secondary attempt.  A field that is filled when the secondary
    (tertiary) attempt starts keeps its value through that attempt. *)
Theorem fetchReniec_fallback_chain e dni r1 r2 r3 st :
  js_length dni = 8%nat →
  let p1 := attempt_primary e dni r1 (with_isReniecSearching true st) in
  let p2 := attempt_secondary e dni r2 (returned p1) (final p1) in
  let run := fetchReniecDataAndPopulate e dni r1 r2 r3 st in
  http_calls (emitted run) `sublist_of` [ApiPrimary; ApiSecondary; ApiTertiary]
  ∧ (ApiPrimary ∈ http_calls (emitted run)
     ↔ truthy_str (VITE_CONSULTAS_PERU_API_TOKEN e) = true)
  ∧ (ApiSecondary ∈ http_calls (emitted run) →
     returned p1 = false ∨ missing_fields (form (final p1)) = true)
  ∧ (ApiTertiary ∈ http_calls (emitted run) →
     returned p2 = false ∨ missing_fields (form (final p2)) = true)
  ∧ (∀ field, truthy (prop (form (final p1)) field) = true →
              prop (form (final p2)) field = prop (form (final p1)) field)
  ∧ (∀ field, truthy (prop (form (final p2)) field) = true →
              prop (form (final run)) field = prop (form (final p2)) field).
Proof.
  intros Hlen p1 p2 run. subst run.
  rewrite (calls_of_run e dni r1 r2 r3 st Hlen). fold p1 p2.
  destruct (fetchReniec_run e dni r1 r2 r3 st Hlen) as (_ & -> & _). fold p1 p2.
  split_and!.
  - apply sublist_of_chain.
  - destruct (truthy_str (VITE_CONSULTAS_PERU_API_TOKEN e)),
      ((negb (returned p1) || missing_fields (form (final p1)))
       && truthy_str (VITE_MIAPI_CLOUD_API_TOKEN e)),
      ((negb (returned p2) || missing_fields (form (final p2)))
       && truthy_str (VITE_CONSULTADATOS_TOKEN e)); cbn;
      rewrite ?elem_of_cons, ?elem_of_nil; intuition discriminate.
  - destruct (negb (returned p1) || missing_fields (form (final p1))) eqn:Hcond.
    + intros _. apply orb_true_iff in Hcond as [Hf | Hm]; [left | by right].
      by apply negb_true_iff.
    + cbn [andb].
      destruct (truthy_str (VITE_CONSULTAS_PERU_API_TOKEN e)),
        ((negb (returned p2) || missing_fields (form (final p2)))
         && truthy_str (VITE_CONSULTADATOS_TOKEN e)); cbn;
        rewrite ?elem_of_cons, ?elem_of_nil; intuition discriminate.
  - destruct (negb (returned p2) || missing_fields (form (final p2))) eqn:Hcond.
    + intros _. apply orb_true_iff in Hcond as [Hf | Hm]; [left | by right].
      by apply negb_true_iff.
    + cbn [andb].
      destruct (truthy_str (VITE_CONSULTAS_PERU_API_TOKEN e)),
        ((negb (returned p1) || missing_fields (form (final p1)))
         && truthy_str (VITE_MIAPI_CLOUD_API_TOKEN e)); cbn;
        rewrite ?elem_of_cons, ?elem_of_nil; intuition discriminate.
  - apply attempt_secondary_keeps.
  - apply attempt_tertiary_keeps.
Qed.

End ReniecFacts.

(** * Errors of the lookup and of the data fetch *)

Section ErrorFacts.
Import SocioTitularRegistrationForm.







Lemma fetchReniec_never_throws e dni r1 r2 r3 :
  never_throws (fetchReniecDataAndPopulate e dni r1 r2 r3).
Proof.
  intros st. unfold fetchReniecDataAndPopulate.
  destruct (String.eqb dni "" || negb (js_length dni =? 8)%nat) eqn:Hguard;
    [by eexists|].
  rewrite bind_modify.
  rewrite (bind_normal _ _ _ _ (never_throws_returned _ _ (attempt_primary_never_throws e dni r1))).
  cbn [res final emitted].
  rewrite (bind_normal _ _ _ _ (never_throws_returned _ _ (attempt_secondary_never_throws e dni r2 _))).
  cbn [res final emitted].
  rewrite (bind_normal _ _ _ _ (never_throws_returned _ _ (attempt_tertiary_never_throws e dni r3 _))).
  cbn [res final emitted]. rewrite bind_modify.
  match goal with |- context [when (negb ?b)] => destruct b end; by eexists.
Qed.



End ErrorFacts.

(** * Confirming a submission *)

Section SubmitFacts.
Import SocioTitularRegistrationForm.

(** Claim C3.  With a submission pending and the DNI query answered: when
    registering ([socioId] undefined) and the query finds at least one row,
    the handler issues no insert and no update, raises the duplicate-DNI
    toast, sets a manual error on [dni] and focuses it; when editing and the
    first row found is the socio being edited, the update is sent.  When the
    query itself fails nothing is written either. *)
Theorem handleConfirmSubmit_dni_uniqueness (st : state) (data : jsobj)
    (writeRes : db_result unit) :
  dataToConfirm st = Some data →
  (∀ first rest,
      let run := handleConfirmSubmit None (DbData (first :: rest)) writeRes st in
      emitted run = [EDbSelect "socio_titulares"; EToast ToastError "DNI Duplicado"]
      ∧ form_errors (final run) !! "dni" = Some ("manual", "Este DNI ya está registrado.")
      ∧ focused (final run) = Some "dni"
      ∧ res run = Normal tt)
  ∧ (∀ sid rest,
        let run := handleConfirmSubmit (Some sid) (DbData (sid :: rest)) writeRes st in
        emitted run
        = [EDbSelect "socio_titulares";
           EDbUpdate "socio_titulares" (JStr sid) (dataToSave data)]
          ++ match writeRes with
             | DbData _ => [EToast ToastSuccess "Socio actualizado";
                            ECall "onSuccess" ∅; ECall "onClose" ∅]
             | DbError _ => [EConsoleError "Error al guardar el socio:";
                             EToast ToastError "Error al guardar socio"]
             end
        ∧ form_errors (final run) = form_errors st)
  ∧ (∀ socioId m,
        emitted (handleConfirmSubmit socioId (DbError m) writeRes st)
        = [EDbSelect "socio_titulares"; EConsoleError "Error al guardar el socio:";
           EToast ToastError "Error al guardar socio"]).
Proof.
  intros Hdata. split_and!.
  - intros first rest run.
    assert (run = RunResult (Normal tt)
              (with_isConfirmingSubmission false
                 (with_isConfirmingSubmission false
                    (with_isConfirmDialogOpen false
                       (with_focused (Some "dni")
                          (with_form_errors
                             (insert "dni" ("manual", "Este DNI ya está registrado."))
                             (with_isConfirmingSubmission true st))))))
              [EDbSelect "socio_titulares"; EToast ToastError "DNI Duplicado"]) as ->.
    { subst run. unfold handleConfirmSubmit.
      eapply eq_trans; [eapply run_bind; [apply run_get|]; rewrite Hdata; run | reflexivity]. }
    cbn [res final emitted form_errors focused with_isConfirmingSubmission
         with_isConfirmDialogOpen with_focused with_form_errors].
    split_and!; [reflexivity | apply lookup_insert_eq | reflexivity | reflexivity].
  - intros sid rest run. subst run. unfold handleConfirmSubmit.
    destruct writeRes as [m | []].
    + erewrite run_bind; [| apply run_get | rewrite Hdata; run].
      split; reflexivity.
    + erewrite run_bind; [| apply run_get | rewrite Hdata; run].
      split; reflexivity.
  - intros socioId m. unfold handleConfirmSubmit.
    erewrite run_bind; [| apply run_get | rewrite Hdata; run].
    reflexivity.
Qed.

End SubmitFacts.

(** * The data table *)

Section DataTableFacts.
Import DataTable.
Context {Caller TData : Type}.


End DataTableFacts.


(** * The receipts page *)

Section RecibosFacts.
Import RecibosPage.
Variable Number : jsv → jsv.
Variable today : string.

Lemma pdf_requests_app l1 l2 : pdf_requests (l1 ++ l2) = pdf_requests l1 ++ pdf_requests l2.
Proof. apply omap_app. Qed.

Lemma receiptData_public correlative client values values' :
  (∀ k, k ∈ ["fecha_emision"; "monto"; "concepto"; "metodo_pago"; "numero_operacion"] →
        prop values k = prop values' k) →
  receiptData correlative client values = receiptData correlative client values'.
Proof.
  intros H. unfold receiptData.
  rewrite (H "fecha_emision"), (H "monto"), (H "concepto"), (H "metodo_pago"),
    (H "numero_operacion"); [reflexivity | | | | |];
    rewrite !elem_of_cons; auto 10.
Qed.

Lemma onSubmit_pdf_requests values r st :
  pdf_requests (emitted (onSubmit Number today values r st))
  = match clientData st with
    | Some client =>
        if negb (truthy (prop client "id")) || String.eqb (correlative st) "" then []
        else [receiptData (correlative st) client values]
    | None => []
    end.
Proof.
  unfold onSubmit.
  destruct (clientData st) as [client|] eqn:Hclient;
    [|erewrite run_bind; [| apply run_get | rewrite Hclient; run]; reflexivity].
  destruct (negb (truthy (prop client "id")) || String.eqb (correlative st) "") eqn:Hguard;
    [erewrite run_bind; [| apply run_get | rewrite Hclient; run]; reflexivity|].
  apply orb_false_iff in Hguard as [Hid%negb_false_iff Hcorr].
  unfold submit_steps, loadCorrelative_settled, settle.
  destruct r as [[m|[]] [m'|[]] [m''|[]] upd [m3|nxt]];
    cbn [pdf saved income socioUpdate nextCorrelative];
    try (erewrite run_bind; [| apply run_get | rewrite Hclient; run]; reflexivity).
  all: destruct (truthy (prop values "is_payment_observed")) eqn:Hobs; destruct upd;
    (erewrite run_bind; [| apply run_get | rewrite Hclient; run]; reflexivity).
Qed.

(** Claim C8.  The arguments passed to the PDF generator by [onSubmit] depend
    only on the correlative, the client record and the five public fields of
    the form; in particular, changing [is_payment_observed] and
    [payment_observation_detail] does not change them. *)
Theorem receipt_pdf_ignores_observation (st st' : state) (values values' : jsobj)
    (r r' : responses) :
  correlative st = correlative st' →
  clientData st = clientData st' →
  (∀ k, k ∈ ["fecha_emision"; "monto"; "concepto"; "metodo_pago"; "numero_operacion"] →
        prop values k = prop values' k) →
  pdf_requests (emitted (onSubmit Number today values r st))
  = pdf_requests (emitted (onSubmit Number today values' r' st'))
  ∧ ∀ observed detail,
      pdf_requests
        (emitted (onSubmit Number today
                    (<["is_payment_observed" := observed]>
                       (<["payment_observation_detail" := detail]> values)) r st))
      = pdf_requests (emitted (onSubmit Number today values r st)).
Proof.
  intros Hc Hd Hpub. rewrite !onSubmit_pdf_requests, <-Hc, <-Hd. split.
  - destruct (clientData st) as [client|]; [|reflexivity].
    destruct (_ || _); [reflexivity|]. f_equal. by apply receiptData_public.
  - intros observed detail. rewrite onSubmit_pdf_requests.
    destruct (clientData st) as [client|]; [|reflexivity].
    destruct (_ || _); [reflexivity|]. f_equal. apply receiptData_public.
    intros k Hk. unfold prop. rewrite !lookup_insert_ne; [done | |];
      intros <-;
      repeat (apply elem_of_cons in Hk as [Hk | Hk]; [discriminate Hk|]);
      by apply elem_of_nil in Hk.
Qed.

End RecibosFacts.

(** * The handlers on the sample inputs *)

Section Witnesses.
Import SocioTitularRegistrationForm Samples Zod.

Example split_link : js_split "/"%char "a/b//c.pdf" = ["a"; "b"; ""; "c.pdf"].
Proof. reflexivity. Qed.

Example serie_of_link :
  PartnerDocuments.serie_correlativo "https://files.example/recibos/R-00012.pdf" = "R-00012".
Proof. reflexivity. Qed.

Example trim_blank : js_trim "  a b  " = "a b".
Proof. reflexivity. Qed.

Example trim_unicode_spaces :
  js_trim (no_break_space +:+ "a" +:+ no_break_space +:+ "b" +:+ ideographic_space)
  = "a" +:+ no_break_space +:+ "b"
  ∧ js_trim (no_break_space +:+ " " +:+ ideographic_space) = "".
Proof. split; reflexivity. Qed.

Example length_in_code_units :
  js_length "ñandú" = 5%nat ∧ String.length "ñandú" = 7%nat
  ∧ js_length grinning_face = 2%nat.
Proof. split_and!; reflexivity. Qed.

Example sort_by_code_units :
  js_sort [fullwidth_e; grinning_face; "z"] = ["z"; grinning_face; fullwidth_e].
Proof. reflexivity. Qed.

Example lookup_stops_after_secondary :
  emitted (fetchReniecDataAndPopulate all_tokens "12345678"
             primary_hit secondary_hit tertiary_hit blank_form)
  = [EHttp ApiPrimary "12345678"; EToast ToastSuccess "Datos encontrados (API Principal)";
     EHttp ApiSecondary "12345678"].
Proof. by vm_compute. Qed.

Example lookup_keeps_primary_name :
  prop (form (final (fetchReniecDataAndPopulate all_tokens "12345678"
                       primary_hit secondary_hit tertiary_hit blank_form))) "nombres"
  = JStr "ANA"
  ∧ prop (form (final (fetchReniecDataAndPopulate all_tokens "12345678"
                         primary_hit secondary_hit tertiary_hit blank_form))) "direccionDNI"
    = JStr "AV. LA CULTURA 100".
Proof. split; by vm_compute. Qed.

Example tertiary_date_is_reformatted :
  prop (form (final (fetchReniecDataAndPopulate no_primary_token "12345678"
                       primary_hit (HttpThrows "Network Error") tertiary_hit blank_form)))
       "fechaNacimiento"
  = JStr "1990-05-17".
Proof. by vm_compute. Qed.

Example valid_values_pass : issues (formSchema valid_values) = [].
Proof. by vm_compute. Qed.

Example no_break_space_is_blank :
  path <$> issues (formSchema observed_with_no_break_space) = [["observacion"]].
Proof. by vm_compute. Qed.

Example accented_observation_fits : issues (formSchema accented_observation) = [].
Proof. by vm_compute. Qed.

Example short_dni_is_reported :
  path <$> issues (formSchema (<["dni" := JStr "1234"]> valid_values)) = [["dni"]; ["dni"]].
Proof. by vm_compute. Qed.

Example registration_inserts_when_dni_is_free :
  http_calls (emitted (handleConfirmSubmit None (DbData []) (DbData ()) pending_confirmation))
  = []
  ∧ ∃ row, emitted (handleConfirmSubmit None (DbData []) (DbData ()) pending_confirmation)
           = [EDbSelect "socio_titulares"; EDbInsert "socio_titulares" row;
              EToast ToastSuccess "Socio registrado"].
Proof. split; [by vm_compute | eexists; by vm_compute]. Qed.

(** Claim C1 on a lookup where all three tokens are configured and the
    primary API leaves the address empty. *)
Lemma fetchReniec_fallback_chain_witness :
  js_length "12345678" = 8%nat
  ∧ http_calls (emitted (fetchReniecDataAndPopulate all_tokens "12345678"
                           primary_hit secondary_hit tertiary_hit blank_form))
    `sublist_of` [ApiPrimary; ApiSecondary; ApiTertiary].
Proof.
  split; [reflexivity|].
  exact (proj1 (fetchReniec_fallback_chain all_tokens "12345678"
                  primary_hit secondary_hit tertiary_hit blank_form eq_refl)).
Defined.

(** Claim C1 as stated fails.  With no primary token the primary API is never
    requested: the first request goes to the secondary API. *)
Lemma primary_not_queried_without_token :
  http_calls (emitted (fetchReniecDataAndPopulate no_primary_token "12345678"
                         primary_hit secondary_hit tertiary_hit blank_form))
  = [ApiSecondary; ApiTertiary]
  ∧ head (http_calls (emitted (fetchReniecDataAndPopulate no_primary_token "12345678"
                                 primary_hit secondary_hit tertiary_hit blank_form)))
    ≠ Some ApiPrimary.
Proof. split; [by vm_compute | vm_compute; discriminate]. Qed.

(** Claim C2 on a member whose stored flag is unset and who has a location
    plan. *)
Lemma fetchAllData_lote_medido_override_witness :
  member ∈ PartnerDocuments.sociosConDocumentos
             (final (PartnerDocuments.fetchAllData (DbData [member_row]) (DbData [])
                       (DbData []) empty_page))
  ∧ PartnerDocuments.is_lote_medido member = Some true.
Proof.
  assert (member ∈ PartnerDocuments.sociosConDocumentos
                     (final (PartnerDocuments.fetchAllData (DbData [member_row]) (DbData [])
                               (DbData []) empty_page))) as Hin.
  { apply list_elem_of_here. }
  split; [exact Hin|].
  destruct (fetchAllData_lote_medido_override empty_page (DbData [member_row]) (DbData [])
              (DbData []) member Hin) as (rows & socio & _ & _ & _ & Hdoc & _).
  apply Hdoc. exists plan_document. split; [apply list_elem_of_here|].
  split; [by left | discriminate].
Defined.

(** Claim C3 on a registration whose DNI is already taken. *)
Lemma handleConfirmSubmit_dni_uniqueness_witness :
  dataToConfirm pending_confirmation = Some valid_values
  ∧ emitted (handleConfirmSubmit None (DbData ["s-1"]) (DbData ()) pending_confirmation)
    = [EDbSelect "socio_titulares"; EToast ToastError "DNI Duplicado"].
Proof.
  split; [reflexivity|].
  exact (proj1 (proj1 (handleConfirmSubmit_dni_uniqueness pending_confirmation valid_values
                         (DbData ()) eq_refl) "s-1" [])).
Defined.

(** A valid parse is not an aborted one. *)
Lemma status_not_aborted (s : parse_status) : s = Valid → s ≠ Aborted.
Proof. intros ->. discriminate. Qed.

(** Claim C4 on valid values marked as observed with a blank observation. *)
Lemma formSchema_conditional_details_witness :
  obj_status (z_object personal_shape observed_without_detail) ≠ Aborted
  ∧ has_issue_on "observacion" (formSchema observed_without_detail).
Proof.
  assert (obj_status (z_object personal_shape observed_without_detail) ≠ Aborted) as Hok.
  { apply status_not_aborted. by vm_compute. }
  split; [exact Hok|].
  apply (proj1 (proj1 (formSchema_conditional_details observed_without_detail) Hok)).
  left. split; [by vm_compute|]. right; right. exists "   ". split; by vm_compute.
Defined.

(** Claim C4 as stated fails.  An observation of 1001 characters raises an
    issue on [observacion] although [isObservado] is false. *)
Lemma long_observation_raises_issue_without_flag :
  ¬ (has_issue_on "observacion" (formSchema long_observation)
     ↔ prop long_observation "isObservado" = JBool true
       ∧ (prop long_observation "observacion" = JUndefined
          ∨ prop long_observation "observacion" = JNull
          ∨ ∃ s, prop long_observation "observacion" = JStr s ∧ js_trim s = "")).
Proof.
  intros [Hto _].
  assert (has_issue_on "observacion" (formSchema long_observation)) as Hissue.
  { exists {| path := ["observacion"]; message := "La observación es demasiado larga." |}.
    split; [|reflexivity]. apply list_elem_of_In. vm_compute. by left. }
  destruct (Hto Hissue) as [Hflag _]. vm_compute in Hflag. discriminate Hflag.
Qed.


Example failed_update_is_requested_then_reverted :
  emitted (PartnerDocuments.handleUpdateLoteMedido true "s-2" true (DbError "timeout")
             loaded_page)
  = [EDbUpdate "socio_titulares" (JStr "s-2") {[ "is_lote_medido" := JBool true ]};
     EConsoleError "Error updating lote medido:"; EToast ToastError "Error al actualizar"]
  ∧ PartnerDocuments.is_lote_medido
      <$> PartnerDocuments.sociosConDocumentos
            (final (PartnerDocuments.optimistic_update "s-2" true loaded_page))
    = [Some true; Some true].
Proof. split; by vm_compute. Qed.

Example unmarking_a_documented_lot_is_blocked :
  emitted (PartnerDocuments.handleUpdateLoteMedido true "s-1" false (DbData ()) loaded_page)
  = [EToast ToastWarning "Acción Bloqueada"].
Proof. by vm_compute. Qed.





(** Claim C8 on a receipt submitted with and without an observation. *)
Lemma receipt_pdf_ignores_observation_witness :
  RecibosPage.pdf_requests
    (emitted (RecibosPage.onSubmit (fun _ => JNull) "2025-01-15"
                (<["is_payment_observed" := JBool true]>
                   (<["payment_observation_detail" := JStr "paga en dos partes"]>
                      receipt_values))
                all_services_ok receipt_page))
  = RecibosPage.pdf_requests
      (emitted (RecibosPage.onSubmit (fun _ => JNull) "2025-01-15" receipt_values
                  all_services_ok receipt_page)).
Proof.
  exact (proj2 (receipt_pdf_ignores_observation (fun _ => JNull) "2025-01-15"
                  receipt_page receipt_page receipt_values receipt_values
                  all_services_ok all_services_ok eq_refl eq_refl (fun _ _ => eq_refl))
           (JBool true) (JStr "paga en dos partes")).
Defined.

End Witnesses.

(** * The lists of the partner-documents page *)

Section ListingFacts.
Import PartnerDocuments PartnerDocumentsPage.

Lemma insert_sorted_elem x y l : x ∈ insert_sorted y l ↔ x = y ∨ x ∈ l.
Proof.
  induction l as [|z l IH]; simpl.
  - rewrite list_elem_of_singleton, elem_of_nil. tauto.
  - destruct (js_leb y z).
    + rewrite elem_of_cons. tauto.
    + rewrite !elem_of_cons, IH. tauto.
Qed.

Lemma js_sort_elem x l : x ∈ js_sort l ↔ x ∈ l.
Proof.
  induction l as [|y l IH]; simpl; [tauto|].
  rewrite insert_sorted_elem, elem_of_cons, IH. tauto.
Qed.

Lemma insert_sorted_NoDup y l : y ∉ l → NoDup l → NoDup (insert_sorted y l).
Proof.
  induction l as [|z l IH]; simpl; intros Hy Hl.
  - apply NoDup_singleton.
  - destruct (js_leb y z).
    + by apply NoDup_cons.
    + apply NoDup_cons in Hl as [Hz Hl]. apply not_elem_of_cons in Hy as [Hyz Hy].
      apply NoDup_cons. split; [|by apply IH].
      rewrite insert_sorted_elem. intros [->|?]; [by apply Hyz | by apply Hz].
Qed.

Lemma js_sort_NoDup l : NoDup l → NoDup (js_sort l).
Proof.
  induction 1 as [|y l Hy Hl IH]; simpl; [apply NoDup_nil_2|].
  apply insert_sorted_NoDup; [by rewrite js_sort_elem | done].
Qed.

Lemma units_leb_total a b : units_leb a b = true ∨ units_leb b a = true.
Proof.
  revert b. induction a as [|x a IH]; intros [|y b]; simpl; [by left | by left | by right |].
  destruct (N.ltb_spec x y) as [Hxy|Hxy]; [by left|].
  destruct (N.ltb_spec y x) as [Hyx|Hyx]; [by right|].
  apply IH.
Qed.

Lemma js_leb_total a b : js_leb a b = true ∨ js_leb b a = true.
Proof. apply units_leb_total. Qed.

Lemma insert_sorted_Sorted y l :
  Sorted (λ a b, js_leb a b = true) l →
  Sorted (λ a b, js_leb a b = true) (insert_sorted y l).
Proof.
  induction l as [|z l IH]; simpl; intros Hl.
  - repeat constructor.
  - destruct (js_leb y z) eqn:Hyz.
    + constructor; [done | by constructor].
    + apply Sorted_inv in Hl as [Hl Hhd].
      assert (js_leb z y = true) as Hzy.
      { destruct (js_leb_total y z) as [H|H]; [congruence | done]. }
      constructor; [by apply IH|].
      destruct l as [|w l]; simpl; [by constructor|].
      destruct (js_leb y w); constructor; [done|].
      by apply HdRel_inv in Hhd.
Qed.

Lemma js_sort_Sorted l : Sorted (λ a b, js_leb a b = true) (js_sort l).
Proof.
  induction l as [|y l IH]; simpl; [constructor | by apply insert_sorted_Sorted].
Qed.

Lemma filter_elem {A} (f : A → bool) x l : x ∈ List.filter f l ↔ x ∈ l ∧ f x = true.
Proof. rewrite !list_elem_of_In. apply filter_In. Qed.

Lemma js_unique_elem x l : x ∈ js_unique l ↔ x ∈ l.
Proof.
  induction l as [|y l IH]; simpl; [tauto|].
  rewrite !elem_of_cons, filter_elem, IH.
  destruct (String.eqb_spec y x) as [->|Hne]; simpl.
  - split; [intros [?|[? ?]]; [by left | done] | intros _; by left].
  - split; [intros [?|[? _]]; [by left | by right]|].
    intros [->|?]; [by left | by right].
Qed.

Lemma filter_NoDup {A} (f : A → bool) l : NoDup l → NoDup (List.filter f l).
Proof.
  induction 1 as [|y l Hy Hl IH]; simpl; [apply NoDup_nil_2|].
  destruct (f y); [|done].
  apply NoDup_cons. split; [|done]. rewrite filter_elem. tauto.
Qed.

Lemma js_unique_NoDup l : NoDup (js_unique l).
Proof.
  induction l as [|y l IH]; simpl; [apply NoDup_nil_2|].
  apply NoDup_cons. split; [|by apply filter_NoDup].
  rewrite filter_elem. intros [_ H]. by rewrite String.eqb_refl in H.
Qed.

Lemma truthy_strings_elem x l : x ∈ truthy_strings l ↔ x ≠ "" ∧ Some x ∈ l.
Proof.
  unfold truthy_strings. rewrite list_elem_of_omap. split.
  - intros (v & Hv & Hx). destruct v as [s|]; simpl in Hx; [|discriminate].
    destruct (String.eqb_spec s ""); simpl in Hx; [discriminate|].
    injection Hx as ->. done.
  - intros [Hne Hin]. exists (Some x). split; [done|]. simpl.
    destruct (String.eqb_spec x ""); [done | reflexivity].
Qed.

(** Property X1.  The options of the locality filter after a fetch that succeeded: the
    non-empty localities of the query, each once, in ascending order. *)
Theorem fetchAllData_localidades (st : state) (rows : list SocioRow)
    (locs : list (option string)) (ings : list IngresoRow) :
  let l := localidades (final (fetchAllData (DbData rows) (DbData locs) (DbData ings) st)) in
  Sorted (λ a b, js_leb a b = true) l
  ∧ NoDup l
  ∧ ∀ x, x ∈ l ↔ x ≠ "" ∧ Some x ∈ locs.
Proof.
  cbn. split_and!.
  - apply js_sort_Sorted.
  - apply js_sort_NoDup, js_unique_NoDup.
  - intros x. by rewrite js_sort_elem, js_unique_elem, truthy_strings_elem.
Qed.

Lemma fetchAllData_listed st sociosRes localidadesRes ingresosRes p :
  p ∈ sociosConDocumentos (final (fetchAllData sociosRes localidadesRes ingresosRes st)) →
  ∃ rows locs ings socio,
    sociosRes = DbData rows ∧ localidadesRes = DbData locs ∧ ingresosRes = DbData ings
    ∧ socio ∈ rows
    ∧ p = process_socio (group_ingresos ings) (receipt_types ings) socio.
Proof.
  destruct sociosRes as [m1 | rows]; [cbn; intros H; by apply elem_of_nil in H|].
  destruct localidadesRes as [m2 | locs]; [cbn; intros H; by apply elem_of_nil in H|].
  destruct ingresosRes as [m3 | ings]; [cbn; intros H; by apply elem_of_nil in H|].
  cbn. intros Hin. apply list_elem_of_fmap in Hin as (socio & -> & Hsocio).
  by exists rows, locs, ings, socio.
Qed.

Lemma includes_str_elem l x : includes_str l x = true ↔ x ∈ l.
Proof.
  unfold includes_str. rewrite existsb_exists. split.
  - intros (y & Hin & Heq). apply String.eqb_eq in Heq as ->. by apply list_elem_of_In.
  - intros Hin. exists x. split; [by apply list_elem_of_In | apply String.eqb_refl].
Qed.

Lemma receipt_types_lookup rows r t :
  receipt_types rows !! r = Some t →
  ∃ ingreso, ingreso ∈ rows ∧ ing_receipt_number ingreso = Some r
             ∧ ing_transaction_type ingreso = Some t.
Proof.
  unfold receipt_types.
  induction rows as [|ingreso rows IH] using rev_ind; simpl.
  - by rewrite lookup_empty.
  - rewrite foldl_app. simpl.
    set (m := foldl _ ∅ rows) in *.
    intros Hl.
    assert (m !! r = Some t ∨ (ing_receipt_number ingreso = Some r
                               ∧ ing_transaction_type ingreso = Some t)) as [Hm | [? ?]].
    { destruct (ing_receipt_number ingreso) as [r'|]; [|by left].
      destruct (ing_transaction_type ingreso) as [t'|]; [|by left].
      destruct (_ && _); [|by left].
      destruct (decide (r' = r)) as [->|Hne].
      - rewrite lookup_insert_eq in Hl. right. by injection Hl as ->.
      - rewrite lookup_insert_ne in Hl by done. by left. }
    + destruct (IH Hm) as (i & Hi & ?). exists i. split; [|done].
      apply elem_of_app. by left.
    + exists ingreso. split; [|done]. apply elem_of_app. right. apply list_elem_of_here.
Qed.

(** Property X2.  The documents listed for a socio after a fetch: each has an allowed type
    and a non-empty link, and a payment voucher is listed only with the
    transaction type of an income row whose receipt number is the file name
    of its link, that type being one of the valid ones. *)
Theorem fetchAllData_documents_listed (st : state) (sociosRes : db_result (list SocioRow))
    (localidadesRes : db_result (list (option string)))
    (ingresosRes : db_result (list IngresoRow)) (p : SocioConDocumentos)
    (doc : SocioDocumento) :
  p ∈ sociosConDocumentos (final (fetchAllData sociosRes localidadesRes ingresosRes st)) →
  doc ∈ socio_documentos p →
  tipo_documento doc ∈ allowedDocumentTypes
  ∧ (∃ link, link_documento doc = Some link ∧ link ≠ ""
       ∧ (tipo_documento doc = "Comprobante de Pago" →
          ∃ ings ingreso t,
            ingresosRes = DbData ings ∧ ingreso ∈ ings
            ∧ ing_receipt_number ingreso = Some (serie_correlativo link)
            ∧ ing_transaction_type ingreso = Some t
            ∧ transaction_type doc = Some t
            ∧ t ∈ validTransactionTypes)).
Proof.
  intros Hp Hdoc.
  apply fetchAllData_listed in Hp as (rows & locs & ings & socio & -> & -> & -> & Hsocio & ->).
  simpl in Hdoc. apply list_elem_of_fmap in Hdoc as (d & -> & Hd).
  apply filter_elem in Hd as [Hd Hkeep].
  rewrite tag_document_tipo, tag_document_link.
  unfold keep_document in Hkeep.
  destruct (includes_str allowedDocumentTypes (tipo_documento d)) eqn:Hallowed;
    simpl in Hkeep; [|discriminate].
  destruct (link_documento d) as [link|] eqn:Hlink; simpl in Hkeep; [|discriminate].
  destruct (String.eqb_spec link "") as [|Hne]; simpl in Hkeep; [discriminate|].
  split; [by apply includes_str_elem|].
  exists link. split_and!; [done | done |].
  intros Htipo. unfold tag_document. rewrite Htipo, Hlink in *. simpl in *.
  destruct (String.eqb_spec link "") as [|_]; [done|]. simpl.
  destruct (receipt_types ings !! serie_correlativo link) as [t|] eqn:Ht; [|discriminate].
  apply andb_true_iff in Hkeep as [_ Hvalid].
  destruct (receipt_types_lookup _ _ _ Ht) as (ingreso & ? & ? & ?).
  exists ings, ingreso, t. split_and!; try done. by apply includes_str_elem.
Qed.

End ListingFacts.

Section PaymentFacts.
Import PartnerDocuments PartnerDocumentsPage.

Lemma group_ingresos_lookup rows d :
  default [] (group_ingresos rows !! d)
  = (λ ingreso, {| entry_receipt_number := ing_receipt_number ingreso;
                    entry_transaction_type := ing_transaction_type ingreso |})
      <$> List.filter (λ ingreso, match ing_dni ingreso with
                                  | Some d' => String.eqb d' d && negb (String.eqb d "")
                                  | None => false
                                  end) rows.
Proof.
  unfold group_ingresos.
  induction rows as [|ingreso rows IH] using rev_ind; [simpl; by rewrite lookup_empty|].
  rewrite foldl_app, List.filter_app, fmap_app. simpl.
  set (m := foldl _ ∅ rows) in *.
  destruct (ing_dni ingreso) as [d'|]; simpl; [|by rewrite app_nil_r].
  destruct (String.eqb_spec d' d) as [->|Hne]; simpl.
  - destruct (String.eqb_spec d "") as [->|Hd]; simpl; [by rewrite app_nil_r|].
    rewrite lookup_insert_eq. simpl. by rewrite IH.
  - destruct (negb (String.eqb d' "")); [|by rewrite app_nil_r].
    rewrite lookup_insert_ne by done. by rewrite app_nil_r.
Qed.

Lemma valid_ingreso_iff e :
  valid_ingreso e = true ↔
  (∃ r, entry_receipt_number e = Some r ∧ r ≠ "")
  ∧ (∃ t, entry_transaction_type e = Some t ∧ t ∈ validTransactionTypes).
Proof.
  unfold valid_ingreso. rewrite andb_true_iff. split.
  - intros [Hr Ht]. split.
    + destruct (entry_receipt_number e) as [r|]; [|discriminate]. exists r. split; [done|].
      simpl in Hr. by destruct (String.eqb_spec r "").
    + destruct (entry_transaction_type e) as [t|]; [|discriminate]. exists t. split; [done|].
      apply andb_true_iff in Ht as [_ Ht]. by apply includes_str_elem.
  - intros [(r & -> & Hr) (t & -> & Ht)]. split.
    + simpl. by destruct (String.eqb_spec r "").
    + apply andb_true_iff. split; [|by apply includes_str_elem].
      simpl. destruct (String.eqb_spec t "") as [->|]; [|done].
      exfalso. unfold validTransactionTypes in Ht.
      repeat (apply elem_of_cons in Ht as [Ht|Ht]; [discriminate Ht|]).
      by apply elem_of_nil in Ht.
Qed.

(** Property X3.  The payment status shown for a socio after a fetch.  [Pagado] comes with
    the receipt number of an income row of the socio's DNI that has a
    non-empty receipt number and a valid transaction type; [No Pagado] comes
    with no receipt number, and only when no income row qualifies (a socio
    with an empty DNI is never paid). *)
Theorem fetchAllData_payment_status (st : state) (sociosRes : db_result (list SocioRow))
    (localidadesRes : db_result (list (option string)))
    (ingresosRes : db_result (list IngresoRow)) (p : SocioConDocumentos) :
  p ∈ sociosConDocumentos (final (fetchAllData sociosRes localidadesRes ingresosRes st)) →
  ∃ ings, ingresosRes = DbData ings ∧
    let qualifies ingreso r :=
      ing_dni ingreso = Some (dni p) ∧ dni p ≠ ""
      ∧ ing_receipt_number ingreso = Some r ∧ r ≠ ""
      ∧ ∃ t, ing_transaction_type ingreso = Some t ∧ t ∈ validTransactionTypes in
    match status (paymentInfo p) with
    | Pagado =>
        ∃ ingreso r, ingreso ∈ ings ∧ qualifies ingreso r
                     ∧ receipt_number (paymentInfo p) = Some r
    | NoPagado =>
        receipt_number (paymentInfo p) = None
        ∧ ∀ ingreso r, ingreso ∈ ings → ¬ qualifies ingreso r
    end.
Proof.
  intros Hp.
  apply fetchAllData_listed in Hp as (rows & locs & ings & socio & -> & -> & -> & Hsocio & ->).
  exists ings. split; [done|]. cbn [dni paymentInfo process_socio].
  rewrite group_ingresos_lookup. unfold payment_info.
  destruct (List.find _ _) as [e|] eqn:Hfind; cbn [status receipt_number].
  - apply find_some in Hfind as [He Hvalid].
    apply list_elem_of_In, list_elem_of_fmap in He as (ingreso & -> & Hin).
    apply filter_elem in Hin as [Hin Hdni].
    apply valid_ingreso_iff in Hvalid as [(r & Hr & Hne) Ht]. simpl in Hr, Ht.
    destruct (ing_dni ingreso) as [d'|] eqn:Hd; [|discriminate].
    apply andb_true_iff in Hdni as [Heq Hd'].
    apply String.eqb_eq in Heq as ->.
    exists ingreso, r. split_and!; try done.
    by destruct (String.eqb_spec (row_dni socio) "").
  - split; [done|]. intros ingreso r Hin (Hd & Hne & Hr & Hrne & t & Ht & Hvalid).
    pose proof (find_none _ _ Hfind
      {| entry_receipt_number := ing_receipt_number ingreso;
         entry_transaction_type := ing_transaction_type ingreso |}) as Hnone.
    assert (valid_ingreso
              {| entry_receipt_number := ing_receipt_number ingreso;
                 entry_transaction_type := ing_transaction_type ingreso |} = true) as Hv.
    { apply valid_ingreso_iff. simpl. split; [by exists r | by exists t]. }
    rewrite Hnone in Hv; [discriminate|].
    apply list_elem_of_In, list_elem_of_fmap. exists ingreso. split; [done|].
    apply filter_elem. split; [done|]. rewrite Hd, String.eqb_refl. simpl.
    by destruct (String.eqb_spec (row_dni socio) "").
Qed.

End PaymentFacts.

Section MeasuredFacts.
Import PartnerDocuments PartnerDocumentsPage.

Lemma has_required_docs_iff s :
  has_required_docs s = true ↔
  ∃ doc, doc ∈ socio_documentos s
         ∧ (tipo_documento doc = "Planos de ubicación"
            ∨ tipo_documento doc = "Memoria descriptiva")
         ∧ truthy_str (link_documento doc) = true.
Proof.
  unfold has_required_docs. rewrite existsb_exists. split.
  - intros (doc & Hin & H). exists doc. apply andb_true_iff in H as [Ht Hl].
    split_and!; [by apply list_elem_of_In | | done].
    apply orb_true_iff in Ht as [Ht|Ht]; apply String.eqb_eq in Ht; [by left | by right].
  - intros (doc & Hin & Ht & Hl). exists doc. split; [by apply list_elem_of_In|].
    apply andb_true_iff. split; [|done]. apply orb_true_iff.
    destruct Ht as [Ht|Ht]; [left | right]; by apply String.eqb_eq.
Qed.

Lemma process_socio_documented byDni types socio :
  has_required_docs (process_socio byDni types socio) = true →
  is_lote_medido (process_socio byDni types socio) = Some true.
Proof.
  intros (doc & Hin & Ht & Hl)%has_required_docs_iff.
  apply (process_socio_measured byDni types socio).
  exists doc. split_and!; [done | done | by apply truthy_str_some].
Qed.

Lemma fetchAllData_documented st sociosRes localidadesRes ingresosRes :
  documented_lots_measured
    (sociosConDocumentos (final (fetchAllData sociosRes localidadesRes ingresosRes st))).
Proof.
  intros p Hp.
  apply fetchAllData_listed in Hp as (rows & locs & ings & socio & _ & _ & _ & _ & ->).
  apply process_socio_documented.
Qed.

Lemma find_id_unique (l : list SocioConDocumentos) socioId originalData s :
  NoDup (id <$> l) →
  List.find (fun s => String.eqb (id s) socioId) l = Some originalData →
  s ∈ l → id s = socioId → s = originalData.
Proof.
  induction l as [|x l IH]; [intros _ [=]|].
  rewrite fmap_cons, NoDup_cons. intros [Hfresh Hnd]. cbn [List.find].
  destruct (String.eqb_spec (id x) socioId) as [Heq|Hne].
  - intros [= <-] Hs Hid. apply elem_of_cons in Hs as [->|Hs]; [done|].
    exfalso. apply Hfresh. apply list_elem_of_fmap. exists s. split; [congruence | done].
  - intros Hfind Hs Hid. apply elem_of_cons in Hs as [->|Hs]; [congruence|]. by apply IH.
Qed.

Lemma has_required_docs_with_lote_medido v s :
  has_required_docs (with_lote_medido v s) = has_required_docs s.
Proof. reflexivity. Qed.

(** Property X4.  The rule that a lot with a location plan or a descriptive report is
    measured survives the toggle of one socio, whatever the backend answers:
    with distinct socio ids, if no documented socio is listed as not measured
    before [handleUpdateLoteMedido], none is after it. *)
Theorem handleUpdateLoteMedido_keeps_documented_lots_measured
    (st : state) (isAdmin : bool) (socioId : string) (newValue : bool)
    (updateRes : db_result unit) :
  NoDup (id <$> sociosConDocumentos st) →
  documented_lots_measured (sociosConDocumentos st) →
  documented_lots_measured
    (sociosConDocumentos (final (handleUpdateLoteMedido isAdmin socioId newValue updateRes st))).
Proof.
  intros Hnd Hinv. unfold handleUpdateLoteMedido. destruct isAdmin; [|done]. cbn.
  destruct (List.find _ _) as [originalData|] eqn:Hfind; [|done].
  destruct (negb newValue && has_required_docs originalData) eqn:Hblocked; [done|].
  destruct updateRes as [m|[]]; cbn.
  - intros p Hp. apply Hinv.
    rewrite <- (map_lote_medido_revert socioId (Some newValue) _ _ Hnd Hfind). exact Hp.
  - intros p Hp Hdocs. unfold map_lote_medido in Hp.
    apply list_elem_of_fmap in Hp as (s & -> & Hs).
    destruct (String.eqb_spec (id s) socioId) as [Heq|Hne]; [|by apply Hinv].
    rewrite has_required_docs_with_lote_medido in Hdocs.
    rewrite (find_id_unique _ _ _ _ Hnd Hfind Hs Heq) in *.
    rewrite Hdocs, andb_true_r in Hblocked. cbn.
    by destruct newValue.
Qed.

Lemma find_tipo_none (docs : list SocioDocumento) docType :
  List.find (fun d => String.eqb (tipo_documento d) docType) docs = None ↔
  ∀ doc, doc ∈ docs → tipo_documento doc ≠ docType.
Proof.
  induction docs as [|d docs IH]; simpl.
  - split; [intros _ doc H; by apply elem_of_nil in H | done].
  - destruct (String.eqb_spec (tipo_documento d) docType) as [Heq|Hne].
    + split; [discriminate|]. intros H. exfalso. apply (H d); [apply list_elem_of_here | done].
    + rewrite IH. split.
      * intros H doc [->|Hin]%elem_of_cons; [done | by apply H].
      * intros H doc Hin. apply H. by apply list_elem_of_further.
Qed.

(** Property X5.  The upload column agrees with the measured flag after a fetch: a socio
    for which it does not ask for both required documents (in particular one
    it shows as complete) has a required document and is listed as measured,
    and a socio without a required document is asked for both. *)
Theorem missingDocs_after_fetch (st : state) (sociosRes : db_result (list SocioRow))
    (localidadesRes : db_result (list (option string)))
    (ingresosRes : db_result (list IngresoRow)) (p : SocioConDocumentos) :
  p ∈ sociosConDocumentos (final (fetchAllData sociosRes localidadesRes ingresosRes st)) →
  (missingDocs p ≠ requiredDocumentTypes ↔ has_required_docs p = true)
  ∧ (missingDocs p ≠ requiredDocumentTypes → is_lote_medido p = Some true)
  ∧ (∀ docType, docType ∈ missingDocs p ↔
       docType ∈ requiredDocumentTypes
       ∧ ∀ doc, doc ∈ socio_documentos p → tipo_documento doc ≠ docType).
Proof.
  intros Hp.
  assert (∀ doc, doc ∈ socio_documentos p → truthy_str (link_documento doc) = true) as Hlinks.
  { apply fetchAllData_listed in Hp as (rows & locs & ings & socio & _ & _ & _ & _ & ->).
    intros doc. apply filtered_link_truthy. }
  set (missing := λ docType : string,
         match List.find (fun d => String.eqb (tipo_documento d) docType) (socio_documentos p) with
         | None => true
         | Some doc => negb (truthy_str (link_documento doc))
         end).
  change (missingDocs p) with (List.filter missing requiredDocumentTypes).
  assert (∀ docType, missing docType = true
            ↔ ∀ doc, doc ∈ socio_documentos p → tipo_documento doc ≠ docType) as Hmissing.
  { intros docType. rewrite <- find_tipo_none. unfold missing.
    destruct (List.find _ _) as [doc|] eqn:Hfind; [|done].
    apply find_some in Hfind as [Hin _]. apply list_elem_of_In in Hin.
    rewrite (Hlinks _ Hin). done. }
  assert (∀ docType, missing docType = false
            → ∃ doc, doc ∈ socio_documentos p ∧ tipo_documento doc = docType) as Hpresent.
  { intros docType. unfold missing.
    destruct (List.find _ _) as [doc|] eqn:Hfind; [|discriminate].
    apply find_some in Hfind as [Hin Ht]. apply list_elem_of_In in Hin.
    apply String.eqb_eq in Ht. intros _. by exists doc. }
  assert (List.filter missing requiredDocumentTypes ≠ requiredDocumentTypes
          ↔ has_required_docs p = true) as Hiff.
  { rewrite has_required_docs_iff. unfold requiredDocumentTypes. cbn [List.filter].
    destruct (missing "Planos de ubicación") eqn:E1.
    - destruct (missing "Memoria descriptiva") eqn:E2.
      + split; [done|]. intros (doc & Hin & [Ht|Ht] & _).
        * by destruct (proj1 (Hmissing _) E1 doc Hin).
        * by destruct (proj1 (Hmissing _) E2 doc Hin).
      + split; [|discriminate]. intros _.
        destruct (Hpresent _ E2) as (doc & Hin & Ht).
        exists doc. split_and!; [done | by right | by apply Hlinks].
    - split.
      + intros _. destruct (Hpresent _ E1) as (doc & Hin & Ht).
        exists doc. split_and!; [done | by left | by apply Hlinks].
      + intros _. destruct (missing "Memoria descriptiva"); discriminate. }
  split_and!; [done | |].
  - intros Hne. apply (fetchAllData_documented _ _ _ _ _ Hp). by apply Hiff.
  - intros docType. rewrite filter_elem, Hmissing. done.
Qed.

End MeasuredFacts.

(** As [run], a [match] on a term that a hypothesis gives being decided by
    that hypothesis. *)
Ltac run_cases :=
  lazymatch goal with
  | |- ret _ _ = _ => apply run_ret
  | |- throw _ _ = _ => apply run_throw
  | |- emit _ _ = _ => apply run_emit
  | |- toast _ _ _ = _ => apply run_emit
  | |- console_error _ _ = _ => apply run_emit
  | |- console_warn _ _ = _ => apply run_emit
  | |- modify _ _ = _ => apply run_modify
  | |- get _ = _ => apply run_get
  | |- when ?c _ _ = _ =>
      first [ replace c with true by decide_test; unfold when; run_cases
            | replace c with false by decide_test; apply run_ret ]
  | |- bind _ _ _ = _ =>
      first [ eapply run_bind; [solve [run_cases] | cbv beta; run_cases]
            | eapply run_bind_thrown; solve [run_cases] ]
  | |- try_catch _ _ _ = _ =>
      first [ eapply run_try_catch; solve [run_cases]
            | eapply run_try_catch_thrown; [solve [run_cases] | cbv beta; run_cases] ]
  | |- try_finally _ _ _ = _ => eapply run_try_finally; [solve [run_cases] | solve [run_cases]]
  | |- (if ?c then _ else _) _ = _ =>
      first [ replace c with true by decide_test; run_cases
            | replace c with false by decide_test; run_cases ]
  | |- (match ?x with _ => _ end) _ = _ =>
      first [ progress cbv iota
            | match goal with H : x = _ |- _ => rewrite H end ];
      run_cases
  | |- _ => reflexivity
  end.

Section BulkFacts.
Import PartnerDocuments PartnerDocumentsPage.

Lemma run_zoom {S T A} (part : S → T) (update : T → S → S) (m : M T A) s :
  zoom part update m s = RunResult (res (m (part s))) (update (final (m (part s))) s)
                                   (emitted (m (part s))).
Proof. reflexivity. Qed.

Lemma service_calls_app l1 l2 :
  service_calls (l1 ++ l2) = service_calls l1 ++ service_calls l2.
Proof. apply omap_app. Qed.

Lemma fetchAllData_emitted sociosRes localidadesRes ingresosRes st :
  service_calls (emitted (fetchAllData sociosRes localidadesRes ingresosRes st)) = []
  ∧ res (fetchAllData sociosRes localidadesRes ingresosRes st) = Normal tt.
Proof.
  destruct sociosRes, localidadesRes, ingresosRes; split; reflexivity.
Qed.

Lemma filter_sublist {A} (f : A → bool) l : List.filter f l `sublist_of` l.
Proof.
  induction l as [|x l IH]; simpl; [done|].
  destruct (f x); [by apply sublist_skip | by apply sublist_cons].
Qed.

Lemma filter_split_length {A} (f : A → bool) l :
  (length (List.filter (λ x, negb (f x)) l) + length (List.filter f l) = length l)%nat.
Proof.
  induction l as [|x l IH]; simpl; [done|].
  destruct (f x); simpl; lia.
Qed.

(** The rows a bulk update targets: all the selected rows when marking; when
    unmarking, the selected rows without a required document, the others
    being counted as blocked. *)
Lemma bulk_targets_rows (newValue : bool) (selectedRows : list SocioConDocumentos) :
  ∃ targeted,
    fst (bulk_targets newValue selectedRows) = id <$> targeted
    ∧ targeted `sublist_of` selectedRows
    ∧ (length targeted + snd (bulk_targets newValue selectedRows) = length selectedRows)%nat
    ∧ (∀ row, row ∈ targeted ↔
              row ∈ selectedRows ∧ (newValue = false → has_required_docs row = false)).
Proof.
  unfold bulk_targets. destruct newValue; simpl.
  - exists selectedRows. split_and!; [done | done | lia |].
    intros row. split; [done | intros [Hrow _]; exact Hrow].
  - exists (List.filter (λ row, negb (has_required_docs row)) selectedRows).
    split_and!; [done | apply filter_sublist | apply filter_split_length |].
    intros row. rewrite filter_elem, negb_true_iff.
    split; [intros [Hin Hf]; split; [done | by intros _] | intros [Hin Hf]; split; [done | by apply Hf]].
Qed.

Lemma bulk_targets_empty newValue (selectedRows : list SocioConDocumentos) :
  selectedRows = [] → fst (bulk_targets newValue selectedRows) = [].
Proof. intros ->. by destruct newValue. Qed.

Lemma length_zero_iff {A} (l : list A) : (length l =? 0)%nat = true ↔ l = [].
Proof. destruct l; simpl; split; (done || discriminate). Qed.

Lemma handleBulkUpdateLoteMedido_sent newValue selectedRows updateRes f st :
  fst (bulk_targets newValue selectedRows) ≠ [] →
  handleBulkUpdateLoteMedido true newValue selectedRows updateRes f st
  = match updateRes with
    | DbError _ =>
        RunResult (Normal tt) (setIsBulkUpdating false (setIsBulkUpdating true st))
          [ECall "socio_titulares.update.in"
                 (bulk_update_args newValue (fst (bulk_targets newValue selectedRows)));
           EConsoleError "Error during bulk update:";
           EToast ToastError "Error en la Edición Masiva"]
    | DbData _ =>
        let st1 := setIsBulkUpdating false (setRowSelection ∅ (setIsBulkUpdating true st)) in
        let r := fetchAllData (sociosRes f) (localidadesRes f) (ingresosRes f) (listing st1) in
        RunResult (res r) (with_listing (final r) st1)
          ([ECall "socio_titulares.update.in"
                  (bulk_update_args newValue (fst (bulk_targets newValue selectedRows)));
            EToast ToastSuccess "Actualización Masiva Exitosa"] ++ emitted r)
    end.
Proof.
  intros Hids. unfold handleBulkUpdateLoteMedido. cbn [negb].
  assert (selectedRows ≠ []) as Hrows.
  { intros H. by apply Hids, bulk_targets_empty. }
  replace (length selectedRows =? 0)%nat with false
    by (symmetry; apply not_true_is_false; by rewrite length_zero_iff).
  destruct (bulk_targets newValue selectedRows) as [ids blocked] eqn:Htargets.
  simpl in Hids |- *.
  assert ((length ids =? 0)%nat = false) as Hlen
    by (apply not_true_is_false; by rewrite length_zero_iff).
  destruct updateRes as [m|[]].
  - erewrite run_bind; [| apply run_modify | rewrite Hlen; run]. reflexivity.
  - erewrite run_bind; [| apply run_modify | rewrite Hlen; run]. reflexivity.
Qed.

(** Property X6.  A bulk update that is refused: by a caller who is not an administrator,
    or when no row is left to update (nothing selected, or every selected row
    blocked).  The only effect is one toast that is not a success toast: no
    request reaches the backend, the list and the selection are as before. *)
Theorem handleBulkUpdateLoteMedido_refused (isAdmin newValue : bool)
    (selectedRows : list SocioConDocumentos) (updateRes : db_result unit) (f : refetch)
    (st : page) :
  isAdmin = false ∨ fst (bulk_targets newValue selectedRows) = [] →
  let r := handleBulkUpdateLoteMedido isAdmin newValue selectedRows updateRes f st in
  res r = Normal tt
  ∧ (∃ kind title, emitted r = [EToast kind title] ∧ kind ≠ ToastSuccess)
  ∧ listing (final r) = listing st
  ∧ rowSelection (final r) = rowSelection st
  ∧ isBulkUpdating (final r) = (if isAdmin && negb (length selectedRows =? 0)%nat
                                 then false else isBulkUpdating st).
Proof.
  intros Hrefused. cbv zeta. unfold handleBulkUpdateLoteMedido.
  destruct isAdmin; cbn [negb andb].
  2:{ split_and!; try reflexivity. by exists ToastError, "Permiso denegado". }
  destruct Hrefused as [|Hids]; [discriminate|].
  destruct (length selectedRows =? 0)%nat; cbn [negb].
  { split_and!; try reflexivity. by exists ToastWarning, "Selección vacía". }
  destruct (bulk_targets newValue selectedRows) as [ids blocked].
  simpl in Hids. subst ids. cbn.
  destruct blocked; cbn; split_and!; try reflexivity.
  - by exists ToastWarning, "Selección vacía".
  - by exists ToastWarning, "Actualización Masiva Cancelada".
Qed.

Lemma backend_requests_app l1 l2 :
  backend_requests (l1 ++ l2) = backend_requests l1 ++ backend_requests l2.
Proof. apply List.filter_app. Qed.

Lemma fetchAllData_requests sociosRes localidadesRes ingresosRes st :
  backend_requests (emitted (fetchAllData sociosRes localidadesRes ingresosRes st))
  = [EDbSelect "socio_titulares"; EDbSelect "socio_titulares"; EDbSelect "ingresos"].
Proof. destruct sociosRes, localidadesRes, ingresosRes; reflexivity. Qed.

Lemma handleBulkUpdateLoteMedido_no_requests isAdmin newValue selectedRows updateRes f st :
  isAdmin = false ∨ fst (bulk_targets newValue selectedRows) = [] →
  backend_requests
    (emitted (handleBulkUpdateLoteMedido isAdmin newValue selectedRows updateRes f st)) = [].
Proof.
  intros Hrefused. unfold handleBulkUpdateLoteMedido.
  destruct isAdmin; cbn [negb]; [|reflexivity].
  destruct Hrefused as [|Hids]; [discriminate|].
  destruct (length selectedRows =? 0)%nat; [reflexivity|].
  destruct (bulk_targets newValue selectedRows) as [ids blocked].
  simpl in Hids. subst ids. by destruct blocked.
Qed.

(** Property X7.  The requests of a bulk update.  Whatever the inputs, the handler sends
    at most one update, only for an administrator, and with the ids of
    selected rows only; when unmarking, none of them has a required
    document.  Its only other requests are the three queries of the refetch,
    which follow the update when it succeeded. *)
Theorem handleBulkUpdateLoteMedido_request (isAdmin newValue : bool)
    (selectedRows : list SocioConDocumentos) (updateRes : db_result unit) (f : refetch)
    (st : page) :
  let r := handleBulkUpdateLoteMedido isAdmin newValue selectedRows updateRes f st in
  backend_requests (emitted r) = []
  ∨ (isAdmin = true
     ∧ ∃ targeted,
         targeted ≠ []
         ∧ targeted `sublist_of` selectedRows
         ∧ (newValue = false → ∀ row, row ∈ targeted → has_required_docs row = false)
         ∧ backend_requests (emitted r)
           = ECall "socio_titulares.update.in" (bulk_update_args newValue (id <$> targeted))
             :: match updateRes with
                | DbError _ => []
                | DbData _ =>
                    [EDbSelect "socio_titulares"; EDbSelect "socio_titulares";
                     EDbSelect "ingresos"]
                end).
Proof.
  cbv zeta.
  destruct isAdmin.
  2:{ left. apply handleBulkUpdateLoteMedido_no_requests. by left. }
  destruct (decide (fst (bulk_targets newValue selectedRows) = [])) as [Hids|Hids].
  { left. apply handleBulkUpdateLoteMedido_no_requests. by right. }
  right. split; [done|].
  destruct (bulk_targets_rows newValue selectedRows) as (targeted & Hfst & Hsub & _ & Hrows).
  exists targeted. split_and!.
  - intros ->. by apply Hids.
  - done.
  - intros Hnew row Hrow. by apply Hrows.
  - rewrite handleBulkUpdateLoteMedido_sent by done. rewrite Hfst.
    destruct updateRes as [m|[]]; [reflexivity|]. cbn [emitted].
    rewrite backend_requests_app, fetchAllData_requests. reflexivity.
Qed.

(** Property X8.  What follows the request of a bulk update.  When the backend answers
    with an error, the error is logged and raised as a toast, the list and
    the selection are kept and nothing is fetched again.  When it succeeds,
    the selection is cleared and the list is the one a fresh [fetchAllData]
    gives.  In both cases the handler returns with [isBulkUpdating] reset. *)
Theorem handleBulkUpdateLoteMedido_outcome (newValue : bool)
    (selectedRows : list SocioConDocumentos) (updateRes : db_result unit) (f : refetch)
    (st : page) :
  fst (bulk_targets newValue selectedRows) ≠ [] →
  let r := handleBulkUpdateLoteMedido true newValue selectedRows updateRes f st in
  res r = Normal tt
  ∧ isBulkUpdating (final r) = false
  ∧ match updateRes with
    | DbError _ =>
        listing (final r) = listing st
        ∧ rowSelection (final r) = rowSelection st
        ∧ EConsoleError "Error during bulk update:" ∈ emitted r
        ∧ EToast ToastError "Error en la Edición Masiva" ∈ emitted r
        ∧ ∀ table, EDbSelect table ∉ emitted r
    | DbData _ =>
        listing (final r)
        = final (fetchAllData (sociosRes f) (localidadesRes f) (ingresosRes f) (listing st))
        ∧ rowSelection (final r) = ∅
        ∧ EToast ToastSuccess "Actualización Masiva Exitosa" ∈ emitted r
    end.
Proof.
  intros Hids. cbv zeta. rewrite handleBulkUpdateLoteMedido_sent by done.
  destruct updateRes as [m|[]]; cbn [res final emitted].
  - split_and!; try reflexivity.
    + apply list_elem_of_further, list_elem_of_here.
    + do 2 apply list_elem_of_further. apply list_elem_of_here.
    + intros table Hin.
      repeat (apply elem_of_cons in Hin as [Hin|Hin]; [discriminate Hin|]).
      by apply elem_of_nil in Hin.
  - split_and!; try reflexivity.
    + apply fetchAllData_emitted.
    + apply list_elem_of_further, list_elem_of_here.
Qed.

End BulkFacts.

Section SplitFacts.

Lemma js_split_not_nil sep s : js_split sep s ≠ [].
Proof.
  destruct s as [|c s]; simpl; [done|].
  destruct (Ascii.eqb c sep); [done|]. by destruct (js_split sep s).
Qed.

Lemma js_split_whole sep s : contains_char sep s = false → js_split sep s = [s].
Proof.
  induction s as [|c s IH]; simpl; [done|].
  intros [Hc Hs]%orb_false_iff. rewrite Hc, IH by done. reflexivity.
Qed.

Lemma js_split_segment sep s t :
  contains_char sep s = false →
  js_split sep (s +:+ String sep t) = s :: js_split sep t.
Proof.
  induction s as [|c s IH]; simpl.
  - intros _. by rewrite Ascii.eqb_refl.
  - intros [Hc Hs]%orb_false_iff. rewrite Hc.
    change (String.append s (String sep t)) with (s +:+ String sep t).
    by rewrite IH.
Qed.

Lemma js_join_cons s l : l ≠ [] → js_join "/" (s :: l) = s +:+ String "/"%char (js_join "/" l).
Proof. destruct l; [done|]. reflexivity. Qed.

Lemma js_split_join l :
  l ≠ [] → Forall (λ seg, contains_char "/"%char seg = false) l →
  js_split "/"%char (js_join "/" l) = l.
Proof.
  induction l as [|s l IH]; [done|]. intros _ [Hs Hl]%Forall_cons.
  destruct l as [|s' l].
  - by apply js_split_whole.
  - rewrite js_join_cons by done. rewrite js_split_segment by done.
    by rewrite IH.
Qed.

Lemma js_join_split s : js_join "/" (js_split "/"%char s) = s.
Proof.
  induction s as [|c s IH]; [done|]. simpl.
  destruct (Ascii.eqb_spec c "/"%char) as [->|Hne].
  - rewrite js_join_cons by apply js_split_not_nil. by rewrite IH.
  - pose proof (js_split_not_nil "/"%char s) as Hnn.
    destruct (js_split "/"%char s) as [|h t]; [done|].
    rewrite <- IH. destruct t; reflexivity.
Qed.

Lemma js_split_segments sep s seg : seg ∈ js_split sep s → contains_char sep seg = false.
Proof.
  revert seg. induction s as [|c s IH]; simpl; intros seg.
  - by intros ->%list_elem_of_singleton.
  - destruct (Ascii.eqb c sep) eqn:Hc.
    + intros [->|Hin]%elem_of_cons; [done | by apply IH].
    + pose proof (js_split_not_nil sep s) as Hnn.
      destruct (js_split sep s) as [|h t]; [done|].
      intros [->|Hin]%elem_of_cons.
      * simpl. rewrite Hc. apply IH, list_elem_of_here.
      * apply IH. by apply list_elem_of_further.
Qed.

Lemma js_index_of_first x pre post :
  x ∉ pre → js_index_of x (pre ++ x :: post) = Some (length pre).
Proof.
  induction pre as [|y pre IH]; simpl.
  - by rewrite String.eqb_refl.
  - intros [Hne Hpre]%not_elem_of_cons.
    rewrite (proj2 (String.eqb_neq y x)) by done. by rewrite IH.
Qed.

Lemma js_index_of_some x l i :
  js_index_of x l = Some i → l = take i l ++ x :: drop (S i) l ∧ x ∉ take i l.
Proof.
  revert i. induction l as [|y l IH]; simpl; [discriminate|]. intros i.
  destruct (String.eqb_spec y x) as [->|Hne].
  - intros [= <-]. simpl. rewrite drop_0. split; [done | apply not_elem_of_nil].
  - destruct (js_index_of x l) as [j|]; [|discriminate]. intros [= <-]. simpl.
    destruct (IH j eq_refl) as [Heq Hnot]. split; [by rewrite <- Heq|].
    apply not_elem_of_cons. split; [congruence | done].
Qed.

End SplitFacts.

Section DeleteFacts.
Import PartnerDocuments PartnerDocumentsPage.

Lemma append_cons c s t : String c s +:+ t = String c (s +:+ t).
Proof. reflexivity. Qed.

Lemma append_assoc (a b c : string) : (a +:+ b) +:+ c = a +:+ b +:+ c.
Proof.
  induction a as [|x a IH]; [done|]. by rewrite !append_cons, IH.
Qed.

Lemma js_join_app pre post :
  pre ≠ [] → post ≠ [] →
  js_join "/" (pre ++ post) = js_join "/" pre +:+ "/" +:+ js_join "/" post.
Proof.
  induction pre as [|s pre IH]; [done|]. intros _ Hpost.
  destruct pre as [|s' pre].
  - simpl app. by rewrite js_join_cons.
  - rewrite <- app_comm_cons. rewrite js_join_cons by done.
    rewrite IH by done. rewrite (js_join_cons s (s' :: pre)) by done.
    by rewrite append_assoc, append_cons.
Qed.

(** Property X9.  The path extracted from a public URL: of a path whose segments are
    [pre], then [public], a bucket, and the segments [rest] of the file, with
    no [public] among [pre], the extraction gives [rest] joined again. *)
Theorem file_path_of_public_url (pre : list string) (bucket : string) (rest : list string) :
  Forall (λ seg, contains_char "/"%char seg = false) (pre ++ bucket :: rest) →
  "public" ∉ pre →
  js_join "/" rest ≠ "" →
  file_path (js_join "/" (pre ++ "public" :: bucket :: rest)) = inr (js_join "/" rest).
Proof.
  intros Hsegs Hpre Hrest. unfold file_path.
  assert (rest ≠ []) as Hnil by (intros ->; by apply Hrest).
  rewrite js_split_join.
  2:{ by destruct pre. }
  2:{ apply Forall_app in Hsegs as [Hp Hr]. apply Forall_app. split; [done|].
      apply Forall_cons. split; [reflexivity | done]. }
  rewrite js_index_of_first by done.
  replace (length (pre ++ "public" :: bucket :: rest) <=? length pre + 2)%nat with false.
  2:{ symmetry. apply Nat.leb_gt. rewrite length_app. simpl.
      destruct rest; [done | simpl; lia]. }
  replace (drop (length pre + 2) (pre ++ "public" :: bucket :: rest)) with rest.
  2:{ rewrite drop_app_add'; done. }
  destruct (String.eqb_spec (js_join "/" rest) ""); [done | reflexivity].
Qed.

(** Property X10.  Conversely, every path the extraction returns is non-empty and is what
    follows, in the path of the URL, the first segment [public] and the
    segment after it. *)
Theorem file_path_is_suffix (pathname filePath : string) :
  file_path pathname = inr filePath →
  filePath ≠ ""
  ∧ ∃ pre bucket,
      ("public" ∉ pre)
      ∧ pathname = (js_join "/" (pre ++ ["public"; bucket]) +:+ "/" +:+ filePath).
Proof.
  unfold file_path.
  destruct (js_index_of "public" (js_split "/"%char pathname)) as [i|] eqn:Hidx; [|discriminate].
  destruct (length (js_split "/"%char pathname) <=? i + 2)%nat eqn:Hlen; [discriminate|].
  apply Nat.leb_gt in Hlen.
  destruct (String.eqb_spec (js_join "/" (drop (i + 2) (js_split "/"%char pathname))) "")
    as [|Hne]; [discriminate|].
  intros [= <-]. split; [done|].
  apply js_index_of_some in Hidx as [Heq Hnot].
  set (segs := js_split "/"%char pathname) in *.
  destruct (drop (S i) segs) as [|bucket rest] eqn:Hdrop.
  { apply (f_equal length) in Hdrop. rewrite length_drop in Hdrop. simpl in Hdrop. lia. }
  exists (take i segs), bucket. split; [done|].
  assert (drop (i + 2) segs = rest) as ->.
  { replace (i + 2)%nat with (S i + 1)%nat by lia. rewrite <- drop_drop, Hdrop. reflexivity. }
  assert (rest ≠ []) as Hrest.
  { intros ->. apply (f_equal length) in Hdrop. rewrite length_drop in Hdrop.
    simpl in Hdrop. lia. }
  rewrite <- js_join_app; [| by destruct (take i segs) | done].
  rewrite <- (js_join_split pathname). fold segs. rewrite Heq at 1.
  by rewrite <- app_assoc.
Qed.

Lemma getBucketNameForDocumentType_not_empty docType :
  String.eqb (getBucketNameForDocumentType docType) "" = false.
Proof.
  unfold getBucketNameForDocumentType.
  destruct (String.eqb docType "Planos de ubicación"); [reflexivity|].
  destruct (String.eqb docType "Memoria descriptiva"); reflexivity.
Qed.

Section Handler.
Variable url_pathname : string → option string.

Lemma handleDeleteDocument_sent d f st pathname filePath :
  truthy_id (documentId (deleteConfirmState st)) = true →
  truthy_str (documentLink (deleteConfirmState st)) = true →
  truthy_str (documentType (deleteConfirmState st)) = true →
  url_pathname (default "" (documentLink (deleteConfirmState st))) = Some pathname →
  file_path pathname = inr filePath →
  let requests :=
    [ECall "storage.remove"
           {[ "bucket" := JStr (getBucketNameForDocumentType
                                  (default "" (documentType (deleteConfirmState st))));
              "path" := JStr filePath ]}]
    ++ match storageRes d with
       | DbError m =>
           [EConsoleWarn
              (storage_warning
                 (getBucketNameForDocumentType
                    (default "" (documentType (deleteConfirmState st)))) m)]
       | DbData _ => []
       end
    ++ [ECall "socio_documentos.delete"
              {[ "id" := JNum (inject_Z (default 0 (documentId (deleteConfirmState st)))) ]}] in
  handleDeleteDocument url_pathname d f st
  = match dbRes d with
    | DbError _ =>
        RunResult (Normal tt) (setIsDeleting false (setIsDeleting true st))
          (requests ++ [EConsoleError "Error al eliminar el documento:";
                        EToast ToastError "Error al eliminar el documento"])
    | DbData _ =>
        let st1 := setIsDeleting false (setDeleteConfirmState no_document (setIsDeleting true st)) in
        let r := fetchAllData (sociosRes f) (localidadesRes f) (ingresosRes f) (listing st1) in
        RunResult (res r) (with_listing (final r) st1)
          (requests
           ++ [EToast ToastSuccess
                 (deleted_message (default "" (documentType (deleteConfirmState st)))
                    (socioName (deleteConfirmState st)))]
           ++ emitted r)
    end.
Proof.
  intros Hid Hlink Htype Hurl Hpath. cbv zeta.
  pose proof (getBucketNameForDocumentType_not_empty
                (default "" (documentType (deleteConfirmState st)))) as Hbucket.
  unfold handleDeleteDocument.
  destruct (dbRes d) as [m|[]], (storageRes d) as [m'|[]];
    (erewrite run_bind;
     [| apply run_get
      | cbv beta zeta; rewrite Hid, Hlink, Htype, Hurl; cbn [negb orb]; run_cases ];
     reflexivity).
Qed.

(** Property X11.  The deletion of a document once the path of its file is known: the
    storage is asked to remove the file, then the table to delete the record,
    also when the storage refuses (that is only logged as a warning).  When
    the table refuses, the dialog stays as it is, the list is kept and nothing
    is fetched again; when it accepts, the dialog is closed and the list is the
    one a fresh [fetchAllData] gives.  The handler always returns, with
    [isDeleting] reset. *)
Theorem handleDeleteDocument_outcome (d : deletion) (f : refetch) (st : page)
    (docId : Z) (link docType pathname filePath : string) :
  documentId (deleteConfirmState st) = Some docId → docId ≠ 0 →
  documentLink (deleteConfirmState st) = Some link → link ≠ "" →
  documentType (deleteConfirmState st) = Some docType → docType ≠ "" →
  url_pathname link = Some pathname →
  file_path pathname = inr filePath →
  let r := handleDeleteDocument url_pathname d f st in
  res r = Normal tt
  ∧ isDeleting (final r) = false
  ∧ service_calls (emitted r)
    = [("storage.remove",
        {[ "bucket" := JStr (getBucketNameForDocumentType docType);
           "path" := JStr filePath ]});
       ("socio_documentos.delete", {[ "id" := JNum (inject_Z docId) ]})]
  ∧ match dbRes d with
    | DbError _ =>
        deleteConfirmState (final r) = deleteConfirmState st
        ∧ listing (final r) = listing st
        ∧ EToast ToastError "Error al eliminar el documento" ∈ emitted r
        ∧ ∀ table, EDbSelect table ∉ emitted r
    | DbData _ =>
        deleteConfirmState (final r) = no_document
        ∧ listing (final r)
          = final (fetchAllData (sociosRes f) (localidadesRes f) (ingresosRes f) (listing st))
        ∧ EToast ToastSuccess (deleted_message docType (socioName (deleteConfirmState st)))
          ∈ emitted r
    end.
Proof.
  intros Hid Hid0 Hlink Hlink0 Htype Htype0 Hurl Hpath. cbv zeta.
  assert (truthy_id (documentId (deleteConfirmState st)) = true) as Hid'.
  { rewrite Hid. simpl. by destruct (Z.eqb_spec docId 0). }
  assert (truthy_str (documentLink (deleteConfirmState st)) = true) as Hlink'.
  { rewrite Hlink. simpl. by destruct (String.eqb_spec link ""). }
  assert (truthy_str (documentType (deleteConfirmState st)) = true) as Htype'.
  { rewrite Htype. simpl. by destruct (String.eqb_spec docType ""). }
  assert (url_pathname (default "" (documentLink (deleteConfirmState st))) = Some pathname)
    as Hurl' by (by rewrite Hlink).
  rewrite (handleDeleteDocument_sent d f st pathname filePath Hid' Hlink' Htype' Hurl' Hpath).
  rewrite Hid, Htype. cbn [default].
  destruct (dbRes d) as [m|[]]; cbn [res final emitted].
  - split_and!; try reflexivity.
    + destruct (storageRes d) as [m'|[]]; reflexivity.
    + destruct (storageRes d) as [m'|[]]; simpl; rewrite !elem_of_cons; tauto.
    + intros table Hin. destruct (storageRes d) as [m'|[]]; simpl in Hin;
        repeat (apply elem_of_cons in Hin as [Hin|Hin]; [discriminate Hin|]);
        by apply elem_of_nil in Hin.
  - split_and!; try reflexivity.
    + apply fetchAllData_emitted.
    + rewrite !service_calls_app, (proj1 (fetchAllData_emitted _ _ _ _)).
      destruct (storageRes d) as [m'|[]]; reflexivity.
    + destruct (storageRes d) as [m'|[]]; simpl; rewrite !elem_of_cons; tauto.
Qed.

(** Property X12.  A deletion that cannot start: the dialog holds no document id (or the id
    0), no link or no type, or the link is not a URL, or its path is not that
    of a public file.  Then nothing is asked of the storage or of the table:
    an error toast is raised, the dialog and the list stay as they are and
    nothing is fetched again. *)
Theorem handleDeleteDocument_refused (d : deletion) (f : refetch) (st : page) :
  truthy_id (documentId (deleteConfirmState st)) = false
  ∨ truthy_str (documentLink (deleteConfirmState st)) = false
  ∨ truthy_str (documentType (deleteConfirmState st)) = false
  ∨ match url_pathname (default "" (documentLink (deleteConfirmState st))) with
    | None => True
    | Some pathname => ∃ message, file_path pathname = inl message
    end →
  let r := handleDeleteDocument url_pathname d f st in
  res r = Normal tt
  ∧ service_calls (emitted r) = []
  ∧ (∃ title, EToast ToastError title ∈ emitted r)
  ∧ (∀ table, EDbSelect table ∉ emitted r)
  ∧ deleteConfirmState (final r) = deleteConfirmState st
  ∧ listing (final r) = listing st.
Proof.
  intros Hrefused. cbv zeta.
  assert (∃ st' title,
            handleDeleteDocument url_pathname d f st
            = RunResult (Normal tt) st'
                (match title with
                 | Some t => [EToast ToastError t]
                 | None => [EConsoleError "Error al eliminar el documento:";
                            EToast ToastError "Error al eliminar el documento"]
                 end)
            ∧ deleteConfirmState st' = deleteConfirmState st
            ∧ listing st' = listing st) as (st' & title & -> & Hdialog & Hlisting).
  { unfold handleDeleteDocument.
    pose proof (getBucketNameForDocumentType_not_empty
                  (default "" (documentType (deleteConfirmState st)))) as Hbucket.
    destruct (truthy_id (documentId (deleteConfirmState st))) eqn:Hid.
    2:{ exists st, (Some "Error: No se pudo obtener la información completa del documento para eliminar.").
        split; [|done].
        erewrite run_bind; [| apply run_get | cbv beta zeta; rewrite Hid; cbn [negb orb]; run].
        reflexivity. }
    destruct (truthy_str (documentLink (deleteConfirmState st))) eqn:Hlink.
    2:{ exists st, (Some "Error: No se pudo obtener la información completa del documento para eliminar.").
        split; [|done].
        erewrite run_bind;
          [| apply run_get | cbv beta zeta; rewrite Hid, Hlink; cbn [negb orb]; run].
        reflexivity. }
    destruct (truthy_str (documentType (deleteConfirmState st))) eqn:Htype.
    2:{ exists st, (Some "Error: No se pudo obtener la información completa del documento para eliminar.").
        split; [|done].
        erewrite run_bind;
          [| apply run_get | cbv beta zeta; rewrite Hid, Hlink, Htype; cbn [negb orb]; run].
        reflexivity. }
    destruct Hrefused as [|[|[|Hpath]]]; [discriminate.. |].
    exists (setIsDeleting false (setIsDeleting true st)), None. split; [|done].
    destruct (url_pathname (default "" (documentLink (deleteConfirmState st))))
      as [pathname|] eqn:Hurl.
    - destruct Hpath as [message Hpath].
      erewrite run_bind;
        [| apply run_get
         | cbv beta zeta; rewrite Hid, Hlink, Htype, Hurl; cbn [negb orb]; run_cases].
      reflexivity.
    - erewrite run_bind;
        [| apply run_get
         | cbv beta zeta; rewrite Hid, Hlink, Htype, Hurl; cbn [negb orb]; run].
      reflexivity. }
  cbn [res final emitted]. split_and!; try done.
  - by destruct title.
  - destruct title as [t|]; [exists t; apply list_elem_of_here|].
    eexists. apply list_elem_of_further, list_elem_of_here.
  - intros table Hin. destruct title;
      repeat (apply elem_of_cons in Hin as [Hin|Hin]; [discriminate Hin|]);
      by apply elem_of_nil in Hin.
Qed.

End Handler.

End DeleteFacts.

Section FilterFacts.
Import PartnerDocuments PartnerDocumentsPage.
Variable toLowerCase : string → string.

Lemma filter_all {A} (f : A → bool) l : (∀ x, f x = true) → List.filter f l = l.
Proof.
  intros Hf. induction l as [|x l IH]; [done|]. simpl. by rewrite Hf, IH.
Qed.

(** Property X13.  The rows the table shows.  They are rows of the list, in the order of
    the list, and all of the selected locality when one is selected.  With a
    blank query the locality alone decides, so that [all] shows the whole
    list; with a query, a socio of the locality whose DNI contains it is
    shown. *)
Theorem filteredData_spec (p : page) :
  let shown := filteredData toLowerCase p in
  let in_locality socio :=
    selectedLocalidad p = "all" ∨ localidad socio = selectedLocalidad p in
  let searchLower := js_trim (toLowerCase (searchQuery p)) in
  shown `sublist_of` sociosConDocumentos (listing p)
  ∧ (∀ socio, socio ∈ shown → in_locality socio)
  ∧ (searchLower = "" →
     ∀ socio, socio ∈ shown ↔ socio ∈ sociosConDocumentos (listing p) ∧ in_locality socio)
  ∧ (searchLower = "" → selectedLocalidad p = "all" →
     shown = sociosConDocumentos (listing p))
  ∧ (∀ socio, socio ∈ sociosConDocumentos (listing p) → in_locality socio →
              js_includes searchLower (toLowerCase (dni socio)) = true →
              socio ∈ shown).
Proof.
  cbv zeta. unfold filteredData.
  assert (∀ socio,
            String.eqb (selectedLocalidad p) "all"
            || String.eqb (localidad socio) (selectedLocalidad p) = true
            ↔ selectedLocalidad p = "all" ∨ localidad socio = selectedLocalidad p) as Hloc.
  { intros socio. by rewrite orb_true_iff, !String.eqb_eq. }
  split_and!.
  - apply filter_sublist.
  - intros socio [_ Hm]%filter_elem. apply Hloc. unfold matches_search in Hm.
    destruct (String.eqb _ ""); [done|]. by apply andb_true_iff in Hm as [? _].
  - intros Hblank socio. rewrite filter_elem. unfold matches_search.
    rewrite Hblank. simpl. by rewrite Hloc.
  - intros Hblank Hall. apply filter_all. intros socio.
    unfold matches_search. by rewrite Hblank, Hall.
  - intros socio Hin Hin_loc Hdni. apply filter_elem. split; [done|].
    apply Hloc in Hin_loc. unfold matches_search. rewrite Hin_loc, Hdni.
    by destruct (String.eqb _ "").
Qed.

End FilterFacts.

(** * What the lookup and the search leave alone *)

Section FrameFacts.
Import SocioTitularRegistrationForm SocioTitularRegistrationFormData.

Lemma touches_only_refl fields s : touches_only fields s s.
Proof. by repeat split. Qed.

Lemma touches_only_trans fields s1 s2 s3 :
  touches_only fields s1 s2 → touches_only fields s2 s3 → touches_only fields s1 s3.
Proof.
  intros (Hf & ? & ? & ? & ? & ? & ?) (Hf' & ? & ? & ? & ? & ? & ?).
  split_and!; try congruence.
  intros k Hk. by rewrite Hf', Hf.
Qed.

Lemma touches_only_mono fields fields' s s' :
  fields ⊆ fields' → touches_only fields s s' → touches_only fields' s s'.
Proof.
  intros Hsub (Hf & ? & ? & ? & ? & ? & ?). split_and!; try done.
  intros k Hk. apply Hf. intros Hin. by apply Hk, Hsub.
Qed.

Lemma setValue_touches fields name v :
  name ∈ fields → respects (touches_only fields) (setValue name v).
Proof.
  intros Hin s. split_and!; try reflexivity.
  intros k Hk. cbn. apply lookup_insert_ne. by intros ->.
Qed.

Lemma fill_if_empty_touches fields name v :
  name ∈ fields → respects (touches_only fields) (fill_if_empty name v).
Proof.
  intros Hin s. unfold fill_if_empty, bind, watch; cbn.
  destruct (truthy (prop (form s) name)); cbn; [apply touches_only_refl|].
  by apply setValue_touches.
Qed.

Lemma fill_fechaNacimiento_touches fields raw :
  "fechaNacimiento" ∈ fields → respects (touches_only fields) (fill_fechaNacimiento raw).
Proof.
  intros Hin s. unfold fill_fechaNacimiento, bind at 1, watch; cbn.
  destruct (truthy (prop (form s) "fechaNacimiento")); cbn; [apply touches_only_refl|].
  unfold bind. destruct (res (formatDateToISO raw s)) eqn:E; cbn;
    rewrite formatDateToISO_final; [|apply touches_only_refl].
  by apply setValue_touches.
Qed.

Lemma with_isReniecSearching_touches fields b :
  respects (touches_only fields) (modify (with_isReniecSearching b)).
Proof. intros s. by repeat split. Qed.

Lemma checkMissingFields_touches fields : respects (touches_only fields) checkMissingFields.
Proof. intros s. apply touches_only_refl. Qed.

Lemma split_surname_touches fields v : respects (touches_only fields) (split_surname v).
Proof.
  intros s. unfold split_surname. destruct (truthy v); [|apply touches_only_refl].
  destruct v; apply touches_only_refl.
Qed.

Ltac in_fields := repeat (first [apply list_elem_of_here | apply list_elem_of_further]).

Ltac frame_step :=
  first
    [ apply (respects_ret _ (touches_only_refl _))
    | apply (respects_throw _ (touches_only_refl _))
    | apply (respects_emit _ (touches_only_refl _))
    | apply with_isReniecSearching_touches
    | apply checkMissingFields_touches
    | apply split_surname_touches
    | apply setValue_touches; solve [in_fields]
    | apply fill_if_empty_touches; solve [in_fields]
    | apply fill_fechaNacimiento_touches; solve [in_fields]
    | apply (respects_when _ (touches_only_refl _))
    | apply (respects_bind _ (touches_only_trans _)); [|intros ?]
    | apply (respects_try_catch _ (touches_only_trans _)); [|intros ?]
    | match goal with
      | |- respects _ (match ?x with _ => _ end) => destruct x
      end
    | progress unfold toast, console_error, request ].

Lemma attempt_primary_touches e dni r :
  respects (touches_only fieldsToCheck) (attempt_primary e dni r).
Proof. unfold attempt_primary. repeat frame_step. Qed.

Lemma attempt_secondary_touches e dni r dataFound :
  respects (touches_only fieldsToCheck) (attempt_secondary e dni r dataFound).
Proof. unfold attempt_secondary. repeat frame_step. Qed.

Lemma attempt_tertiary_touches e dni r dataFound :
  respects (touches_only fieldsToCheck) (attempt_tertiary e dni r dataFound).
Proof. unfold attempt_tertiary. repeat frame_step. Qed.

Lemma length_8_guard_iff dni :
  String.eqb dni "" || negb (js_length dni =? 8)%nat = false ↔ js_length dni = 8%nat.
Proof.
  split; [|apply length_8_guard].
  intros [_ H]%orb_false_iff. apply negb_false_iff in H. by apply Nat.eqb_eq.
Qed.

Lemma fetchReniec_touches e dni r1 r2 r3 :
  respects (touches_only fieldsToCheck) (fetchReniecDataAndPopulate e dni r1 r2 r3).
Proof.
  unfold fetchReniecDataAndPopulate. destruct (_ || _).
  - frame_step.
  - frame_step; [frame_step|].
    frame_step; [apply attempt_primary_touches|].
    frame_step; [apply attempt_secondary_touches|].
    frame_step; [apply attempt_tertiary_touches|].
    repeat frame_step.
Qed.

(** Property X14.  What the identity lookup leaves alone.  Whatever the three services
    answer, it writes no form field other than the eight personal fields it
    looks up, and no other part of the form state; for a DNI that does not
    have 8 characters it does nothing at all and returns [false]; for one that
    has, the search flag is reset when it returns. *)
Theorem fetchReniec_frame (e : env) (dni : string)
    (r1 : http_result primary_body) (r2 : http_result secondary_body)
    (r3 : http_result tertiary_body) (st : state) :
  let r := fetchReniecDataAndPopulate e dni r1 r2 r3 st in
  touches_only fieldsToCheck st (final r)
  ∧ (if (js_length dni =? 8)%nat then isReniecSearching (final r) = false
     else r = RunResult (Normal false) st []).
Proof.
  cbv zeta. split.
  - apply fetchReniec_touches.
  - destruct (js_length dni =? 8)%nat eqn:Hlen.
    + apply Nat.eqb_eq in Hlen.
      unfold fetchReniecDataAndPopulate.
      rewrite (length_8_guard _ Hlen), bind_modify.
      rewrite (bind_normal _ _ _ _
                 (never_throws_returned _ _ (attempt_primary_never_throws e dni r1))).
      cbn [res final emitted].
      rewrite (bind_normal _ _ _ _
                 (never_throws_returned _ _ (attempt_secondary_never_throws e dni r2 _))).
      cbn [res final emitted].
      rewrite (bind_normal _ _ _ _
                 (never_throws_returned _ _ (attempt_tertiary_never_throws e dni r3 _))).
      cbn [res final emitted].
      rewrite bind_modify.
      match goal with |- context [when ?c _] => destruct c end; reflexivity.
    + unfold fetchReniecDataAndPopulate. rewrite Hlen. cbn [negb]. by rewrite orb_true_r.
Qed.

End FrameFacts.

Section SearchFacts.
Import SocioTitularRegistrationForm SocioTitularRegistrationFormData.
Variable format_date : string → option string.

Ltac in_fields := repeat (first [apply list_elem_of_here | apply list_elem_of_further]).

(** Looks a concrete key up under a pile of insertions. *)
Ltac lookup_inserts :=
  repeat first [ rewrite lookup_insert_eq
               | rewrite lookup_insert_ne by discriminate
               | rewrite lookup_delete_eq
               | rewrite lookup_delete_ne by discriminate ];
  try reflexivity.

Lemma clear_lookup_fields_run s :
  clear_lookup_fields s
  = RunResult (Normal tt)
      (with_form (λ f, <["distritoDNI" := JStr ""]> (<["provinciaDNI" := JStr ""]>
                       (<["regionDNI" := JStr ""]> (<["direccionDNI" := JStr ""]>
                       (<["celular" := JStr ""]> (<["edad" := JNull]>
                       (<["fechaNacimiento" := JStr ""]> (<["apellidoMaterno" := JStr ""]>
                       (<["apellidoPaterno" := JStr ""]> (<["nombres" := JStr ""]> f))))))))))
                 s) [].
Proof. reflexivity. Qed.

Lemma search_local_never_throws dbRes : never_throws (search_local format_date dbRes).
Proof. apply never_throws_try_catch. intros e s. by exists false. Qed.

Lemma load_date_final {St} v (s : St) : final (load_date format_date v s) = s.
Proof. unfold load_date. by destruct (formatted_date format_date v). Qed.

Lemma respects_search_local dbRes :
  respects (touches_only search_fields) (search_local format_date dbRes).
Proof.
  unfold search_local.
  apply (respects_try_catch _ (touches_only_trans _)).
  2:{ intros _. repeat first
        [ apply (respects_bind _ (touches_only_trans _)); [|intros ?]
        | apply (respects_emit _ (touches_only_refl _))
        | apply (respects_ret _ (touches_only_refl _)) ]. }
  unfold search_local_steps.
  apply (respects_bind _ (touches_only_trans _)); [apply (respects_emit _ (touches_only_refl _))|].
  intros _. destruct dbRes as [m|code m|[data|]].
  - apply (respects_throw _ (touches_only_refl _)).
  - destruct (negb _); repeat first
        [ apply (respects_bind _ (touches_only_trans _)); [|intros ?]
        | apply (respects_emit _ (touches_only_refl _))
        | apply (respects_ret _ (touches_only_refl _)) ].
  - repeat first
        [ apply (respects_bind _ (touches_only_trans _)); [|intros ?]
        | apply (respects_emit _ (touches_only_refl _))
        | apply (respects_ret _ (touches_only_refl _))
        | apply setValue_touches; solve [in_fields]
        | intros s; rewrite load_date_final; apply touches_only_refl ].
  - apply (respects_ret _ (touches_only_refl _)).
Qed.

Lemma respects_clear_lookup_fields :
  respects (touches_only search_fields) clear_lookup_fields.
Proof.
  unfold clear_lookup_fields.
  repeat first
    [ apply (respects_bind _ (touches_only_trans _)); [|intros ?]
    | apply setValue_touches; solve [in_fields] ].
Qed.

Lemma fieldsToCheck_search_fields : fieldsToCheck ⊆ search_fields.
Proof.
  intros k Hk. unfold fieldsToCheck in Hk.
  repeat (apply elem_of_cons in Hk as [->|Hk]; [in_fields|]).
  by apply elem_of_nil in Hk.
Qed.

(** The search by DNI as the sequence of its steps, for a DNI of 8
    characters. *)
Lemma searchSocioByDni_run e dni dbRes r1 r2 r3 c :
  js_length dni = 8%nat →
  let s0 := final (clear_lookup_fields (registration c)) in
  let db := search_local format_date dbRes s0 in
  let rn := fetchReniecDataAndPopulate e dni r1 r2 r3 (final db) in
  searchSocioByDni format_date e dni dbRes r1 r2 r3 c
  = RunResult (Normal tt)
      {| registration := if returned db then final db else final rn;
         isDniSearching := false;
         localitiesSuggestions := localitiesSuggestions c;
         isLocalitiesLoading := isLocalitiesLoading c |}
      (emitted db ++
       if returned db then []
       else emitted rn ++
            if returned rn then [] else [EToast ToastWarning "DNI no encontrado"]).
Proof.
  intros Hlen s0 db rn. unfold searchSocioByDni.
  rewrite (length_8_guard _ Hlen), bind_modify.
  rewrite (bind_normal _ _ _ tt) by reflexivity.
  change (final (in_registration clear_lookup_fields (setIsDniSearching true c)))
    with (with_registration s0 (setIsDniSearching true c)).
  change (emitted (in_registration clear_lookup_fields (setIsDniSearching true c)))
    with (@nil event).
  cbn [app res final emitted].
  pose proof (never_throws_returned _ s0 (search_local_never_throws dbRes)) as Hdb.
  fold db in Hdb.
  rewrite (bind_normal _ _ _ (returned db)) by exact Hdb.
  change (final (in_registration (search_local format_date dbRes)
                   (with_registration s0 (setIsDniSearching true c))))
    with (with_registration (final db) (setIsDniSearching true c)).
  change (emitted (in_registration (search_local format_date dbRes)
                     (with_registration s0 (setIsDniSearching true c))))
    with (emitted db).
  cbn [res final emitted].
  destruct (returned db); cbn [negb].
  - reflexivity.
  - pose proof (never_throws_returned _ (final db)
                  (fetchReniec_never_throws e dni r1 r2 r3)) as Hrn.
    fold rn in Hrn.
    rewrite (bind_normal _ _ _ (returned rn)) by exact Hrn.
    change (final (in_registration (fetchReniecDataAndPopulate e dni r1 r2 r3)
                     (with_registration (final db) (setIsDniSearching true c))))
      with (with_registration (final rn) (setIsDniSearching true c)).
    change (emitted (in_registration (fetchReniecDataAndPopulate e dni r1 r2 r3)
                       (with_registration (final db) (setIsDniSearching true c))))
      with (emitted rn).
    cbn [res final emitted].
    destruct (returned rn); reflexivity.
Qed.

(** A search with a DNI that does not have 8 characters asks nothing of
    anyone: it clears the eleven personal fields ([edad] to [null], the others
    to the empty string) and leaves the rest of the form and of the state
    alone. *)
Lemma searchSocioByDni_invalid_dni (e : env) (dni : string) (dbRes : single_result)
    (r1 : http_result primary_body) (r2 : http_result secondary_body)
    (r3 : http_result tertiary_body) (c : component) :
  js_length dni ≠ 8%nat →
  let r := searchSocioByDni format_date e dni dbRes r1 r2 r3 c in
  res r = Normal tt
  ∧ emitted r = []
  ∧ (∀ k, k ∈ search_fields →
          form (registration (final r)) !! k
          = Some (if String.eqb k "edad" then JNull else JStr ""))
  ∧ touches_only search_fields (registration c) (registration (final r))
  ∧ isReniecSearching (registration (final r)) = isReniecSearching (registration c)
  ∧ isDniSearching (final r) = isDniSearching c
  ∧ localitiesSuggestions (final r) = localitiesSuggestions c
  ∧ isLocalitiesLoading (final r) = isLocalitiesLoading c.
Proof.
  intros Hlen. cbv zeta. unfold searchSocioByDni.
  replace (String.eqb dni "" || negb (js_length dni =? 8)%nat) with true.
  2:{ symmetry. apply orb_true_iff. right. apply negb_true_iff. by apply Nat.eqb_neq. }
  assert (in_registration (clear_lookup_fields ;; setValue "localidad" (JStr "")) c
          = RunResult (Normal tt)
              (with_registration
                 (with_form (λ f, <["localidad" := JStr ""]>
                       (<["distritoDNI" := JStr ""]> (<["provinciaDNI" := JStr ""]>
                       (<["regionDNI" := JStr ""]> (<["direccionDNI" := JStr ""]>
                       (<["celular" := JStr ""]> (<["edad" := JNull]>
                       (<["fechaNacimiento" := JStr ""]> (<["apellidoMaterno" := JStr ""]>
                       (<["apellidoPaterno" := JStr ""]> (<["nombres" := JStr ""]> f)))))))))))
                    (registration c)) c) []) as Hrun by reflexivity.
  split_and!; try (rewrite Hrun; reflexivity).
  - intros k Hk. rewrite Hrun. cbn [final registration with_registration form with_form].
    unfold search_fields in Hk.
    repeat (apply elem_of_cons in Hk as [->|Hk]; [lookup_inserts|]).
    by apply elem_of_nil in Hk.
  - assert (respects (touches_only search_fields)
              (clear_lookup_fields ;; setValue "localidad" (JStr ""))) as H.
    { apply (respects_bind _ (touches_only_trans _)); [apply respects_clear_lookup_fields|].
      intros _. apply setValue_touches. in_fields. }
    exact (H (registration c)).
Qed.

(** Property X15.  A socio found in the local table is not looked up anywhere else: when
    the table answers with a row whose birth date is absent or a valid date,
    the search makes its one query, raises the success toast, writes the
    eleven personal fields from the row (the birth date reformatted) and
    calls no identity-lookup service. *)
Theorem searchSocioByDni_found_locally (e : env) (dni : string) (data : jsobj)
    (fechaNacimiento : jsv)
    (r1 : http_result primary_body) (r2 : http_result secondary_body)
    (r3 : http_result tertiary_body) (c : component) :
  js_length dni = 8%nat →
  formatted_date format_date (prop data "fechaNacimiento") = Some fechaNacimiento →
  let r := searchSocioByDni format_date e dni (SingleData (Some data)) r1 r2 r3 c in
  res r = Normal tt
  ∧ emitted r = [EDbSelect "socio_titulares";
                 EToast ToastSuccess "Socio encontrado en la base de datos"]
  ∧ http_calls (emitted r) = []
  ∧ (∀ k, k ∈ search_fields →
          form (registration (final r)) !! k
          = Some (if String.eqb k "fechaNacimiento" then fechaNacimiento else prop data k))
  ∧ isDniSearching (final r) = false.
Proof.
  intros Hlen Hdate. cbv zeta.
  rewrite (searchSocioByDni_run e dni _ r1 r2 r3 c Hlen). cbv zeta.
  set (s0 := final (clear_lookup_fields (registration c))).
  assert (search_local format_date (SingleData (Some data)) s0
          = RunResult (Normal true)
              (with_form (λ f, <["localidad" := prop data "localidad"]>
                         (<["distritoDNI" := prop data "distritoDNI"]>
                         (<["provinciaDNI" := prop data "provinciaDNI"]>
                         (<["regionDNI" := prop data "regionDNI"]>
                         (<["direccionDNI" := prop data "direccionDNI"]>
                         (<["celular" := prop data "celular"]>
                         (<["edad" := prop data "edad"]>
                         (<["fechaNacimiento" := fechaNacimiento]>
                         (<["apellidoMaterno" := prop data "apellidoMaterno"]>
                         (<["apellidoPaterno" := prop data "apellidoPaterno"]>
                         (<["nombres" := prop data "nombres"]> f))))))))))) s0)
              [EDbSelect "socio_titulares";
               EToast ToastSuccess "Socio encontrado en la base de datos"]) as Hdb.
  { unfold search_local, search_local_steps, load_date. rewrite Hdate. reflexivity. }
  rewrite Hdb. cbn [returned res final emitted registration isDniSearching].
  split_and!; try reflexivity.
  intros k Hk. cbn [form with_form]. unfold search_fields in Hk.
  repeat (apply elem_of_cons in Hk as [->|Hk]; [lookup_inserts|]).
  by apply elem_of_nil in Hk.
Qed.

(** Property X16.  When the local table has no socio with the DNI (no row, an error, or a
    rejected query), the search goes on with the identity lookup on the
    cleared form: its events are those of the query, then those of the
    lookup, then the warning that nothing was found if the lookup found
    nothing; the form it leaves is the one the lookup leaves. *)
Theorem searchSocioByDni_falls_back_to_lookup (e : env) (dni : string)
    (dbRes : single_result)
    (r1 : http_result primary_body) (r2 : http_result secondary_body)
    (r3 : http_result tertiary_body) (c : component) :
  js_length dni = 8%nat →
  (∀ data, dbRes ≠ SingleData (Some data)) →
  let r := searchSocioByDni format_date e dni dbRes r1 r2 r3 c in
  let lookup := fetchReniecDataAndPopulate e dni r1 r2 r3
                  (final (clear_lookup_fields (registration c))) in
  ∃ reported,
    emitted r
    = [EDbSelect "socio_titulares"] ++ reported ++ emitted lookup
      ++ (if returned lookup then [] else [EToast ToastWarning "DNI no encontrado"])
    ∧ http_calls reported = []
    ∧ http_calls (emitted r) = http_calls (emitted lookup)
    ∧ registration (final r) = final lookup.
Proof.
  intros Hlen Hmiss. cbv zeta.
  rewrite (searchSocioByDni_run e dni _ r1 r2 r3 c Hlen). cbv zeta.
  set (s0 := final (clear_lookup_fields (registration c))).
  assert (∃ reported,
            search_local format_date dbRes s0
            = RunResult (Normal false) s0 ([EDbSelect "socio_titulares"] ++ reported)
            ∧ http_calls reported = []) as (reported & Hdb & Hrep).
  { destruct dbRes as [m|code m|[data|]].
    - eexists. split; reflexivity.
    - unfold search_local, search_local_steps.
      destruct (negb (String.eqb code "PGRST116")); eexists; split; reflexivity.
    - by destruct (Hmiss data).
    - eexists. split; reflexivity. }
  exists reported. rewrite Hdb. cbn [returned res final emitted registration].
  split_and!; [by rewrite <- !app_assoc | done | | done].
  rewrite !http_calls_app, Hrep. cbn [app].
  destruct (returned _); cbn; by rewrite ?app_nil_r.
Qed.

(** Property X17.  What a search by DNI leaves alone, whatever the table and the services
    answer: it always returns, writes no form field other than the eleven
    personal fields (never the DNI, the observation fields or the dwelling
    fields), keeps the rest of the form state and the locality suggestions,
    and for a DNI of 8 characters it ends with the search flag reset. *)
Theorem searchSocioByDni_frame (e : env) (dni : string) (dbRes : single_result)
    (r1 : http_result primary_body) (r2 : http_result secondary_body)
    (r3 : http_result tertiary_body) (c : component) :
  let r := searchSocioByDni format_date e dni dbRes r1 r2 r3 c in
  res r = Normal tt
  ∧ touches_only search_fields (registration c) (registration (final r))
  ∧ localitiesSuggestions (final r) = localitiesSuggestions c
  ∧ isLocalitiesLoading (final r) = isLocalitiesLoading c
  ∧ isDniSearching (final r)
    = (if (js_length dni =? 8)%nat then false else isDniSearching c).
Proof.
  cbv zeta. destruct (js_length dni =? 8)%nat eqn:Hlen.
  - apply Nat.eqb_eq in Hlen.
    rewrite (searchSocioByDni_run e dni _ r1 r2 r3 c Hlen). cbv zeta.
    cbn [res final emitted registration isDniSearching localitiesSuggestions
         isLocalitiesLoading].
    split_and!; try reflexivity.
    set (s0 := final (clear_lookup_fields (registration c))).
    assert (touches_only search_fields (registration c) s0) as H0
      by apply respects_clear_lookup_fields.
    assert (touches_only search_fields s0 (final (search_local format_date dbRes s0))) as H1
      by apply respects_search_local.
    destruct (returned _).
    + eapply touches_only_trans; [exact H0 | exact H1].
    + eapply touches_only_trans; [exact H0|].
      eapply touches_only_trans; [exact H1|].
      eapply touches_only_mono; [apply fieldsToCheck_search_fields|].
      apply fetchReniec_touches.
  - apply Nat.eqb_neq in Hlen.
    destruct (searchSocioByDni_invalid_dni e dni dbRes r1 r2 r3 c Hlen)
      as (? & ? & ? & ? & ? & ? & ? & ?).
    done.
Qed.

End SearchFacts.

(** * Loading and saving a socio *)

Section SaveFacts.
Import SocioTitularRegistrationForm SocioTitularRegistrationFormData.
Variable format_date : string → option string.

Ltac lookup_inserts :=
  repeat first [ rewrite lookup_insert_eq
               | rewrite lookup_insert_ne by discriminate
               | rewrite lookup_delete_eq
               | rewrite lookup_delete_ne by discriminate ];
  try reflexivity.

(** The row written for a socio.  It never carries the two form-only keys
    of the payment observation; their values go to the columns
    [is_payment_observed] and [payment_observation_detail]; a detail is
    written as [null] when its flag is not set; every other value of the form
    is written as it is. *)
Lemma dataToSave_columns (d : jsobj) :
  let row := dataToSave d in
  row !! "isPaymentObserved" = None
  ∧ row !! "paymentObservationDetail" = None
  ∧ row !! "is_payment_observed" = Some (prop d "isPaymentObserved")
  ∧ row !! "payment_observation_detail"
    = Some (if truthy (prop d "isPaymentObserved")
            then prop d "paymentObservationDetail" else JNull)
  ∧ row !! "observacion"
    = Some (if truthy (prop d "isObservado") then prop d "observacion" else JNull)
  ∧ ∀ k, k ∉ ["isPaymentObserved"; "paymentObservationDetail"; "is_payment_observed";
              "payment_observation_detail"; "observacion"] →
         row !! k = d !! k.
Proof.
  cbv zeta. unfold dataToSave. split_and!; lookup_inserts.
  intros k Hk. repeat (apply not_elem_of_cons in Hk as [? Hk]).
  rewrite !lookup_insert_ne by done. by rewrite !lookup_delete_ne.
Qed.

Lemma fetchSocio_loaded sid data fechaNacimiento st :
  formatted_date format_date (prop data "fechaNacimiento") = Some fechaNacimiento →
  fetchSocio format_date (Some sid) (SingleData (Some data)) st
  = RunResult (Normal tt)
      (with_form_errors (λ _, ∅)
         (with_form (λ _, loaded_values data fechaNacimiento) st))
      [EDbSelect "socio_titulares"].
Proof. intros Hdate. unfold fetchSocio, load_date. rewrite Hdate. reflexivity. Qed.

(** Property X18.  What the loading effect of the form does.  Without a socio to edit it
    does nothing.  With one, it makes one query: an error is logged and raised
    as a toast and the form is kept; a row whose birth date is absent or valid
    replaces the form values and clears the form errors; a row whose birth
    date is not a valid date makes the effect throw, the form being kept. *)
Theorem fetchSocio_cases (socioId : option string) (r : single_result) (st : state) :
  let run := fetchSocio format_date socioId r st in
  match socioId, r with
  | None, _ => run = RunResult (Normal tt) st []
  | Some _, SingleRejects m => run = RunResult (Thrown m) st [EDbSelect "socio_titulares"]
  | Some _, SingleError _ _ =>
      run = RunResult (Normal tt) st
              [EDbSelect "socio_titulares"; EConsoleError "Error fetching socio:";
               EToast ToastError "Error al cargar socio"]
  | Some _, SingleData None => run = RunResult (Normal tt) st [EDbSelect "socio_titulares"]
  | Some _, SingleData (Some data) =>
      emitted run = [EDbSelect "socio_titulares"]
      ∧ match formatted_date format_date (prop data "fechaNacimiento") with
        | Some fechaNacimiento =>
            res run = Normal tt
            ∧ form (final run) = loaded_values data fechaNacimiento
            ∧ form_errors (final run) = ∅
        | None => (∃ m, res run = Thrown m) ∧ final run = st
        end
  end.
Proof.
  cbv zeta. destruct socioId as [sid|]; [|reflexivity].
  destruct r as [m|code m|[data|]]; try reflexivity.
  destruct (formatted_date format_date (prop data "fechaNacimiento")) as [d|] eqn:Hdate.
  - by rewrite (fetchSocio_loaded sid data d st Hdate).
  - unfold fetchSocio, load_date. rewrite Hdate. split; [reflexivity|].
    split; [by eexists | reflexivity].
Qed.

(** Property X19.  The observation status survives an edit that does not touch it.  The
    values the loading effect puts in the form, once submitted (any values
    that agree with them on the four observation fields), give a row with the
    same flags ([null] read as [false]); a detail recorded under a set flag is
    written back unchanged, and a detail is written as [null] when its flag is
    not set. *)
Theorem observation_status_round_trip (sid : string) (data : jsobj)
    (fechaNacimiento : jsv) (values : jsobj) (st : state) :
  formatted_date format_date (prop data "fechaNacimiento") = Some fechaNacimiento →
  let loaded := form (final (fetchSocio format_date (Some sid) (SingleData (Some data)) st)) in
  (∀ k, k ∈ ["isObservado"; "observacion"; "isPaymentObserved"; "paymentObservationDetail"] →
        prop values k = prop loaded k) →
  let row := dataToSave values in
  prop row "isObservado" = js_or (prop data "isObservado") (JBool false)
  ∧ prop row "is_payment_observed" = js_or (prop data "is_payment_observed") (JBool false)
  ∧ (if truthy (prop data "isObservado")
     then prop row "observacion" = js_or (prop data "observacion") (JStr "")
          ∧ (truthy (prop data "observacion") = true →
             prop row "observacion" = prop data "observacion")
     else prop row "observacion" = JNull)
  ∧ (if truthy (prop data "is_payment_observed")
     then prop row "payment_observation_detail"
          = js_or (prop data "payment_observation_detail") (JStr "")
          ∧ (truthy (prop data "payment_observation_detail") = true →
             prop row "payment_observation_detail" = prop data "payment_observation_detail")
     else prop row "payment_observation_detail" = JNull).
Proof.
  intros Hdate. cbv zeta. rewrite (fetchSocio_loaded sid data _ st Hdate).
  cbn [final form with_form with_form_errors]. intros Hagree.
  assert (prop values "isObservado" = js_or (prop data "isObservado") (JBool false)) as H1.
  { rewrite Hagree by (repeat first [apply list_elem_of_here | apply list_elem_of_further]).
    unfold prop at 1, loaded_values. by lookup_inserts. }
  assert (prop values "observacion" = js_or (prop data "observacion") (JStr "")) as H2.
  { rewrite Hagree by (repeat first [apply list_elem_of_here | apply list_elem_of_further]).
    unfold prop at 1, loaded_values. by lookup_inserts. }
  assert (prop values "isPaymentObserved"
          = js_or (prop data "is_payment_observed") (JBool false)) as H3.
  { rewrite Hagree by (repeat first [apply list_elem_of_here | apply list_elem_of_further]).
    unfold prop at 1, loaded_values. by lookup_inserts. }
  assert (prop values "paymentObservationDetail"
          = js_or (prop data "payment_observation_detail") (JStr "")) as H4.
  { rewrite Hagree by (repeat first [apply list_elem_of_here | apply list_elem_of_further]).
    unfold prop at 1, loaded_values. by lookup_inserts. }
  destruct (dataToSave_columns values) as (_ & _ & Hp & Hpd & Ho & Hrest).
  assert (∀ v, truthy (js_or v (JBool false)) = truthy v) as Hflag.
  { intros v. unfold js_or. by destruct (truthy v) eqn:E. }
  assert (∀ v d, truthy v = true → js_or v d = v) as Hkeep.
  { intros v d E. unfold js_or. by rewrite E. }
  split_and!.
  - unfold prop at 1. rewrite Hrest.
    + exact H1.
    + intros Hin. repeat (apply elem_of_cons in Hin as [Hin|Hin]; [discriminate Hin|]).
      by apply elem_of_nil in Hin.
  - unfold prop at 1. by rewrite Hp, H3.
  - assert (prop (dataToSave values) "observacion"
            = if truthy (prop data "isObservado")
              then js_or (prop data "observacion") (JStr "") else JNull) as ->.
    { unfold prop at 1. by rewrite Ho, H1, Hflag, H2. }
    destruct (truthy (prop data "isObservado")); [|reflexivity].
    split; [reflexivity | apply Hkeep].
  - assert (prop (dataToSave values) "payment_observation_detail"
            = if truthy (prop data "is_payment_observed")
              then js_or (prop data "payment_observation_detail") (JStr "") else JNull) as ->.
    { unfold prop at 1. by rewrite Hpd, H3, Hflag, H4. }
    destruct (truthy (prop data "is_payment_observed")); [|reflexivity].
    split; [reflexivity | apply Hkeep].
Qed.

End SaveFacts.

Section LocalityFacts.
Import SocioTitularRegistrationForm SocioTitularRegistrationFormData.

Lemma first_occurrences_elem {A} `{EqDecision A} (x : A) l :
  x ∈ first_occurrences l ↔ x ∈ l.
Proof.
  induction l as [|y l IH]; simpl; [tauto|].
  rewrite !elem_of_cons, filter_elem, IH, bool_decide_eq_true.
  destruct (decide (x = y)); tauto.
Qed.

Lemma first_occurrences_NoDup {A} `{EqDecision A} (l : list A) :
  NoDup (first_occurrences l).
Proof.
  induction l as [|y l IH]; simpl; [apply NoDup_nil_2|].
  apply NoDup_cons. split; [|by apply filter_NoDup].
  rewrite filter_elem, bool_decide_eq_true. tauto.
Qed.

Lemma truthy_strings_NoDup l : NoDup l → NoDup (PartnerDocuments.truthy_strings l).
Proof.
  induction 1 as [|y l Hy Hl IH]; [apply NoDup_nil_2|].
  unfold PartnerDocuments.truthy_strings in *. simpl.
  destruct (truthy_str y) eqn:Hty; [|exact IH].
  destruct y as [s|]; [|discriminate]. simpl.
  apply NoDup_cons. split; [|exact IH].
  intros Hin. apply Hy. apply list_elem_of_omap in Hin as (v & Hv & Hs).
  destruct (truthy_str v); [|discriminate]. by subst v.
Qed.

(** The locality suggestions of the form.  After a query that answered with
    rows they are the non-empty localities of the rows, each once; after an
    error (logged and raised as a toast) or an answer without data they are
    kept.  The loading flag is reset in every case, and nothing else
    changes. *)
Lemma fetchUniqueLocalities_suggestions
    (r : db_result (option (list (option string)))) (c : component) :
  let run := fetchUniqueLocalities r c in
  res run = Normal tt
  ∧ isLocalitiesLoading (final run) = false
  ∧ registration (final run) = registration c
  ∧ isDniSearching (final run) = isDniSearching c
  ∧ match r with
    | DbData (Some data) =>
        NoDup (localitiesSuggestions (final run))
        ∧ (∀ x, x ∈ localitiesSuggestions (final run) ↔ x ≠ "" ∧ Some x ∈ data)
        ∧ emitted run = [EDbSelect "socio_titulares"]
    | DbData None =>
        localitiesSuggestions (final run) = localitiesSuggestions c
        ∧ emitted run = [EDbSelect "socio_titulares"]
    | DbError _ =>
        localitiesSuggestions (final run) = localitiesSuggestions c
        ∧ emitted run = [EDbSelect "socio_titulares";
                         EConsoleError "Error fetching unique localities:";
                         EToast ToastError "Error al cargar localidades"]
    end.
Proof.
  cbv zeta. destruct r as [m|[data|]]; split_and!; try reflexivity.
  - cbn. apply truthy_strings_NoDup, first_occurrences_NoDup.
  - intros x. cbn. by rewrite truthy_strings_elem, first_occurrences_elem.
Qed.

End LocalityFacts.

Section ConfirmFacts.
Import SocioTitularRegistrationForm SocioTitularRegistrationFormData.

(** Property X20.  How a confirmed submission ends.  It always returns with
    [isConfirmingSubmission] reset.  When the DNI check or the write fails,
    the error is logged and raised as a toast, and the form values, the
    pending data and the dialog are kept, so that the submission can be
    confirmed again.  A registration that succeeds resets the form to its
    default values, clears the pending data, closes the dialog and goes back
    to the personal tab; an update that succeeds notifies the parent
    ([onSuccess], then [onClose]) and keeps the form. *)
Theorem handleConfirmSubmit_outcome (socioId : option string)
    (dniCheck : db_result (list string)) (writeRes : db_result unit)
    (st : state) (data : jsobj) :
  dataToConfirm st = Some data →
  let r := handleConfirmSubmit socioId dniCheck writeRes st in
  res r = Normal tt
  ∧ isConfirmingSubmission (final r) = false
  ∧ match dniCheck, writeRes with
    | DbData existingSocios, DbData _ =>
        if isDuplicateDni socioId existingSocios then True
        else
          match socioId with
          | None =>
              form (final r) = defaultValues
              ∧ form_errors (final r) = ∅
              ∧ dataToConfirm (final r) = None
              ∧ isConfirmDialogOpen (final r) = false
              ∧ activeTab (final r) = TabPersonal
          | Some _ =>
              form (final r) = form st
              ∧ service_calls (emitted r) = [("onSuccess", ∅); ("onClose", ∅)]
          end
    | DbData existingSocios, DbError _ =>
        if isDuplicateDni socioId existingSocios then True
        else
          form (final r) = form st
          ∧ dataToConfirm (final r) = Some data
          ∧ isConfirmDialogOpen (final r) = isConfirmDialogOpen st
          ∧ service_calls (emitted r) = []
          ∧ EConsoleError "Error al guardar el socio:" ∈ emitted r
          ∧ EToast ToastError "Error al guardar socio" ∈ emitted r
    | DbError _, _ =>
        form (final r) = form st
        ∧ dataToConfirm (final r) = Some data
        ∧ isConfirmDialogOpen (final r) = isConfirmDialogOpen st
        ∧ emitted r = [EDbSelect "socio_titulares";
                       EConsoleError "Error al guardar el socio:";
                       EToast ToastError "Error al guardar socio"]
    end.
Proof.
  intros Hdata. cbv zeta. unfold handleConfirmSubmit.
  destruct dniCheck as [m|existingSocios].
  - erewrite run_bind; [| apply run_get | rewrite Hdata; run].
    cbn [res final emitted]. split_and!; try reflexivity. cbn. by rewrite Hdata.
  - destruct (isDuplicateDni socioId existingSocios) eqn:Hdup.
    + erewrite run_bind; [| apply run_get | rewrite Hdata; run].
      destruct writeRes; by split_and!.
    + destruct socioId as [sid|], writeRes as [m|[]];
        (erewrite run_bind; [| apply run_get | rewrite Hdata; run]);
        cbn [res final emitted]; split_and!; try reflexivity;
        try (cbn; by rewrite Hdata);
        try (simpl; rewrite !elem_of_cons; tauto).
Qed.

(** The validation guard of the form.  A submission that fails validation
    raises the validation toast and stores nothing to confirm: the pending
    data and the dialog are kept as they are, and the tab shown is the
    address tab exactly when the first field in error is one of the six
    dwelling fields.  A submission that passes stores the submitted values
    and opens the confirmation dialog, and writes nothing to the backend.  In
    both cases a detail whose flag is not set is cleared in the form. *)
Lemma onSubmit_validation_guard (values : jsobj) (result : bool)
    (firstErrorField : option string) (st : state) :
  let r := onSubmit values result firstErrorField st in
  res r = Normal tt
  ∧ (∀ k, k ∉ ["observacion"; "paymentObservationDetail"] →
          form (final r) !! k = form st !! k)
  ∧ (truthy (prop values "isObservado") = false →
     form (final r) !! "observacion" = Some JNull)
  ∧ (truthy (prop values "isPaymentObserved") = false →
     form (final r) !! "paymentObservationDetail" = Some JNull)
  ∧ if result then
      dataToConfirm (final r) = Some values
      ∧ isConfirmDialogOpen (final r) = true
      ∧ emitted r = []
    else
      dataToConfirm (final r) = dataToConfirm st
      ∧ isConfirmDialogOpen (final r) = isConfirmDialogOpen st
      ∧ emitted r = [EToast ToastError "Error de validación"]
      ∧ match firstErrorField with
        | Some field =>
            if String.eqb field "" then activeTab (final r) = activeTab st
            else (activeTab (final r) = TabAddress ↔ field ∈ address_fields)
                 ∧ focused (final r) = Some field
        | None => activeTab (final r) = activeTab st
        end.
Proof.
  cbv zeta. unfold onSubmit.
  destruct (truthy (prop values "isObservado")) eqn:H1,
           (truthy (prop values "isPaymentObserved")) eqn:H2;
    cbn [negb when];
    (destruct result; cbn [negb];
     [ | destruct firstErrorField as [field|];
         [ cbn [truthy_str]; destruct (String.eqb field "") eqn:Hf; cbn [negb];
           [ | destruct (includes_str address_fields field) eqn:Haddr ] | ] ]);
    (split_and!; try reflexivity; try discriminate;
     try (intros k Hk; apply not_elem_of_cons in Hk as [? Hk];
          apply not_elem_of_cons in Hk as [? _]; cbn;
          rewrite ?lookup_insert_ne by done; reflexivity);
     try (intros _; cbn; rewrite ?lookup_insert_eq; rewrite ?lookup_insert_ne by discriminate;
          rewrite ?lookup_insert_eq; reflexivity);
     try (cbn; rewrite <- includes_str_elem, Haddr; split; (done || discriminate))).
Qed.

End ConfirmFacts.

(** * The lots of a socio *)

Section LotFacts.
Import SocioStatusAndDocuments.

Lemma or_na_listed v :
  or_na v ≠ "N/A" ↔ ∃ s, v = Some s ∧ s ≠ "" ∧ s ≠ "N/A".
Proof.
  unfold or_na. destruct v as [s|]; simpl.
  - destruct (String.eqb_spec s "") as [->|Hne]; simpl.
    + split; [done | intros (s & [= <-] & ? & _); done].
    + split; [intros H; by exists s | intros (s' & [= <-] & _ & ?); done].
  - split; [done | intros (s & ? & _); done].
Qed.

Lemma initialLots_cases socioId data :
  (initialLots socioId data = primaryLot socioId data :: mockLots data
   ∧ (or_na (row_mz data) ≠ "N/A" ∨ or_na (row_lote data) ≠ "N/A"))
  ∨ (initialLots socioId data = mockLots data
     ∧ or_na (row_mz data) = "N/A" ∧ or_na (row_lote data) = "N/A").
Proof.
  unfold initialLots. cbn [mz lote primaryLot].
  destruct (String.eqb_spec (or_na (row_mz data)) "N/A") as [Hm|Hm];
    destruct (String.eqb_spec (or_na (row_lote data)) "N/A") as [Hl|Hl]; cbn [negb orb];
    [right | left | left | left]; split; auto.
Qed.

Lemma initial_selection socioId data :
  socioId ≠ "mock-1" → socioId ≠ "mock-2" →
  NoDup (id <$> initialLots socioId data)
  ∧ NoDup (initialSelected (initialLots socioId data))
  ∧ (∀ x, x ∈ initialSelected (initialLots socioId data) →
          x ∈ id <$> initialLots socioId data)
  ∧ ∀ lot, lot ∈ initialLots socioId data →
           (id lot ∈ initialSelected (initialLots socioId data) ↔ is_lote_medido lot = true).
Proof.
  intros H1 H2.
  destruct (initialLots_cases socioId data) as [[-> Hlisted] | (-> & Hm & Hl)].
  - unfold initialSelected. simpl.
    assert (NoDup [socioId; "mock-1"; "mock-2"]) as Hnd.
    { apply NoDup_cons_2.
      - rewrite !elem_of_cons, elem_of_nil. intros [?|[?|[]]]; congruence.
      - apply NoDup_cons_2; [|apply NoDup_singleton].
        rewrite !elem_of_cons, elem_of_nil. intros [?|[]]; discriminate. }
    destruct (default false (row_is_lote_medido data)) eqn:Hmeasured; simpl.
    + split_and!.
      * exact Hnd.
      * apply NoDup_cons_2; [|apply NoDup_singleton].
        rewrite !elem_of_cons, elem_of_nil. intros [?|[]]; congruence.
      * intros x. rewrite !elem_of_cons, !elem_of_nil. tauto.
      * intros lot Hlot.
        repeat (apply elem_of_cons in Hlot as [->|Hlot]);
          [| | | by apply elem_of_nil in Hlot];
          simpl; rewrite ?Hmeasured;
          rewrite !elem_of_cons, elem_of_nil; split; try tauto; try discriminate;
          try (intros [?|[?|[]]]; congruence); try (intros [?|[]]; congruence).
    + split_and!.
      * exact Hnd.
      * apply NoDup_singleton.
      * intros x. rewrite !elem_of_cons, !elem_of_nil. tauto.
      * intros lot Hlot.
        repeat (apply elem_of_cons in Hlot as [->|Hlot]);
          [| | | by apply elem_of_nil in Hlot];
          simpl; rewrite ?Hmeasured;
          rewrite !elem_of_cons, elem_of_nil; split; try tauto; try discriminate;
          try (intros [?|[?|[]]]; congruence); try (intros [?|[]]; congruence).
  - unfold initialSelected. simpl. split_and!.
    + apply NoDup_cons_2; [|apply NoDup_singleton].
      rewrite !elem_of_cons, elem_of_nil. intros [?|[]]; discriminate.
    + apply NoDup_singleton.
    + intros x. rewrite !elem_of_cons, !elem_of_nil. tauto.
    + intros lot Hlot.
      repeat (apply elem_of_cons in Hlot as [->|Hlot]);
        [| | by apply elem_of_nil in Hlot];
        simpl; rewrite !elem_of_cons, elem_of_nil;
        split; try tauto; try discriminate;
        try (intros [?|[]]; congruence).
Qed.

Lemma fetchStatusAndLot_loaded socioId data st :
  socioId ≠ "" →
  fetchStatusAndLot socioId (DbData (Some data)) st
  = RunResult (Normal tt)
      {| isLoading := false; isSubmitting := isSubmitting st;
         lots := initialLots socioId data;
         selectedLotIds := initialSelected (initialLots socioId data) |}
      [EDbSelect "socio_titulares"].
Proof.
  intros Hid. unfold fetchStatusAndLot.
  rewrite (proj2 (String.eqb_neq socioId "")) by done. reflexivity.
Qed.

(** Property X22.  The lots shown for a socio once its row is loaded.  The lot of the socio
    (the primary lot, carrying the id of the socio) is listed exactly when the
    row has a block or a lot number; it is the only primary lot.  With a socio
    id that is not one of the two simulated ids, the lots have distinct ids
    and the initial selection is exactly the measured lots. *)
Theorem fetchStatusAndLot_initial (socioId : string) (data : StatusRow) (st : state) :
  socioId ≠ "" →
  let st' := final (fetchStatusAndLot socioId (DbData (Some data)) st) in
  isLoading st' = false
  ∧ (primaryLot socioId data ∈ lots st' ↔
     (∃ s, row_mz data = Some s ∧ s ≠ "" ∧ s ≠ "N/A")
     ∨ (∃ s, row_lote data = Some s ∧ s ≠ "" ∧ s ≠ "N/A"))
  ∧ (∀ lot, lot ∈ lots st' → isPrimary lot = true → lot = primaryLot socioId data)
  ∧ (socioId ≠ "mock-1" → socioId ≠ "mock-2" →
     selection_ok st'
     ∧ ∀ lot, lot ∈ lots st' → (id lot ∈ selectedLotIds st' ↔ is_lote_medido lot = true)).
Proof.
  intros Hid. cbv zeta.
  rewrite (fetchStatusAndLot_loaded socioId data st Hid).
  cbn [final isLoading lots selectedLotIds].
  rewrite <- !or_na_listed.
  assert (∀ lot, lot ∈ mockLots data → isPrimary lot = false) as Hmock.
  { intros lot Hlot. unfold mockLots in Hlot.
    repeat (apply elem_of_cons in Hlot as [->|Hlot]; [reflexivity|]).
    by apply elem_of_nil in Hlot. }
  split_and!.
  - reflexivity.
  - destruct (initialLots_cases socioId data) as [[-> Hlisted] | (-> & Hm & Hl)].
    + split; [intros _; exact Hlisted | intros _; apply list_elem_of_here].
    + split; [|intros [H|H]; congruence].
      intros Hin. apply Hmock in Hin. discriminate Hin.
  - intros lot Hlot Hprimary.
    destruct (initialLots_cases socioId data) as [[Heq Hlisted] | (Heq & Hm & Hl)];
      rewrite Heq in Hlot.
    + apply elem_of_cons in Hlot as [->|Hlot]; [reflexivity|].
      apply Hmock in Hlot. congruence.
    + apply Hmock in Hlot. congruence.
  - intros H1 H2. destruct (initial_selection socioId data H1 H2) as (? & ? & ? & ?).
    unfold selection_ok. cbn [lots selectedLotIds]. by split_and!.
Qed.

Lemma handleBulkUpdate_run socioId updateRes st :
  handleBulkUpdate socioId updateRes st
  = match List.find isPrimary (lots st) with
    | None =>
        RunResult (Normal tt) (setIsSubmitting false (setIsSubmitting true st))
          [EToast ToastError "Error"]
    | Some primary =>
        let request :=
          EDbUpdate "socio_titulares" (JStr socioId)
            {[ "is_lote_medido" := JBool (includes_str (selectedLotIds st) (id primary)) ]} in
        match updateRes with
        | DbError _ =>
            RunResult (Normal tt) (setIsSubmitting false (setIsSubmitting true st))
              [request; EConsoleError "Error al guardar el estado:";
               EToast ToastError "Error al guardar estado"]
        | DbData _ =>
            RunResult (Normal tt)
              (setIsSubmitting false
                 (setLots ((fun lot => with_is_lote_medido
                                         (includes_str (selectedLotIds st) (id lot)) lot)
                           <$> lots st)
                    (setIsSubmitting true st)))
              [request; EToast ToastSuccess "Estado de lotes actualizado"]
        end
    end.
Proof.
  unfold handleBulkUpdate. rewrite bind_modify.
  destruct (List.find isPrimary (lots st)) as [primary|] eqn:Hfind;
    [destruct updateRes as [m|[]]|];
    (erewrite run_bind;
     [| apply run_get
      | cbv beta; cbn [lots setIsSubmitting selectedLotIds]; rewrite Hfind; run ];
     reflexivity).
Qed.


(** Property X24.  Saving right after loading changes nothing.  For a socio whose id is
    not one of the simulated ids: if its row has a block or a lot number, the
    update sent carries the measured flag of the row ([null] read as [false])
    and, whatever the backend answers, the lots are the ones loaded; if the row
    has neither, nothing is sent at all and only the error toast is raised. *)
Theorem handleBulkUpdate_after_load (socioId : string) (data : StatusRow)
    (updateRes : db_result unit) (st : state) :
  socioId ≠ "" → socioId ≠ "mock-1" → socioId ≠ "mock-2" →
  let loaded := final (fetchStatusAndLot socioId (DbData (Some data)) st) in
  let r := handleBulkUpdate socioId updateRes loaded in
  lots (final r) = lots loaded
  ∧ if bool_decide (or_na (row_mz data) = "N/A" ∧ or_na (row_lote data) = "N/A")
    then emitted r = [EToast ToastError "Error"]
    else ∃ rest,
        emitted r
        = EDbUpdate "socio_titulares" (JStr socioId)
            {[ "is_lote_medido" := JBool (default false (row_is_lote_medido data)) ]} :: rest
        ∧ ∀ table key row, EDbUpdate table key row ∉ rest.
Proof.
  intros Hid H1 H2. cbv zeta.
  destruct (initial_selection socioId data H1 H2) as (_ & _ & _ & Hmeasured).
  rewrite (fetchStatusAndLot_loaded socioId data st Hid). cbn [final].
  rewrite handleBulkUpdate_run. cbn [lots selectedLotIds].
  assert (∀ lot, lot ∈ initialLots socioId data →
                 includes_str (initialSelected (initialLots socioId data)) (id lot)
                 = is_lote_medido lot) as Hflag.
  { intros lot Hlot. apply eq_true_iff_eq. rewrite includes_str_elem. by apply Hmeasured. }
  destruct (initialLots_cases socioId data) as [[Hlots Hlisted] | (Hlots & Hm & Hl)].
  - rewrite bool_decide_eq_false_2 by (intros [? ?]; destruct Hlisted; congruence).
    assert (List.find isPrimary (initialLots socioId data) = Some (primaryLot socioId data))
      as -> by (by rewrite Hlots).
    rewrite (Hflag (primaryLot socioId data)) by (rewrite Hlots; apply list_elem_of_here).
    cbn [is_lote_medido primaryLot].
    destruct updateRes as [m|[]]; cbn [final emitted lots setIsSubmitting setLots].
    + split; [reflexivity|]. eexists. split; [reflexivity|].
      intros table key row Hin.
      repeat (apply elem_of_cons in Hin as [Hin|Hin]; [discriminate Hin|]).
      by apply elem_of_nil in Hin.
    + split.
      * etrans; [|apply list_fmap_id]. apply list_fmap_ext. intros i lot Hi.
        rewrite (Hflag lot) by (by eapply list_elem_of_lookup_2). by destruct lot.
      * eexists. split; [reflexivity|].
        intros table key row Hin.
        repeat (apply elem_of_cons in Hin as [Hin|Hin]; [discriminate Hin|]).
        by apply elem_of_nil in Hin.
  - rewrite bool_decide_eq_true_2 by done.
    assert (List.find isPrimary (initialLots socioId data) = None) as ->
      by (by rewrite Hlots).
    split; reflexivity.
Qed.

Lemma count_filter_app (x : string) l l' :
  length (List.filter (String.eqb x) (l ++ l'))
  = (length (List.filter (String.eqb x) l) + length (List.filter (String.eqb x) l'))%nat.
Proof. by rewrite List.filter_app, length_app. Qed.

(** Selecting and deselecting a lot.  Selecting appends the id without
    looking whether it is already selected: it then occurs once more.
    Deselecting removes every occurrence.  The other ids, and the lots, are
    left as they are. *)
Lemma handleSelectLot_occurrences (lotId : string) (checked : bool) (st : state) :
  let st' := final (handleSelectLot lotId checked st) in
  let occurrences x l := length (List.filter (String.eqb x) l) in
  lots st' = lots st
  ∧ occurrences lotId (selectedLotIds st')
    = (if checked then S (occurrences lotId (selectedLotIds st)) else O)
  ∧ ∀ x, x ≠ lotId →
         occurrences x (selectedLotIds st') = occurrences x (selectedLotIds st).
Proof.
  cbv zeta. cbn [final handleSelectLot modify lots selectedLotIds setSelectedLotIds].
  split_and!; [reflexivity | |].
  - destruct checked.
    + rewrite count_filter_app. simpl. rewrite String.eqb_refl. simpl. lia.
    + induction (selectedLotIds st) as [|y l IH]; [reflexivity|]. simpl.
      destruct (String.eqb_spec y lotId) as [->|Hne]; simpl; [exact IH|].
      rewrite (proj2 (String.eqb_neq lotId y)) by done. exact IH.
  - intros x Hx. destruct checked.
    + rewrite count_filter_app. simpl.
      rewrite (proj2 (String.eqb_neq x lotId)) by done. simpl. lia.
    + induction (selectedLotIds st) as [|y l IH]; [reflexivity|]. simpl.
      destruct (String.eqb_spec y lotId) as [->|Hne]; simpl.
      * rewrite (proj2 (String.eqb_neq x lotId)) by done. exact IH.
      * destruct (String.eqb x y); simpl; by rewrite IH.
Qed.

Lemma all_selected_iff (ids sel : list string) :
  NoDup ids → NoDup sel → (∀ x, x ∈ sel → x ∈ ids) →
  length sel = length ids ↔ ∀ x, x ∈ ids → x ∈ sel.
Proof.
  intros Hids Hsel Hsub.
  assert (sel ⊆+ ids) as Hms by (by apply NoDup_submseteq).
  split.
  - intros Hlen x Hx.
    assert (sel ≡ₚ ids) as Hp by (apply submseteq_length_Permutation; [done | lia]).
    by rewrite Hp.
  - intros Hall. apply Nat.le_antisymm; [by apply submseteq_length|].
    apply submseteq_length. by apply NoDup_submseteq.
Qed.

(** Property X25.  The selection as the check boxes use it.  When the lots have distinct
    ids and the selection names lots of the list, each once, this stays so
    after a lot is toggled (selected when it is not, deselected when it is),
    after all lots are selected or deselected at once, and after a save; and
    then the header box is checked exactly when there are lots and every lot
    is selected. *)
Theorem selection_ok_preserved (st : state) :
  selection_ok st →
  (∀ lotId, lotId ∈ id <$> lots st →
     selection_ok
       (final (handleSelectLot lotId (negb (includes_str (selectedLotIds st) lotId)) st)))
  ∧ (∀ checked, selection_ok (final (handleSelectAll checked st)))
  ∧ (∀ socioId updateRes, selection_ok (final (handleBulkUpdate socioId updateRes st)))
  ∧ (allSelected st = true ↔
     lots st ≠ [] ∧ ∀ lot, lot ∈ lots st → id lot ∈ selectedLotIds st)
  ∧ (allSelected (final (handleSelectAll true st)) = negb (bool_decide (lots st = []))).
Proof.
  intros (Hids & Hsel & Hsub). split_and!.
  - intros lotId Hin.
    cbn [final handleSelectLot modify lots selectedLotIds setSelectedLotIds].
    unfold selection_ok. cbn [lots selectedLotIds].
    destruct (includes_str (selectedLotIds st) lotId) eqn:Hinc; cbn [negb].
    + split_and!; [done | by apply filter_NoDup |].
      intros x [Hx _]%filter_elem. by apply Hsub.
    + assert (lotId ∉ selectedLotIds st) as Hnot.
      { rewrite <- includes_str_elem. by rewrite Hinc. }
      split_and!; [done | |].
      * apply NoDup_app. split_and!; [done | | apply NoDup_singleton].
        intros x Hx ->%list_elem_of_singleton. by apply Hnot.
      * intros x [Hx | ->%list_elem_of_singleton]%elem_of_app; [by apply Hsub | done].
  - intros checked. unfold handleSelectAll.
    destruct checked;
      (erewrite run_bind; [| apply run_get | cbv beta; cbv iota; apply run_modify]);
      cbn [final]; unfold selection_ok; cbn [lots selectedLotIds setSelectedLotIds].
    + by split_and!.
    + split_and!; [done | apply NoDup_nil_2 |]. intros x Hx. by apply elem_of_nil in Hx.
  - intros socioId updateRes. rewrite handleBulkUpdate_run. unfold selection_ok.
    destruct (List.find isPrimary (lots st)) as [primary|];
      [destruct updateRes as [m|[]]|];
      cbn [final lots selectedLotIds setIsSubmitting setLots]; try by split_and!.
    rewrite <- list_fmap_compose.
    assert (id ∘ (λ lot, with_is_lote_medido (includes_str (selectedLotIds st) (id lot)) lot)
              <$> lots st
            = id <$> lots st) as -> by (by apply list_fmap_ext).
    by split_and!.
  - unfold allSelected. rewrite andb_true_iff, Nat.ltb_lt, Nat.eqb_eq.
    rewrite <- (length_fmap id (lots st)).
    rewrite (all_selected_iff _ _ Hids Hsel Hsub).
    split; intros [Hne Hall]; (split; [|
      first [ intros lot Hlot; apply Hall, list_elem_of_fmap; by exists lot
            | intros x (lot & -> & Hlot)%list_elem_of_fmap; by apply Hall ]]).
    + intros Hnil. rewrite Hnil in Hne. simpl in Hne. lia.
    + rewrite length_fmap. destruct (lots st); [done | simpl; lia].
  - unfold handleSelectAll.
    erewrite run_bind; [| apply run_get | cbv beta; cbv iota; apply run_modify].
    cbn [final]. unfold allSelected. cbn [lots selectedLotIds setSelectedLotIds].
    rewrite length_fmap, Nat.eqb_refl, andb_true_r.
    destruct (lots st); reflexivity.
Qed.

End LotFacts.

(** * Issuing receipts *)

Section ReceiptFacts.
Import RecibosPage RecibosPageSearch.
Variable Number : jsv → jsv.
Variable today : string.

Lemma onSubmit_refused_run values r st :
  match clientData st with
  | Some client => negb (truthy (prop client "id")) || String.eqb (correlative st) "" = true
  | None => True
  end →
  onSubmit Number today values r st
  = RunResult (Normal tt) st [EToast ToastDestructive "Datos Incompletos"].
Proof.
  intros Hguard. unfold onSubmit.
  destruct (clientData st) as [client|] eqn:Hclient;
    (erewrite run_bind; [| apply run_get | rewrite Hclient; run]; reflexivity).
Qed.

(** The state a submission leaves when its three steps succeed. *)
Lemma onSubmit_issued values r st client :
  clientData st = Some client →
  truthy (prop client "id") = true →
  correlative st ≠ "" →
  (∃ a b c, pdf r = HttpOk a ∧ saved r = HttpOk b ∧ income r = HttpOk c) →
  clientData (final (onSubmit Number today values r st)) = None
  ∧ correlative (final (onSubmit Number today values r st))
    = match nextCorrelative r with
      | HttpOk next => next
      | HttpThrows _ => correlative st
      end.
Proof.
  intros Hclient Hid Hcorr (a & b & c & Hpdf & Hsaved & Hincome).
  apply String.eqb_neq in Hcorr.
  unfold onSubmit, submit_steps, loadCorrelative_settled, settle.
  destruct r as [rp rs ri upd [m3|nxt]];
    cbn [pdf saved income socioUpdate nextCorrelative] in *; subst rp rs ri.
  all: destruct (truthy (prop values "is_payment_observed")) eqn:Hobs; destruct upd;
    (erewrite run_bind; [| apply run_get | rewrite Hclient; run]);
    split; reflexivity.
Qed.

(** Property X26.  The steps of a submission and where they stop.  With a client that has
    an id and a correlative, the PDF is generated, then saved, then the income
    is registered, each step only if the one before succeeded.  When a step
    fails, nothing after it is called, no socio is updated, the error is
    raised as a toast, and the client, the form and the correlative are kept.
    When all succeed, the socio is marked as observed exactly when the payment
    is observed, the form is reset, the client is cleared and the next
    correlative is asked for: it replaces the current one if the request
    succeeds, and the current one stays if it fails.  The handler always
    returns with [isSubmitting] reset. *)
Theorem onSubmit_steps (values : jsobj) (r : responses) (st : state) (client : jsobj) :
  clientData st = Some client →
  truthy (prop client "id") = true →
  correlative st ≠ "" →
  let run := onSubmit Number today values r st in
  let kept :=
    clientData (final run) = Some client
    ∧ form (final run) = form st
    ∧ correlative (final run) = correlative st
    ∧ EToast ToastDestructive "Error al Generar Recibo" ∈ emitted run
    ∧ ∀ table key row, EDbUpdate table key row ∉ emitted run in
  res run = Normal tt
  ∧ isSubmitting (final run) = false
  ∧ match pdf r, saved r, income r with
    | HttpThrows _, _, _ =>
        (service_calls (emitted run)).*1 = ["generateReceiptPdf"] ∧ kept
    | HttpOk _, HttpThrows _, _ =>
        (service_calls (emitted run)).*1 = ["generateReceiptPdf"; "saveReceiptPdfToSupabase"]
        ∧ kept
    | HttpOk _, HttpOk _, HttpThrows _ =>
        (service_calls (emitted run)).*1
        = ["generateReceiptPdf"; "saveReceiptPdfToSupabase"; "createIncomeFromBoleta"]
        ∧ kept
    | HttpOk _, HttpOk _, HttpOk _ =>
        (service_calls (emitted run)).*1
        = ["generateReceiptPdf"; "saveReceiptPdfToSupabase"; "createIncomeFromBoleta";
           "fetchNextReceiptCorrelative"]
        ∧ clientData (final run) = None
        ∧ form (final run) = defaultValues today
        ∧ correlative (final run)
          = match nextCorrelative r with
            | HttpOk next => next
            | HttpThrows _ => correlative st
            end
        ∧ ((∃ key row, EDbUpdate "socio_titulares" key row ∈ emitted run)
           ↔ truthy (prop values "is_payment_observed") = true)
    end.
Proof.
  intros Hclient Hid Hcorr. cbv zeta.
  apply String.eqb_neq in Hcorr.
  unfold onSubmit, submit_steps, loadCorrelative_settled, settle.
  destruct r as [[m|[]] [m'|[]] [m''|[]] upd [m3|nxt]];
    cbn [pdf saved income socioUpdate nextCorrelative].
  all: try (erewrite run_bind; [| apply run_get | rewrite Hclient; run];
            cbn [res final emitted isSubmitting clientData form correlative
                 setIsSubmitting];
            split_and!; try reflexivity; try exact Hclient;
            [ simpl; rewrite !elem_of_cons; tauto
            | intros table key row Hin; simpl in Hin;
              repeat (apply elem_of_cons in Hin as [Hin|Hin]; [discriminate Hin|]);
              by apply elem_of_nil in Hin ]).
  all: destruct (truthy (prop values "is_payment_observed")) eqn:Hobs; destruct upd;
    (erewrite run_bind; [| apply run_get | rewrite Hclient; run]);
    cbn [res final emitted isSubmitting clientData form correlative
         setIsSubmitting setCorrelative setClientData form_reset];
    (split_and!; try reflexivity;
     split; [ try (intros _; reflexivity);
              intros (key & row & Hin); simpl in Hin;
              repeat (apply elem_of_cons in Hin as [Hin|Hin]; [discriminate Hin|]);
              by apply elem_of_nil in Hin
            | try discriminate;
              intros _; do 2 eexists; simpl; rewrite !elem_of_cons; eauto 10 ]).
Qed.

Lemma handleDniSearch_run found p :
  invalid_dni (prop (form (receipts p)) "dni") = false →
  let request := ECall "fetchClientByDocument" {[ "dni" := prop (form (receipts p)) "dni" ]} in
  let cleared :=
    form_reset (<["client_id" := JNull]> (<["client_name" := JStr ""]> (form (receipts p))))
               (setClientData None (receipts p)) in
  handleDniSearch found p
  = match found with
    | HttpThrows _ =>
        RunResult (Normal tt) {| receipts := cleared; isSearching := false |}
          [request; EToast ToastDestructive "Error de Búsqueda"]
    | HttpOk None =>
        RunResult (Normal tt) {| receipts := cleared; isSearching := false |}
          [request; EToast ToastWarning "Socio No Encontrado"]
    | HttpOk (Some c) =>
        if truthy (prop c "id") then
          RunResult (Normal tt)
            {| receipts :=
                 form_reset (<["client_id" := prop c "id"]>
                              (<["client_name" := prop c "razon_social"]> (form cleared)))
                            (setClientData (Some c) cleared);
               isSearching := false |}
            [request; EToast ToastDefault "Socio Encontrado"]
        else
          RunResult (Normal tt) {| receipts := cleared; isSearching := false |}
            [request; EToast ToastWarning "Socio No Encontrado"]
    end.
Proof.
  intros Hvalid. cbv zeta. unfold handleDniSearch.
  destruct found as [m|[c|]]; [| destruct (truthy (prop c "id")) eqn:Hid |];
    (erewrite run_bind; [| apply run_get | cbv beta zeta; rewrite Hvalid; run_cases];
     reflexivity).
Qed.

(** Property X27.  The search of a client.  With a DNI that is not a string of 8 characters
    only a warning is raised.  Otherwise the client held by the page and the
    two client fields of the form are cleared first, and one request is made:
    a client with an id is stored and fills the two fields; a missing client,
    a client without id or a failed request leave them cleared and raise a
    toast.  The search always returns, resets its flag, and touches no other
    form field, nor the correlative. *)
Theorem handleDniSearch_outcome (found : http_result (option jsobj)) (p : page) :
  let r := handleDniSearch found p in
  let dni := prop (form (receipts p)) "dni" in
  res r = Normal tt
  ∧ correlative (receipts (final r)) = correlative (receipts p)
  ∧ (∀ k, k ∉ ["client_name"; "client_id"] →
          form (receipts (final r)) !! k = form (receipts p) !! k)
  ∧ if invalid_dni dni then
      final r = p ∧ emitted r = [EToast ToastWarning "DNI Inválido"]
    else
      isSearching (final r) = false
      ∧ service_calls (emitted r) = [("fetchClientByDocument", {[ "dni" := dni ]})]
      ∧ match found with
        | HttpOk (Some c) =>
            if truthy (prop c "id") then
              clientData (receipts (final r)) = Some c
              ∧ form (receipts (final r)) !! "client_name" = Some (prop c "razon_social")
              ∧ form (receipts (final r)) !! "client_id" = Some (prop c "id")
            else
              clientData (receipts (final r)) = None
              ∧ form (receipts (final r)) !! "client_name" = Some (JStr "")
              ∧ form (receipts (final r)) !! "client_id" = Some JNull
        | _ =>
            clientData (receipts (final r)) = None
            ∧ form (receipts (final r)) !! "client_name" = Some (JStr "")
            ∧ form (receipts (final r)) !! "client_id" = Some JNull
        end.
Proof.
  cbv zeta.
  destruct (invalid_dni (prop (form (receipts p)) "dni")) eqn:Hvalid.
  - assert (handleDniSearch found p
            = RunResult (Normal tt) p [EToast ToastWarning "DNI Inválido"]) as ->.
    { unfold handleDniSearch.
      erewrite run_bind; [| apply run_get | cbv beta zeta; rewrite Hvalid; run].
      reflexivity. }
    by split_and!.
  - rewrite (handleDniSearch_run found p Hvalid). cbv zeta.
    destruct found as [m|[c|]]; [| destruct (truthy (prop c "id")) | ];
      cbn [res final emitted receipts isSearching clientData form correlative
           form_reset setClientData];
      (split_and!; try reflexivity;
       try (intros k Hk; apply not_elem_of_cons in Hk as [? Hk];
            apply not_elem_of_cons in Hk as [? _];
            by rewrite !lookup_insert_ne by done);
       try (by rewrite lookup_insert_eq);
       try (rewrite lookup_insert_ne by discriminate; by rewrite lookup_insert_eq)).
Qed.

(** Property X28.  No receipt for a client that was not found.  After a search with a
    valid DNI that finds no client with an id (also when a client was loaded
    before it), and after a submission that succeeded, a submission is
    refused: it raises the toast about incomplete data, calls no service and
    changes nothing. *)
Theorem onSubmit_needs_a_found_client (values : jsobj) (r : responses) :
  (∀ found p,
     invalid_dni (prop (form (receipts p)) "dni") = false →
     match found with
     | HttpOk (Some c) => truthy (prop c "id") = false
     | _ => True
     end →
     let searched := receipts (final (handleDniSearch found p)) in
     onSubmit Number today values r searched
     = RunResult (Normal tt) searched [EToast ToastDestructive "Datos Incompletos"])
  ∧ (∀ values0 r0 st client,
       clientData st = Some client → truthy (prop client "id") = true →
       correlative st ≠ "" →
       (∃ a b c, pdf r0 = HttpOk a ∧ saved r0 = HttpOk b ∧ income r0 = HttpOk c) →
       let issued := final (onSubmit Number today values0 r0 st) in
       onSubmit Number today values r issued
       = RunResult (Normal tt) issued [EToast ToastDestructive "Datos Incompletos"]).
Proof.
  split.
  - intros found p Hvalid Hnone. cbv zeta. apply onSubmit_refused_run.
    rewrite (handleDniSearch_run found p Hvalid). cbv zeta.
    destruct found as [m|[c|]]; [| rewrite Hnone |]; exact I.
  - intros values0 r0 st client Hclient Hid Hcorr (a & b & c & Hpdf & Hsaved & Hincome).
    cbv zeta. apply onSubmit_refused_run.
    destruct (onSubmit_issued values0 r0 st client Hclient Hid Hcorr) as [-> _]; [|exact I].
    by exists a, b, c.
Qed.

(** Property X29.  The number of the next receipt when the reload fails.  A submission
    that succeeds while the request for the next correlative fails leaves the
    correlative it has just used in the state; once the next client is typed
    in and found, the next submission passes the guard and hands that same
    correlative to the PDF generator. *)
Theorem correlative_after_failed_reload (values values' : jsobj) (r r' : responses)
    (st : state) (client client' : jsobj) (dni message : string) (searching : bool) :
  clientData st = Some client → truthy (prop client "id") = true →
  correlative st ≠ "" →
  (∃ a b c, pdf r = HttpOk a ∧ saved r = HttpOk b ∧ income r = HttpOk c) →
  nextCorrelative r = HttpThrows message →
  js_length dni = 8%nat →
  truthy (prop client' "id") = true →
  let issued := final (onSubmit Number today values r st) in
  let typed := final (setValue "dni" (JStr dni) issued) in
  let searched :=
    receipts (final (handleDniSearch (HttpOk (Some client'))
                       {| receipts := typed; isSearching := searching |})) in
  pdf_requests (emitted (onSubmit Number today values r st))
  = [receiptData (correlative st) client values]
  ∧ pdf_requests (emitted (onSubmit Number today values' r' searched))
    = [receiptData (correlative st) client' values'].
Proof.
  intros Hclient Hid Hcorr (a & b & c & Hpdf & Hsaved & Hincome) Hnext Hdni Hid'. cbv zeta.
  rewrite !onSubmit_pdf_requests, Hclient, Hid.
  rewrite (proj2 (String.eqb_neq _ _) Hcorr). cbn [negb orb].
  split; [reflexivity|].
  destruct (onSubmit_issued values r st client Hclient Hid Hcorr) as [_ Hkept];
    [by exists a, b, c|].
  rewrite Hnext in Hkept.
  set (issued := final (onSubmit Number today values r st)) in *.
  assert (invalid_dni
            (prop (form (receipts {| receipts := final (setValue "dni" (JStr dni) issued);
                                     isSearching := searching |})) "dni") = false) as Hvalid.
  { cbn [receipts final setValue modify form form_reset]. unfold prop.
    rewrite lookup_insert_eq. simpl. rewrite Hdni. by destruct dni. }
  rewrite (handleDniSearch_run _ _ Hvalid). cbv zeta. rewrite Hid'.
  cbn [final receipts clientData correlative form_reset setClientData setValue modify].
  rewrite Hid', Hkept, (proj2 (String.eqb_neq _ _) Hcorr). reflexivity.
Qed.

End ReceiptFacts.

(** * The page of the data table *)

Section PageResetFacts.
Import DataTable.
Context {Caller TData : Type}.

(** Property X30.  The page-reset effect of an uncontrolled table.  After it, the first row
    of the page lies inside the data, unless there is no data: a page past the
    data is replaced by the first page, a page inside the data is kept.  The
    page size, the row selection and the state of the parent are not touched,
    nothing is emitted, and running the effect again changes nothing. *)
Theorem reset_page_effect_uncontrolled (p : props Caller TData) (c : Caller) (i : internal) :
  pagination p = None → onPaginationChange p = None →
  let r := reset_page_effect p (c, i) in
  let shown := current_pagination p (snd (final r)) in
  res r = Normal tt
  ∧ emitted r = []
  ∧ fst (final r) = c
  ∧ internalRowSelection (snd (final r)) = internalRowSelection i
  ∧ pageSize shown = pageSize (internalPagination i)
  ∧ (data p = [] ∨ pageIndex shown * pageSize shown < Z.of_nat (length (data p)))
  ∧ (pageIndex (internalPagination i) * pageSize (internalPagination i)
       < Z.of_nat (length (data p)) →
     final r = (c, i))
  ∧ (data p ≠ [] →
     Z.of_nat (length (data p))
       <= pageIndex (internalPagination i) * pageSize (internalPagination i) →
     pageIndex shown = 0)
  ∧ reset_page_effect p (final r) = RunResult (Normal tt) (final r) [].
Proof.
  intros Hp Hs. cbv zeta.
  assert (∀ w, reset_page_effect p w
               = if (0 <? Z.of_nat (length (data p)))
                    && (Z.of_nat (length (data p))
                        <=? pageIndex (internalPagination (snd w))
                            * pageSize (internalPagination (snd w)))
                 then RunResult (Normal tt)
                        (fst w, {| internalPagination :=
                                     {| pageIndex := 0;
                                        pageSize := pageSize (internalPagination (snd w)) |};
                                   internalRowSelection := internalRowSelection (snd w) |}) []
                 else RunResult (Normal tt) w []) as Hrun.
  { intros w. unfold reset_page_effect, current_pagination, setPagination.
    rewrite Hp, Hs. cbn [default from_option id].
    destruct (_ && _) eqn:Hc;
      (erewrite run_bind;
       [| apply run_get | cbv beta zeta; cbn [default from_option id]; rewrite ?Hc; run];
       reflexivity). }
  unfold current_pagination. rewrite Hp. cbn [default from_option id].
  rewrite !Hrun. cbn [fst snd].
  destruct ((0 <? Z.of_nat (length (data p)))
            && (Z.of_nat (length (data p))
                <=? pageIndex (internalPagination i) * pageSize (internalPagination i)))
    eqn:Hout; cbn [res final emitted fst snd internalPagination internalRowSelection
                   pageIndex pageSize].
  - apply andb_true_iff in Hout as [Hpos%Z.ltb_lt Hpast%Z.leb_le].
    split_and!; try reflexivity.
    + right. lia.
    + intros Hin. lia.
    + replace (Z.of_nat (length (data p)) <=? 0 * pageSize (internalPagination i))
        with false by (symmetry; apply Z.leb_gt; lia).
      by rewrite andb_false_r.
  - split_and!; try reflexivity.
    + apply andb_false_iff in Hout as [Hempty%Z.ltb_ge | Hin%Z.leb_gt].
      * left. destruct (data p); [done | simpl in Hempty; lia].
      * right. exact Hin.
    + intros Hdata Hpast.
      apply andb_false_iff in Hout as [Hempty%Z.ltb_ge | Hin%Z.leb_gt]; [| lia].
      destruct (data p); [done | simpl in Hempty; lia].
    + by rewrite Hout.
Qed.

(** The same effect under a parent that keeps the pagination in a cell of
    its state and passes the cell and its setter to the table: the parent's
    page is reset in the same way, and the internal state of the table is not
    touched. *)
Lemma reset_page_effect_controlled (p : props Caller TData)
    (cell : Caller → PaginationState) (store : PaginationState → Caller → Caller)
    (c : Caller) (i : internal) :
  (∀ v c, cell (store v c) = v) →
  pagination p = Some (cell c) →
  onPaginationChange p = Some (λ u, modify (λ c, store (u (cell c)) c)) →
  let r := reset_page_effect p (c, i) in
  let shown := cell (fst (final r)) in
  res r = Normal tt
  ∧ emitted r = []
  ∧ snd (final r) = i
  ∧ pageSize shown = pageSize (cell c)
  ∧ (data p = [] ∨ pageIndex shown * pageSize shown < Z.of_nat (length (data p)))
  ∧ (pageIndex (cell c) * pageSize (cell c) < Z.of_nat (length (data p)) →
     final r = (c, i)).
Proof.
  intros Hcell Hp Hs. cbv zeta.
  assert (reset_page_effect p (c, i)
          = if (0 <? Z.of_nat (length (data p)))
               && (Z.of_nat (length (data p)) <=? pageIndex (cell c) * pageSize (cell c))
            then RunResult (Normal tt)
                   (store {| pageIndex := 0; pageSize := pageSize (cell c) |} c, i) []
            else RunResult (Normal tt) (c, i) []) as ->.
  { unfold reset_page_effect, current_pagination, setPagination.
    rewrite Hp, Hs. cbn [default from_option id].
    destruct (_ && _) eqn:Hc;
      (erewrite run_bind;
       [| apply run_get | cbv beta zeta; cbn [default from_option id]; rewrite ?Hc; run];
       reflexivity). }
  destruct ((0 <? Z.of_nat (length (data p)))
            && (Z.of_nat (length (data p)) <=? pageIndex (cell c) * pageSize (cell c)))
    eqn:Hout; cbn [res final emitted fst snd].
  - apply andb_true_iff in Hout as [Hpos%Z.ltb_lt Hpast%Z.leb_le].
    rewrite Hcell. cbn [pageIndex pageSize].
    split_and!; try reflexivity.
    + right. lia.
    + intros Hin. lia.
  - split_and!; try reflexivity.
    apply andb_false_iff in Hout as [Hempty%Z.ltb_ge | Hin%Z.leb_gt].
    + left. destruct (data p); [done | simpl in Hempty; lia].
    + right. exact Hin.
Qed.

End PageResetFacts.

(** * The fields of the form schema without a conditional rule *)

Section PlainFieldFacts.
Import Zod SocioTitularRegistrationForm.

(** The issues raised on a field that neither the refinement nor the second
    object of the intersection reports on, for any object schema. *)
Section PlainField.
Variables (shape addr : list (string * schema)) (callback : jsobj → list issue).
Variables (field : string) (s : schema).
Hypothesis shape_keys : NoDup shape.*1.
Hypothesis field_in_shape : (field, s) ∈ shape.
Hypothesis addr_keys : ∀ k s', (k, s') ∈ addr → k ≠ field.
Hypothesis callback_paths : ∀ data i, i ∈ callback data → path i ≠ [field].

Lemma plain_field_issue input :
  has_issue_on field (intersection (superRefine callback (z_object shape)) (z_object addr) input)
  ↔ messages (s (prop input field)) ≠ [].
Proof.
  unfold has_issue_on.
  assert (∀ i, i ∈ issues (z_object shape input) → path i = [field] →
               message i ∈ messages (s (prop input field))) as Hbase.
  { intros i (k & s' & m & Hks & Hm & ->)%z_object_issue Hpath. cbn in Hpath.
    injection Hpath as ->.
    by rewrite <- (shape_functional _ _ _ _ shape_keys Hks field_in_shape). }
  assert (∀ i, i ∈ issues (z_object addr input) → path i ≠ [field]) as Haddr.
  { intros i (k & s' & m & Hks & Hm & ->)%z_object_issue Hpath. cbn in Hpath.
    injection Hpath as ->. by apply (addr_keys _ _ Hks). }
  split.
  - intros (i & Hin & Hpath) Hnone.
    assert (i ∈ issues (z_object shape input) → False) as Hno.
    { intros Hi. pose proof (Hbase _ Hi Hpath) as Hm. rewrite Hnone in Hm.
      by apply elem_of_nil in Hm. }
    unfold intersection, superRefine in Hin. cbn [issues] in Hin.
    destruct (obj_status (z_object shape input)); cbn [issues] in Hin;
      rewrite ?elem_of_app in Hin;
      repeat match goal with
             | H : _ ∨ _ |- _ => destruct H
             end;
      first [ by apply Hno
            | by eapply Haddr
            | by eapply callback_paths ].
  - intros Hsome.
    destruct (messages (s (prop input field))) as [|m ms] eqn:Hm; [done|].
    exists {| path := [field]; message := m |}. split; [|reflexivity].
    assert ({| path := [field]; message := m |} ∈ issues (z_object shape input)) as Hin.
    { apply z_object_issue. exists field, s, m. split; [exact field_in_shape|].
      split; [|reflexivity]. rewrite Hm. apply list_elem_of_here. }
    unfold intersection, superRefine. cbn [issues].
    destruct (obj_status (z_object shape input)); cbn [issues];
      rewrite ?elem_of_app; tauto.
Qed.

End PlainField.

Lemma address_keys_plain k s :
  (k, s) ∈ [("regionVivienda", free_text); ("provinciaVivienda", free_text);
            ("distritoVivienda", free_text); ("direccionVivienda", free_text);
            ("mz", free_text); ("lote", free_text)] →
  k ≠ "dni" ∧ k ≠ "celular".
Proof.
  intros H.
  repeat (apply elem_of_cons in H as [E | H]; [injection E as -> _; split; discriminate|]).
  by apply elem_of_nil in H.
Qed.

Lemma conditional_details_plain data i :
  i ∈ conditional_details data → path i ≠ ["dni"] ∧ path i ≠ ["celular"].
Proof.
  unfold conditional_details.
  destruct (truthy (prop data "isObservado") && blank (prop data "observacion"));
    destruct (truthy (prop data "isPaymentObserved")
              && blank (prop data "paymentObservationDetail")); cbn [app];
    intros H;
    repeat (apply elem_of_cons in H as [-> | H]; [split; discriminate|]);
    by apply elem_of_nil in H.
Qed.

Lemma digit_is_ascii c n : Ascii.is_nat c = Some n → (N_of_ascii c < 0x80)%N.
Proof.
  destruct c as [[] [] [] [] [] [] [] []]; intros H; try discriminate H; reflexivity.
Qed.

(** On a string of digits the code units are the bytes. *)
Lemma js_length_digits s : all_digits s = true → js_length s = String.length s.
Proof.
  unfold js_length. induction s as [|c s IH]; [done|]. cbn [all_digits String.length].
  destruct (Ascii.is_nat c) as [n|] eqn:Hc; [|done]. intros Hs.
  rewrite (utf16_ascii _ _ (digit_is_ascii _ _ Hc)). cbn [length]. by rewrite IH.
Qed.

Lemma dni_messages v :
  messages (z_string [min_len 8 "El DNI debe tener 8 dígitos.";
                      max_len 8 "El DNI debe tener 8 dígitos.";
                      matching re_dni "El DNI debe ser 8 dígitos numéricos."] v) = []
  ↔ ∃ s, v = JStr s ∧ String.length s = 8%nat ∧ all_digits s = true.
Proof.
  destruct v as [| | | |s];
    try (split; [intros H; discriminate H | intros (s & H & _); discriminate H]).
  assert (messages (z_string [min_len 8 "El DNI debe tener 8 dígitos.";
                              max_len 8 "El DNI debe tener 8 dígitos.";
                              matching re_dni "El DNI debe ser 8 dígitos numéricos."]
                      (JStr s))
          = (if (js_length s <? 8)%nat then ["El DNI debe tener 8 dígitos."] else [])
            ++ (if (8 <? js_length s)%nat then ["El DNI debe tener 8 dígitos."] else [])
            ++ (if re_dni s then [] else ["El DNI debe ser 8 dígitos numéricos."])) as ->.
  { unfold z_string, checked, min_len, max_len, matching.
    cbn [messages omap list_omap].
    generalize (js_length s <? 8)%nat, (8 <? js_length s)%nat, (re_dni s).
    intros [] [] []; reflexivity. }
  unfold re_dni.
  destruct (all_digits s) eqn:Hd.
  - rewrite (js_length_digits _ Hd).
    destruct (String.length s <? 8)%nat eqn:H1.
    { split; [intros H; discriminate H|]. intros (s' & [= <-] & Hlen & _).
      apply Nat.ltb_lt in H1. lia. }
    destruct (8 <? String.length s)%nat eqn:H2.
    { split; [intros H; discriminate H|]. intros (s' & [= <-] & Hlen & _).
      apply Nat.ltb_lt in H2. lia. }
    apply Nat.ltb_ge in H1, H2.
    replace (String.length s =? 8)%nat with true by (symmetry; apply Nat.eqb_eq; lia).
    split; [|done]. intros _. exists s. split_and!; [done | lia | done].
  - rewrite andb_false_r. split.
    + intros H. destruct (js_length s <? 8)%nat, (8 <? js_length s)%nat; discriminate H.
    + intros (s' & [= <-] & _ & ?). congruence.
Qed.

Lemma celular_messages v :
  messages (refine celular_test "El celular debe contener solo números si está presente."
              (nullable (optional (z_string [max_len 15 "El celular es demasiado largo."]))) v)
  = []
  ↔ v = JUndefined ∨ v = JNull
    ∨ ∃ s, v = JStr s ∧ (String.length s <= 15)%nat ∧ all_digits s = true.
Proof.
  destruct v as [| | | |s].
  - split; [by left | done].
  - split; [by right; left | done].
  - split; [intros H; discriminate H | intros [H|[H|(s & H & _)]]; discriminate H].
  - split; [intros H; discriminate H | intros [H|[H|(s & H & _)]]; discriminate H].
  - assert (messages
              (refine celular_test "El celular debe contener solo números si está presente."
                 (nullable (optional (z_string [max_len 15 "El celular es demasiado largo."])))
                 (JStr s))
            = (if (15 <? js_length s)%nat then ["El celular es demasiado largo."] else [])
              ++ (if celular_test (JStr s) then []
                  else ["El celular debe contener solo números si está presente."])) as ->.
    { unfold refine, nullable, optional, z_string, checked, max_len, celular_test.
      cbn [messages status value omap list_omap].
      generalize (15 <? js_length s)%nat, (if String.eqb s "" then true else re_digits s).
      intros [] []; reflexivity. }
    cbn [celular_test].
    assert ((if String.eqb s "" then true else re_digits s) = all_digits s) as ->.
    { destruct (String.eqb_spec s "") as [->|Hne]; [done|]. unfold re_digits.
      replace (0 <? String.length s)%nat with true
        by (symmetry; apply Nat.ltb_lt; destruct s; [done | simpl; lia]).
      reflexivity. }
    destruct (all_digits s) eqn:Hd.
    + rewrite (js_length_digits _ Hd).
      destruct (15 <? String.length s)%nat eqn:Hlong.
      * split; [intros H; discriminate H|].
        intros [H|[H|(s' & [= <-] & Hlen & _)]]; try discriminate H.
        apply Nat.ltb_lt in Hlong. lia.
      * apply Nat.ltb_ge in Hlong. split; [|done]. intros _. right; right. by exists s.
    + split.
      * intros H. destruct (15 <? js_length s)%nat; discriminate H.
      * intros [H|[H|(s' & [= <-] & _ & ?)]]; try discriminate H. congruence.
Qed.

(** Property X21.  What the form accepts as a DNI and as a mobile number.  Validation
    reports an issue on [dni] unless it is a string of exactly 8 decimal
    digits, and on [celular] unless it is absent, null, or a string of at most
    15 characters that are all decimal digits (the empty string included),
    whatever the other fields hold. *)
Theorem formSchema_dni_and_celular (input : jsobj) :
  (has_issue_on "dni" (formSchema input) ↔
   ¬ ∃ s, prop input "dni" = JStr s ∧ String.length s = 8%nat ∧ all_digits s = true)
  ∧ (has_issue_on "celular" (formSchema input) ↔
     ¬ (prop input "celular" = JUndefined ∨ prop input "celular" = JNull
        ∨ ∃ s, prop input "celular" = JStr s ∧ (String.length s <= 15)%nat
               ∧ all_digits s = true)).
Proof.
  unfold formSchema, personalDataSchema, addressDataSchema.
  pose proof personal_shape_keys as Hkeys.
  assert (("dni", z_string [min_len 8 "El DNI debe tener 8 dígitos.";
                            max_len 8 "El DNI debe tener 8 dígitos.";
                            matching re_dni "El DNI debe ser 8 dígitos numéricos."])
          ∈ personal_shape) as Hdni
    by (repeat first [apply list_elem_of_here | apply list_elem_of_further]).
  assert (("celular",
           refine celular_test "El celular debe contener solo números si está presente."
             (nullable (optional (z_string [max_len 15 "El celular es demasiado largo."]))))
          ∈ personal_shape) as Hcel
    by (repeat first [apply list_elem_of_here | apply list_elem_of_further]).
  revert Hkeys Hdni Hcel. generalize personal_shape. intros shape Hkeys Hdni Hcel.
  split.
  - rewrite (plain_field_issue shape _ conditional_details "dni" _ Hkeys Hdni);
      [ rewrite <- dni_messages; reflexivity
      | intros k s Hks; apply (address_keys_plain k s Hks)
      | intros data i Hi; apply (conditional_details_plain data i Hi) ].
  - rewrite (plain_field_issue shape _ conditional_details "celular" _ Hkeys Hcel);
      [ rewrite <- celular_messages; reflexivity
      | intros k s Hks; apply (address_keys_plain k s Hks)
      | intros data i Hi; apply (conditional_details_plain data i Hi) ].
Qed.

End PlainFieldFacts.

(** * The further handlers on the sample inputs *)

Section Scenes.
Import Samples Scenarios.

Example refetch_sorts_localities :
  PartnerDocuments.localidades
    (final (PartnerDocuments.fetchAllData (DbData [member_row])
              (DbData [Some "SUR"; Some ""; None; Some "CENTRO"; Some "SUR"]) (DbData [])
              empty_page))
  = ["CENTRO"; "SUR"].
Proof. by vm_compute. Qed.

Example blank_query_shows_every_member :
  PartnerDocumentsPage.filteredData (fun s => s) blank_query_page = [member; plain_member].
Proof. by vm_compute. Qed.

Example plan_path : PartnerDocumentsPage.file_path plan_pathname = inr "s-1/plano-7.pdf".
Proof. by vm_compute. Qed.

(** The documents listed for the first member. *)
Lemma fetchAllData_documents_listed_witness :
  member ∈ PartnerDocuments.sociosConDocumentos
             (final (PartnerDocuments.fetchAllData (DbData [member_row]) (DbData [])
                       (DbData []) empty_page))
  ∧ plan_document ∈ PartnerDocuments.socio_documentos member
  ∧ PartnerDocuments.tipo_documento plan_document ∈ PartnerDocuments.allowedDocumentTypes.
Proof.
  assert (member ∈ PartnerDocuments.sociosConDocumentos
                     (final (PartnerDocuments.fetchAllData (DbData [member_row]) (DbData [])
                               (DbData []) empty_page))) as Hin.
  { apply list_elem_of_here. }
  assert (plan_document ∈ PartnerDocuments.socio_documentos member) as Hdoc.
  { apply list_elem_of_here. }
  split; [exact Hin|]. split; [exact Hdoc|].
  exact (proj1 (fetchAllData_documents_listed empty_page (DbData [member_row]) (DbData [])
                  (DbData []) member plan_document Hin Hdoc)).
Defined.

(** The first member without any income row is not paid. *)
Lemma fetchAllData_payment_status_witness :
  member ∈ PartnerDocuments.sociosConDocumentos
             (final (PartnerDocuments.fetchAllData (DbData [member_row]) (DbData [])
                       (DbData []) empty_page))
  ∧ PartnerDocuments.receipt_number (PartnerDocuments.paymentInfo member) = None.
Proof.
  assert (member ∈ PartnerDocuments.sociosConDocumentos
                     (final (PartnerDocuments.fetchAllData (DbData [member_row]) (DbData [])
                               (DbData []) empty_page))) as Hin.
  { apply list_elem_of_here. }
  split; [exact Hin|].
  destruct (fetchAllData_payment_status empty_page (DbData [member_row]) (DbData [])
              (DbData []) member Hin) as (ings & _ & Hcase).
  cbv zeta in Hcase.
  change (PartnerDocuments.status (PartnerDocuments.paymentInfo member))
    with PartnerDocuments.NoPagado in Hcase.
  exact (proj1 Hcase).
Defined.

(** Marking the second member keeps the rule on the listed page. *)
Lemma handleUpdateLoteMedido_keeps_documented_lots_measured_witness :
  NoDup (PartnerDocuments.id <$> PartnerDocuments.sociosConDocumentos loaded_page)
  ∧ PartnerDocumentsPage.documented_lots_measured
      (PartnerDocuments.sociosConDocumentos loaded_page)
  ∧ PartnerDocumentsPage.documented_lots_measured
      (PartnerDocuments.sociosConDocumentos
         (final (PartnerDocuments.handleUpdateLoteMedido true "s-2" true (DbData ())
                   loaded_page))).
Proof.
  assert (NoDup (PartnerDocuments.id <$> PartnerDocuments.sociosConDocumentos loaded_page))
    as Hnd.
  { apply (bool_decide_unpack _). by vm_compute. }
  assert (PartnerDocumentsPage.documented_lots_measured
            (PartnerDocuments.sociosConDocumentos loaded_page)) as Hinv.
  { intros socio Hin Hdocs.
    apply elem_of_cons in Hin as [->|Hin]; [reflexivity|].
    apply elem_of_cons in Hin as [->|Hin]; [vm_compute in Hdocs; discriminate Hdocs|].
    by apply elem_of_nil in Hin. }
  split; [exact Hnd|]. split; [exact Hinv|].
  exact (handleUpdateLoteMedido_keeps_documented_lots_measured loaded_page true "s-2" true
           (DbData ()) Hnd Hinv).
Defined.

(** The first member has a plan: the upload column does not ask for both
    documents, and the member is measured. *)
Lemma missingDocs_after_fetch_witness :
  member ∈ PartnerDocuments.sociosConDocumentos
             (final (PartnerDocuments.fetchAllData (DbData [member_row]) (DbData [])
                       (DbData []) empty_page))
  ∧ (PartnerDocumentsPage.missingDocs member ≠ PartnerDocumentsPage.requiredDocumentTypes →
     PartnerDocuments.is_lote_medido member = Some true).
Proof.
  assert (member ∈ PartnerDocuments.sociosConDocumentos
                     (final (PartnerDocuments.fetchAllData (DbData [member_row]) (DbData [])
                               (DbData []) empty_page))) as Hin.
  { apply list_elem_of_here. }
  split; [exact Hin|].
  exact (proj1 (proj2 (missingDocs_after_fetch empty_page (DbData [member_row]) (DbData [])
                         (DbData []) member Hin))).
Defined.

(** Unmarking the documented member alone: every row is blocked. *)
Lemma handleBulkUpdateLoteMedido_refused_witness :
  (true = false ∨ fst (PartnerDocumentsPage.bulk_targets false [member]) = [])
  ∧ PartnerDocumentsPage.listing
      (final (PartnerDocumentsPage.handleBulkUpdateLoteMedido true false [member]
                (DbData ()) same_members documents_page))
    = PartnerDocumentsPage.listing documents_page.
Proof.
  assert (true = false ∨ fst (PartnerDocumentsPage.bulk_targets false [member]) = []) as H.
  { right. by vm_compute. }
  split; [exact H|].
  exact (proj1 (proj2 (proj2 (handleBulkUpdateLoteMedido_refused true false [member]
                                (DbData ()) same_members documents_page H)))).
Defined.

(** Unmarking both members when the backend times out. *)
Lemma handleBulkUpdateLoteMedido_outcome_witness :
  fst (PartnerDocumentsPage.bulk_targets false [member; plain_member]) ≠ []
  ∧ PartnerDocumentsPage.isBulkUpdating
      (final (PartnerDocumentsPage.handleBulkUpdateLoteMedido true false
                [member; plain_member] (DbError "timeout") same_members documents_page))
    = false.
Proof.
  assert (fst (PartnerDocumentsPage.bulk_targets false [member; plain_member]) ≠ []) as H.
  { vm_compute. discriminate. }
  split; [exact H|].
  exact (proj1 (proj2 (handleBulkUpdateLoteMedido_outcome false [member; plain_member]
                         (DbError "timeout") same_members documents_page H))).
Defined.

(** The path of the plan inside its bucket. *)
Lemma file_path_of_public_url_witness :
  Forall (λ seg, contains_char "/"%char seg = false)
         ([""; "storage"; "v1"; "object"] ++ "planos" :: ["s-1"; "plano-7.pdf"])
  ∧ ("public" ∉ [""; "storage"; "v1"; "object"])
  ∧ js_join "/" ["s-1"; "plano-7.pdf"] ≠ ""
  ∧ PartnerDocumentsPage.file_path
      (js_join "/" ([""; "storage"; "v1"; "object"]
                    ++ "public" :: "planos" :: ["s-1"; "plano-7.pdf"]))
    = inr (js_join "/" ["s-1"; "plano-7.pdf"]).
Proof.
  assert (Forall (λ seg, contains_char "/"%char seg = false)
                 ([""; "storage"; "v1"; "object"] ++ "planos" :: ["s-1"; "plano-7.pdf"]))
    as Hsegs.
  { repeat (constructor; [reflexivity|]). constructor. }
  assert ("public" ∉ [""; "storage"; "v1"; "object"]) as Hpre.
  { apply (bool_decide_unpack _). by vm_compute. }
  assert (js_join "/" ["s-1"; "plano-7.pdf"] ≠ "") as Hrest.
  { vm_compute. discriminate. }
  split; [exact Hsegs|]. split; [exact Hpre|]. split; [exact Hrest|].
  exact (file_path_of_public_url [""; "storage"; "v1"; "object"] "planos"
           ["s-1"; "plano-7.pdf"] Hsegs Hpre Hrest).
Defined.

Lemma file_path_is_suffix_witness :
  PartnerDocumentsPage.file_path plan_pathname = inr "s-1/plano-7.pdf"
  ∧ "s-1/plano-7.pdf" ≠ "".
Proof.
  assert (PartnerDocumentsPage.file_path plan_pathname = inr "s-1/plano-7.pdf") as H.
  { by vm_compute. }
  split; [exact H|].
  exact (proj1 (file_path_is_suffix plan_pathname "s-1/plano-7.pdf" H)).
Defined.

(** Deleting the plan when the storage refuses: the record is deleted all the
    same. *)
Lemma handleDeleteDocument_outcome_witness :
  PartnerDocumentsPage.documentId (PartnerDocumentsPage.deleteConfirmState deletion_pending)
  = Some 7
  ∧ 7 ≠ 0
  ∧ PartnerDocumentsPage.documentLink (PartnerDocumentsPage.deleteConfirmState deletion_pending)
    = Some plan_link
  ∧ plan_link ≠ ""
  ∧ PartnerDocumentsPage.documentType (PartnerDocumentsPage.deleteConfirmState deletion_pending)
    = Some "Planos de ubicación"
  ∧ "Planos de ubicación" ≠ ""
  ∧ pathname_of plan_link = Some plan_pathname
  ∧ PartnerDocumentsPage.file_path plan_pathname = inr "s-1/plano-7.pdf"
  ∧ service_calls
      (emitted (PartnerDocumentsPage.handleDeleteDocument pathname_of storage_refuses
                  same_members deletion_pending))
    = [("storage.remove",
        {[ "bucket" := JStr (PartnerDocumentsPage.getBucketNameForDocumentType
                               "Planos de ubicación");
           "path" := JStr "s-1/plano-7.pdf" ]});
       ("socio_documentos.delete", {[ "id" := JNum (inject_Z 7) ]})].
Proof.
  assert (7 ≠ 0) as H7 by lia.
  assert (plan_link ≠ "") as Hlink by (vm_compute; discriminate).
  assert ("Planos de ubicación" ≠ "") as Htype by discriminate.
  assert (pathname_of plan_link = Some plan_pathname) as Hurl by (by vm_compute).
  assert (PartnerDocumentsPage.file_path plan_pathname = inr "s-1/plano-7.pdf") as Hpath
    by (by vm_compute).
  split; [reflexivity|]. split; [exact H7|]. split; [reflexivity|]. split; [exact Hlink|].
  split; [reflexivity|]. split; [exact Htype|]. split; [exact Hurl|]. split; [exact Hpath|].
  exact (proj1 (proj2 (proj2
           (handleDeleteDocument_outcome pathname_of storage_refuses same_members
              deletion_pending 7 plan_link "Planos de ubicación" plan_pathname
              "s-1/plano-7.pdf" eq_refl H7 eq_refl Hlink eq_refl Htype Hurl Hpath)))).
Defined.

(** Confirming a deletion with no document in the dialog. *)
Lemma handleDeleteDocument_refused_witness :
  (PartnerDocumentsPage.truthy_id
     (PartnerDocumentsPage.documentId (PartnerDocumentsPage.deleteConfirmState documents_page))
   = false
   ∨ truthy_str (PartnerDocumentsPage.documentLink
                   (PartnerDocumentsPage.deleteConfirmState documents_page)) = false
   ∨ truthy_str (PartnerDocumentsPage.documentType
                   (PartnerDocumentsPage.deleteConfirmState documents_page)) = false
   ∨ match pathname_of (default "" (PartnerDocumentsPage.documentLink
                                      (PartnerDocumentsPage.deleteConfirmState documents_page)))
     with
     | None => True
     | Some pathname => ∃ message, PartnerDocumentsPage.file_path pathname = inl message
     end)
  ∧ service_calls
      (emitted (PartnerDocumentsPage.handleDeleteDocument pathname_of storage_refuses
                  same_members documents_page)) = [].
Proof.
  match goal with |- ?H ∧ _ => assert H as Hrefused by (left; reflexivity) end.
  split; [exact Hrefused|].
  exact (proj1 (proj2 (handleDeleteDocument_refused pathname_of storage_refuses same_members
                         documents_page Hrefused))).
Defined.

(** A socio found in the local table: no lookup service is called. *)
Lemma searchSocioByDni_found_locally_witness :
  js_length "12345678" = 8%nat
  ∧ SocioTitularRegistrationFormData.formatted_date iso_date (prop observed_row "fechaNacimiento")
    = Some (JStr "1990-05-17")
  ∧ http_calls
      (emitted (SocioTitularRegistrationFormData.searchSocioByDni iso_date all_tokens
                  "12345678" (SocioTitularRegistrationFormData.SingleData (Some observed_row))
                  primary_hit secondary_hit tertiary_hit blank_component)) = [].
Proof.
  assert (SocioTitularRegistrationFormData.formatted_date iso_date
            (prop observed_row "fechaNacimiento") = Some (JStr "1990-05-17")) as Hdate
    by (by vm_compute).
  split; [reflexivity|]. split; [exact Hdate|].
  exact (proj1 (proj2 (proj2
           (searchSocioByDni_found_locally iso_date all_tokens "12345678" observed_row
              (JStr "1990-05-17") primary_hit secondary_hit tertiary_hit blank_component
              eq_refl Hdate)))).
Defined.

(** A DNI the local table does not know: the form is the one the lookup
    leaves. *)
Lemma searchSocioByDni_falls_back_to_lookup_witness :
  js_length "12345678" = 8%nat
  ∧ (∀ data, SocioTitularRegistrationFormData.SingleError "PGRST116" "no rows"
             ≠ SocioTitularRegistrationFormData.SingleData (Some data))
  ∧ SocioTitularRegistrationFormData.registration
      (final (SocioTitularRegistrationFormData.searchSocioByDni iso_date all_tokens
                "12345678" (SocioTitularRegistrationFormData.SingleError "PGRST116" "no rows")
                primary_hit secondary_hit tertiary_hit blank_component))
    = final (SocioTitularRegistrationForm.fetchReniecDataAndPopulate all_tokens "12345678"
               primary_hit secondary_hit tertiary_hit
               (final (SocioTitularRegistrationFormData.clear_lookup_fields blank_form))).
Proof.
  assert (∀ data, SocioTitularRegistrationFormData.SingleError "PGRST116" "no rows"
                  ≠ SocioTitularRegistrationFormData.SingleData (Some data)) as Hmiss.
  { intros data H. discriminate H. }
  split; [reflexivity|]. split; [exact Hmiss|].
  destruct (searchSocioByDni_falls_back_to_lookup iso_date all_tokens "12345678"
              (SocioTitularRegistrationFormData.SingleError "PGRST116" "no rows")
              primary_hit secondary_hit tertiary_hit blank_component eq_refl Hmiss)
    as (reported & _ & _ & _ & H).
  exact H.
Defined.

(** Loading the observed socio and saving the form as it is. *)
Lemma observation_status_round_trip_witness :
  SocioTitularRegistrationFormData.formatted_date iso_date (prop observed_row "fechaNacimiento")
  = Some (JStr "1990-05-17")
  ∧ prop (SocioTitularRegistrationForm.dataToSave
            (SocioTitularRegistrationForm.form
               (final (SocioTitularRegistrationFormData.fetchSocio iso_date (Some "s-1")
                         (SocioTitularRegistrationFormData.SingleData (Some observed_row))
                         blank_form))))
         "isObservado"
    = js_or (prop observed_row "isObservado") (JBool false).
Proof.
  assert (SocioTitularRegistrationFormData.formatted_date iso_date
            (prop observed_row "fechaNacimiento") = Some (JStr "1990-05-17")) as Hdate
    by (by vm_compute).
  split; [exact Hdate|].
  exact (proj1 (observation_status_round_trip iso_date "s-1" observed_row (JStr "1990-05-17")
                  (SocioTitularRegistrationForm.form
                     (final (SocioTitularRegistrationFormData.fetchSocio iso_date (Some "s-1")
                               (SocioTitularRegistrationFormData.SingleData (Some observed_row))
                               blank_form)))
                  blank_form Hdate (fun _ _ => eq_refl))).
Defined.

(** A registration that goes through. *)
Lemma handleConfirmSubmit_outcome_witness :
  SocioTitularRegistrationForm.dataToConfirm pending_confirmation = Some valid_values
  ∧ SocioTitularRegistrationForm.isConfirmingSubmission
      (final (SocioTitularRegistrationForm.handleConfirmSubmit None (DbData []) (DbData ())
                pending_confirmation)) = false.
Proof.
  split; [reflexivity|].
  exact (proj1 (proj2 (handleConfirmSubmit_outcome None (DbData []) (DbData ())
                         pending_confirmation valid_values eq_refl))).
Defined.

(** The lots of the first member once loaded. *)
Lemma fetchStatusAndLot_initial_witness :
  "s-1" ≠ ""
  ∧ SocioStatusAndDocuments.isLoading
      (final (SocioStatusAndDocuments.fetchStatusAndLot "s-1" (DbData (Some status_row))
                lots_loading)) = false.
Proof.
  assert ("s-1" ≠ "") as H by discriminate.
  split; [exact H|].
  exact (proj1 (fetchStatusAndLot_initial "s-1" status_row lots_loading H)).
Defined.

(** Saving the lots of the first member right after loading them. *)
Lemma handleBulkUpdate_after_load_witness :
  "s-1" ≠ "" ∧ "s-1" ≠ "mock-1" ∧ "s-1" ≠ "mock-2"
  ∧ SocioStatusAndDocuments.lots
      (final (SocioStatusAndDocuments.handleBulkUpdate "s-1" (DbData ())
                (final (SocioStatusAndDocuments.fetchStatusAndLot "s-1"
                          (DbData (Some status_row)) lots_loading))))
    = SocioStatusAndDocuments.lots
        (final (SocioStatusAndDocuments.fetchStatusAndLot "s-1" (DbData (Some status_row))
                  lots_loading)).
Proof.
  assert ("s-1" ≠ "") as H by discriminate.
  assert ("s-1" ≠ "mock-1") as H1 by discriminate.
  assert ("s-1" ≠ "mock-2") as H2 by discriminate.
  split; [exact H|]. split; [exact H1|]. split; [exact H2|].
  exact (proj1 (handleBulkUpdate_after_load "s-1" status_row (DbData ()) lots_loading
                  H H1 H2)).
Defined.

(** The selection of the loaded lots: two of the three lots are measured, so
    the header box is not checked. *)
Lemma selection_ok_preserved_witness :
  SocioStatusAndDocuments.selection_ok lots_loaded
  ∧ SocioStatusAndDocuments.selection_ok
      (final (SocioStatusAndDocuments.handleSelectAll true lots_loaded)).
Proof.
  assert (SocioStatusAndDocuments.selection_ok lots_loaded) as Hok.
  { split; [apply (bool_decide_unpack _); by vm_compute|].
    split; [apply (bool_decide_unpack _); by vm_compute|].
    intros x Hx. vm_compute in Hx. vm_compute.
    inversion Hx as [|? ? ? Hx']; subst; [apply list_elem_of_here|].
    inversion Hx' as [|? ? ? Hx'']; subst; [do 2 apply list_elem_of_further; apply list_elem_of_here|].
    inversion Hx''. }
  split; [exact Hok|].
  exact (proj1 (proj2 (selection_ok_preserved lots_loaded Hok)) true).
Defined.

(** A receipt issued for the client of the page. *)
Lemma onSubmit_steps_witness :
  RecibosPage.clientData receipt_page
  = Some (list_to_map [("id", JStr "s-1"); ("razon_social", JStr "ANA QUISPE ROJAS");
                       ("numero_documento", JStr "12345678")])
  ∧ truthy (prop (list_to_map [("id", JStr "s-1"); ("razon_social", JStr "ANA QUISPE ROJAS");
                               ("numero_documento", JStr "12345678")] : jsobj) "id") = true
  ∧ RecibosPage.correlative receipt_page ≠ ""
  ∧ RecibosPage.isSubmitting
      (final (RecibosPage.onSubmit (fun _ => JNull) "2025-01-15" receipt_values
                all_services_ok receipt_page)) = false.
Proof.
  assert (truthy (prop (list_to_map [("id", JStr "s-1");
                                     ("razon_social", JStr "ANA QUISPE ROJAS");
                                     ("numero_documento", JStr "12345678")] : jsobj) "id")
          = true) as Hid by (by vm_compute).
  assert (RecibosPage.correlative receipt_page ≠ "") as Hcorr by discriminate.
  split; [reflexivity|]. split; [exact Hid|]. split; [exact Hcorr|].
  exact (proj1 (proj2 (onSubmit_steps (fun _ => JNull) "2025-01-15" receipt_values
                         all_services_ok receipt_page _ eq_refl Hid Hcorr))).
Defined.

(** Two receipts in a row when the correlative cannot be reloaded: both
    carry R-00012. *)
Lemma correlative_after_failed_reload_witness :
  truthy (prop second_client "id") = true
  ∧ RecibosPage.pdf_requests
      (emitted (RecibosPage.onSubmit (fun _ => JNull) "2025-01-15" receipt_values
                  all_services_ok
                  (RecibosPageSearch.receipts
                     (final (RecibosPageSearch.handleDniSearch (HttpOk (Some second_client))
                               {| RecibosPageSearch.receipts :=
                                    final (RecibosPageSearch.setValue "dni" (JStr "87654321")
                                             (final (RecibosPage.onSubmit (fun _ => JNull)
                                                       "2025-01-15" receipt_values
                                                       reload_fails receipt_page)));
                                  RecibosPageSearch.isSearching := false |})))))
    = [RecibosPage.receiptData "R-00012" second_client receipt_values].
Proof.
  assert (truthy (prop (list_to_map [("id", JStr "s-1");
                                     ("razon_social", JStr "ANA QUISPE ROJAS");
                                     ("numero_documento", JStr "12345678")] : jsobj) "id")
          = true) as Hid by (by vm_compute).
  assert (RecibosPage.correlative receipt_page ≠ "") as Hcorr by discriminate.
  assert (truthy (prop second_client "id") = true) as Hid' by (by vm_compute).
  split; [exact Hid'|].
  exact (proj2 (correlative_after_failed_reload (fun _ => JNull) "2025-01-15"
                  receipt_values receipt_values reload_fails all_services_ok receipt_page
                  _ second_client "87654321" "timeout" false eq_refl Hid Hcorr
                  (ex_intro _ () (ex_intro _ () (ex_intro _ ()
                     (conj eq_refl (conj eq_refl eq_refl)))))
                  eq_refl eq_refl Hid')).
Defined.

(** A table of three rows on its second page goes back to the first. *)
Lemma reset_page_effect_uncontrolled_witness :
  DataTable.pagination uncontrolled = None
  ∧ DataTable.onPaginationChange uncontrolled = None
  ∧ DataTable.internalRowSelection
      (snd (final (DataTable.reset_page_effect uncontrolled ((), second_page))))
    = DataTable.internalRowSelection second_page.
Proof.
  split; [reflexivity|]. split; [reflexivity|].
  exact (proj1 (proj2 (proj2 (proj2
           (reset_page_effect_uncontrolled uncontrolled () second_page eq_refl eq_refl))))).
Defined.

Example second_page_is_reset :
  DataTable.internalPagination
    (snd (final (DataTable.reset_page_effect uncontrolled ((), second_page))))
  = {| DataTable.pageIndex := 0; DataTable.pageSize := 10 |}.
Proof. reflexivity. Qed.

Example selecting_twice_lists_the_lot_twice :
  SocioStatusAndDocuments.selectedLotIds
    (final (SocioStatusAndDocuments.handleSelectLot "mock-1" true
              (final (SocioStatusAndDocuments.handleSelectLot "mock-1" true lots_loaded))))
  = ["s-1"; "mock-2"; "mock-1"; "mock-1"].
Proof. by vm_compute. Qed.

End Scenes.
